(** * Terraform AWS provider: Batch compute environment, SSM document and
      load balancer resources

    A shallow embedding of the create/read/update/delete handlers of
    [resource_aws_batch_compute_environment.go], [resource_aws_ssm_document.go]
    and [resource_aws_lb.go], and of the helpers they are built from.

    Go strings are [string] (sequences of bytes), slices are [list], a nil
    slice is [None], [map[string]interface{}] is a [gmap] from [string] to
    dynamically typed values, and a handler is a computation over the remote
    world and the [schema.ResourceData] it mutates in place, which records the
    API calls it issues. *)

From Stdlib Require Import ZArith Ascii String.
From stdpp Require Import gmap strings list fin_maps.

(** ** Go values and errors *)

(** [%q] and a quoted word inside a format string. *)
Definition quoted (s : string) : string :=
  String (ascii_of_nat 34) s +:+ String (ascii_of_nat 34) EmptyString.

(** A value held in an [interface{}] by the configuration store. List
    elements and map values of the schemas at hand are strings, sets of
    strings or flat objects. *)
Inductive GoValue : Type :=
| VNil
| VString (s : string)
| VInt (n : Z)
| VBool (b : bool)
| VStrings (l : list string)
| VMap (m : gmap string string)
| VObjects (l : list (gmap string string)).

#[global] Instance GoValue_eq_dec : EqDecision GoValue.
Proof. solve_decision. Defined.

#[global] Instance GoValue_inhabited : Inhabited GoValue := populate VNil.

(** [v.(string)]: the asserted value, the zero value where the assertion
    does not hold. *)
Definition as_string (v : GoValue) : string :=
  match v with VString s => s | _ => "" end.

Definition as_strings (v : GoValue) : list string :=
  match v with VStrings l => l | _ => [] end.

Definition as_map (v : GoValue) : gmap string string :=
  match v with VMap m => m | _ => ∅ end.

Definition as_objects (v : GoValue) : list (gmap string string) :=
  match v with VObjects l => l | _ => [] end.

(** [t, ok := m[k].(string)]: a missing key yields the nil interface, on which
    the assertion fails. *)
Definition assert_string (v : option GoValue) : string * bool :=
  match v with
  | Some (VString s) => (s, true)
  | _ => ("", false)
  end.

(** A [map[string]interface{}] read from a [TypeMap] attribute whose
    elements are [TypeString]. *)
Definition interface_map (m : gmap string string) : gmap string GoValue :=
  VString <$> m.

(** Go [error] values: an AWS SDK error with its machine-readable code, the
    results of [fmt.Errorf] (with no error operand, with one formatted by
    [%s] or [%#v], with one wrapped by [%w], with a slice of errors printed
    by [%v]) and the two errors of the framework's poller. *)
Inductive error : Type :=
| AWSErr (code message : string)
| Errorf (text : string)
| ErrorfS (text : string) (cause : error)
| ErrorfW (text : string) (cause : error)
| ErrorfV (text : string) (operands : list string)
| TimeoutError (lastState : string)
| UnexpectedStateError (state : string).

(** [e'] reports [e]: it is [e], or an [fmt.Errorf] whose operand reports
    [e]. *)
Fixpoint reports (e' e : error) : Prop :=
  e' = e \/
  match e' with
  | ErrorfS _ c | ErrorfW _ c => reports c e
  | _ => False
  end.

(** The [Error()] text. *)
Fixpoint Error (e : error) : string :=
  match e with
  | AWSErr code message => code +:+ ": " +:+ message
  | Errorf text => text
  | ErrorfS text c | ErrorfW text c => text +:+ Error c
  | ErrorfV text ops => text +:+ "[" +:+ String.concat " " ops +:+ "]"
  | TimeoutError lastState => "timeout while waiting for state to become as expected (last state: " +:+ lastState +:+ ")"
  | UnexpectedStateError state => "unexpected state " +:+ state
  end.

(** ** Strings: [strings.Split(s, ",")] and [strings.Join(l, ",")] *)

Definition comma : ascii := ","%char.

Fixpoint split_on (sep : ascii) (s : string) : list string :=
  match s with
  | EmptyString => [""]
  | String c s' =>
      if Ascii.eqb c sep then "" :: split_on sep s'
      else match split_on sep s' with
           | h :: t => String c h :: t
           | [] => [String c ""]
           end
  end.

Definition Split (s : string) : list string := split_on comma s.

Fixpoint Join (l : list string) : string :=
  match l with
  | [] => ""
  | [x] => x
  | x :: l' => x +:+ String comma (Join l')
  end.

Fixpoint has_comma (s : string) : bool :=
  match s with
  | EmptyString => false
  | String c s' => Ascii.eqb c comma || has_comma s'
  end.

(** ** SSM document: pure helpers *)

Definition SSM_DOCUMENT_PERMISSIONS_BATCH_LIMIT : nat := 20.

(** [ssm.DocumentPermissionTypeShare]. *)
Definition DocumentPermissionTypeShare : string := "Share".
(** [ssm.ErrCodeInvalidDocument]. *)
Definition ErrCodeInvalidDocument : string := "InvalidDocument".

Definition validateSSMDocumentPermissions (v : gmap string GoValue) : list error :=
  let k := "permissions" in
  let '(t, hasType) := assert_string (v !! "type") in
  let '(_, hasAccountIds) := assert_string (v !! "account_ids") in
  let errors : list error := [] in
  let errors :=
    if hasType then
      if bool_decide (t ≠ DocumentPermissionTypeShare)
      then errors ++ [Errorf (quoted k +:+ ": only Share " +:+ quoted "type" +:+ " supported")]
      else errors
    else errors ++ [Errorf (quoted k +:+ ": " +:+ quoted "type" +:+ " must be defined")] in
  let errors :=
    if negb hasAccountIds
    then errors ++ [Errorf (quoted k +:+ ": " +:+ quoted "account_ids" +:+ " must be defined")]
    else errors in
  errors.

(** The block that [setDocumentPermissions] runs on the old and on the new
    permissions and [deleteDocumentPermissions] on the current ones:
    [if v, ok := permissions["account_ids"]; ok && v.(string) != ""] then the
    parts of [strings.Split(v, ",")], else the empty slice. *)
Definition permissionsAccountIds (permissions : gmap string GoValue) : list string :=
  match permissions !! "account_ids" with
  | Some v => if bool_decide (as_string v ≠ "") then Split (as_string v) else []
  | None => []
  end.

(** The encoding of [getDocumentPermissions]: the string it stores under
    ["account_ids"] for the account ids the API reports. *)
Definition joinAccountIds (account_ids : list string) : string :=
  let ids := "" in
  if bool_decide (length account_ids = 1) then default "" (account_ids !! 0)
  else if bool_decide (1 < length account_ids) then Join account_ids
  else ids.

(** The permissions map [getDocumentPermissions] returns ([None] is its nil
    map). *)
Definition documentPermissionsMap (account_ids : list string) : option (gmap string string) :=
  let permissionType := "Share" in
  let ids := joinAccountIds account_ids in
  if bool_decide (ids = "") then None
  else Some (<["account_ids" := ids]> (<["type" := permissionType]> ∅)).

(** Modelled from the spec: [sliceContainsString] lives in another file of
    the provider; it reports whether the key is present in the slice
    (section 4.2: keys present only in old, keys present only in new). *)
Definition sliceContainsString (slice : list string) (s : string) : bool :=
  bool_decide (s ∈ slice).

(** The two loops of [setDocumentPermissions]. *)
Definition accountIdsToRemove (oldIds newIds : list string) : list string :=
  foldl (fun acc oldId => if sliceContainsString newIds oldId then acc else acc ++ [oldId])
        [] oldIds.

Definition accountIdsToAdd (oldIds newIds : list string) : list string :=
  foldl (fun acc newId => if sliceContainsString oldIds newId then acc else acc ++ [newId])
        [] newIds.

(** The batching loop of [modifyDocumentPermissions]: the state is the batch
    being filled and the batches already closed. *)
Definition batch_step (st : list string * list (list string)) (accountId : string)
  : list string * list (list string) :=
  let '(batch, batches) := st in
  let '(batch, batches) :=
    if bool_decide (length batch = SSM_DOCUMENT_PERMISSIONS_BATCH_LIMIT)
    then ([], batches ++ [batch])
    else (batch, batches) in
  (batch ++ [accountId], batches).

Definition accountIdBatches (accountIds : list string) : list (list string) :=
  let '(batch, batches) := foldl batch_step ([], []) accountIds in
  batches ++ [batch].

(** ** The configuration store: [schema.ResourceData] *)

Inductive TimeoutKey : Type := TimeoutCreate | TimeoutUpdate | TimeoutDelete.

(** Modelled from the spec: the configuration store is the framework's
    (section 6): get and set of typed fields, change detection, and a timeout
    per operation kind. It holds the resource's identity, the values of the
    prior state, the current values (the configuration, then whatever [d.Set]
    wrote), whether the resource is being created, and the timeouts, counted
    in poll intervals. *)
Record ResourceData : Type := mkResourceData {
  Id : string;
  prior : gmap string GoValue;
  attrs : gmap string GoValue;
  IsNewResource : bool;
  Timeout : TimeoutKey -> nat
}.

(** The zero value of its type (the empty string, 0, false, the empty list,
    the empty map), which [GetOk] reports as not set. *)
Definition is_zero (v : GoValue) : bool :=
  match v with
  | VNil => true
  | VString s => bool_decide (s = "")
  | VInt n => bool_decide (n = 0%Z)
  | VBool b => negb b
  | VStrings l => bool_decide (l = [])
  | VMap m => bool_decide (m = ∅)
  | VObjects l => bool_decide (l = [])
  end.

Definition Get (d : ResourceData) (key : string) : GoValue :=
  default VNil (attrs d !! key).

(** [v, ok := d.GetOk(key)]: [ok] tells whether the key has been set to a
    value other than the zero value. *)
Definition GetOk (d : ResourceData) (key : string) : GoValue * bool :=
  let v := Get d key in (v, negb (is_zero v)).

Definition GetChange (d : ResourceData) (key : string) : GoValue * GoValue :=
  (default VNil (prior d !! key), Get d key).

Definition HasChange (d : ResourceData) (key : string) : bool :=
  let '(o, n) := GetChange d key in bool_decide (o ≠ n).

Definition Set_ (d : ResourceData) (key : string) (v : GoValue) : ResourceData :=
  mkResourceData (Id d) (prior d) (<[key := v]> (attrs d)) (IsNewResource d) (Timeout d).

Definition SetId (d : ResourceData) (id : string) : ResourceData :=
  mkResourceData id (prior d) (attrs d) (IsNewResource d) (Timeout d).

(** ** Requests and responses of the cloud API *)

(** [batch.CreateComputeEnvironmentInput]. The compute resource is carried
    as the configuration element it is marshalled from. *)
Record CreateComputeEnvironmentInput : Type := {
  cce_ComputeEnvironmentName : string;
  cce_ServiceRole : string;
  cce_Type : string;
  cce_State : option string;
  cce_Tags : option (gmap string string);
  cce_ComputeResources : option (gmap string string)
}.

(** [batch.ComputeEnvironmentDetail]. *)
Record ComputeEnvironmentDetail : Type := {
  ComputeEnvironmentArn : string;
  EcsClusterArn : string;
  ServiceRole : string;
  State : string;
  Status : string;
  StatusReason : string;
  Type_ : string;
  Tags : gmap string string;
  ComputeResources : gmap string string
}.

(** [batch.UpdateComputeEnvironmentInput], as [disableBatchComputeEnvironment]
    fills it. *)
Record UpdateComputeEnvironmentInput : Type := {
  uce_ComputeEnvironment : string;
  uce_State : option string
}.

(** [ssm.CreateDocumentInput]. *)
Record CreateDocumentInput : Type := {
  cd_Name : string;
  cd_Content : string;
  cd_DocumentFormat : string;
  cd_DocumentType : string;
  cd_Tags : option (gmap string string);
  cd_Attachments : option (list (gmap string string));
  cd_TargetType : option string;
  cd_VersionName : option string
}.

(** [ssm.DocumentParameter]: a nil field is [None]. *)
Record DocumentParameter : Type := {
  dp_DefaultValue : option string;
  dp_Description : option string;
  dp_Name : option string;
  dp_Type : option string
}.

(** [ssm.DocumentDescription]. *)
Record DocumentDescription : Type := {
  doc_Name : string;
  doc_CreatedDate : string;
  doc_DefaultVersion : string;
  doc_Description : string;
  doc_SchemaVersion : string;
  doc_DocumentFormat : string;
  doc_DocumentType : string;
  doc_DocumentVersion : string;
  doc_Hash : string;
  doc_HashType : string;
  doc_LatestVersion : string;
  doc_VersionName : string;
  doc_Owner : string;
  doc_PlatformTypes : list string;
  doc_Status : string;
  doc_Parameters : list DocumentParameter;
  doc_Tags : gmap string string;
  doc_TargetType : string
}.

(** [ssm.ModifyDocumentPermissionInput]. *)
Record ModifyDocumentPermissionInput : Type := {
  mdp_Name : string;
  mdp_PermissionType : string;
  mdp_AccountIdsToAdd : option (list string);
  mdp_AccountIdsToRemove : option (list string)
}.

(** [elbv2.CreateLoadBalancerInput]. *)
Record CreateLoadBalancerInput : Type := {
  clb_Name : string;
  clb_Type : string;
  clb_Tags : option (gmap string string);
  clb_Scheme : option string;
  clb_SecurityGroups : option (list string);
  clb_Subnets : option (list string);
  clb_SubnetMappings : option (list (gmap string string));
  clb_IpAddressType : option string;
  clb_CustomerOwnedIpv4Pool : option string
}.

(** [elbv2.LoadBalancer], as far as the handlers at hand read it. *)
Record LoadBalancer : Type := {
  LoadBalancerArn : string;
  LoadBalancerName : string
}.

(** [ec2.NetworkInterface]. *)
Record NetworkInterface : Type := {
  NetworkInterfaceId : string;
  AttachmentId : string
}.

(** A call of the cloud API with its input. *)
Inductive Request : Type :=
| batch_CreateComputeEnvironment (input : CreateComputeEnvironmentInput)
| batch_DescribeComputeEnvironments (computeEnvironments : list string)
| batch_UpdateComputeEnvironment (input : UpdateComputeEnvironmentInput)
| batch_DeleteComputeEnvironment (computeEnvironment : string)
| ssm_CreateDocument (input : CreateDocumentInput)
| ssm_DescribeDocument (name : string)
| ssm_GetDocument (name documentFormat documentVersion : string)
| ssm_DeleteDocument (name : string)
| ssm_DescribeDocumentPermission (name permissionType : string)
| ssm_ModifyDocumentPermission (input : ModifyDocumentPermissionInput)
| ssm_waiter_DocumentActive (name : string)
| ssm_waiter_DocumentDeleted (name : string)
| elbv2_CreateLoadBalancer (input : CreateLoadBalancerInput)
| elbv2_DeleteLoadBalancer (loadBalancerArn : string)
| elbv2_waiter_LoadBalancerActive (loadBalancerArn : string)
| ec2_DescribeNetworkInterfaces (filters : list (string * list string))
| ec2_detachNetworkInterfaces (nis : list NetworkInterface)
| ec2_deleteNetworkInterfaces (nis : list NetworkInterface).

(** What a handler does that can be observed from outside: a call of the
    cloud API with the error it returned ([None] for nil), [d.SetId], and a
    line written to the log. *)
Inductive Event : Type :=
| EvCall (req : Request) (err : option error)
| EvSetId (id : string)
| EvLog (line : string).

(** ** Handlers as computations *)

(** What a handler runs on: the remote world and the resource data it was
    handed. *)
Record St (W : Type) : Type := mkSt { world : W; rd : ResourceData }.
Arguments mkSt {W} _ _.
Arguments world {W} _.
Arguments rd {W} _.

(** A computation returns an error (Go's [return err]) or a value, the
    state it leaves (the resource data is mutated in place, so what was written
    before an error stays written) and the events it produced, in order. *)
Definition M (W A : Type) : Type := St W -> (error + A) * St W * list Event.

#[global] Instance M_ret {W} : MRet (M W) :=
  fun A a s => (inr a, s, []).

#[global] Instance M_bind {W} : MBind (M W) :=
  fun A B f m s =>
    let '(r, s1, ev1) := m s in
    match r with
    | inl e => (inl e, s1, ev1)
    | inr a => let '(r2, s2, ev2) := f a s1 in (r2, s2, ev1 ++ ev2)
    end.

#[global] Instance M_fmap {W} : FMap (M W) :=
  fun A B f m => a ← m; mret (f a).

Definition fail {W A} (e : error) : M W A := fun s => (inl e, s, []).

Definition emit {W} (ev : Event) : M W unit := fun s => (inr tt, s, [ev]).

(** [err := f()]: the error of a computation as a value. *)
Definition catch {W A} (m : M W A) : M W (error + A) :=
  fun s => let '(r, s1, ev1) := m s in (inr r, s1, ev1).

(** [if err != nil { return wrap(err) }]. *)
Definition check {W A} (wrap : error -> error) (r : error + A) : M W A :=
  match r with inl err => fail (wrap err) | inr a => mret a end.

(** [err == nil]. *)
Definition succeeded {A} (r : error + A) : bool :=
  match r with inr _ => true | inl _ => false end.

(** The [err] of a Go [(value, err)] pair. *)
Definition err_of {A} (r : error + A) : option error :=
  match r with inr _ => None | inl e => Some e end.

(** A call of the remote API: the world answers and moves on, the call is
    recorded. *)
Definition api {W A} (req : Request) (f : W -> (error + A) * W) : M W (error + A) :=
  fun s =>
    let '(r, w') := f (world s) in
    (inr r, mkSt w' (rd s), [EvCall req (err_of r)]).

(** A step of the framework that consults the world without being an API
    call (unique names). *)
Definition ask {W A} (f : W -> A * W) : M W A :=
  fun s => let '(a, w') := f (world s) in (inr a, mkSt w' (rd s), []).

Definition log {W} (line : string) : M W unit := emit (EvLog line).

Definition dGet {W} (key : string) : M W GoValue :=
  fun s => (inr (Get (rd s) key), s, []).

Definition dGetOk {W} (key : string) : M W (GoValue * bool) :=
  fun s => (inr (GetOk (rd s) key), s, []).

Definition dGetChange {W} (key : string) : M W (GoValue * GoValue) :=
  fun s => (inr (GetChange (rd s) key), s, []).

Definition dHasChange {W} (key : string) : M W bool :=
  fun s => (inr (HasChange (rd s) key), s, []).

Definition dId {W} : M W string :=
  fun s => (inr (Id (rd s)), s, []).

Definition dTimeout {W} (key : TimeoutKey) : M W nat :=
  fun s => (inr (Timeout (rd s) key), s, []).

(** [d.Set] of a value of the attribute's type does not fail. *)
Definition dSet {W} (key : string) (v : GoValue) : M W unit :=
  fun s => (inr tt, mkSt (world s) (Set_ (rd s) key v), []).

Definition dSetId {W} (id : string) : M W unit :=
  fun s => (inr tt, mkSt (world s) (SetId (rd s) id), [EvSetId id]).

(** ** The clients threaded through every handler *)

Record BatchAPI (W : Type) : Type := {
  CreateComputeEnvironment : CreateComputeEnvironmentInput -> W -> (error + unit) * W;
  DescribeComputeEnvironments : list string -> W -> (error + list ComputeEnvironmentDetail) * W;
  UpdateComputeEnvironment : UpdateComputeEnvironmentInput -> W -> (error + unit) * W;
  DeleteComputeEnvironment : string -> W -> (error + unit) * W
}.
Arguments CreateComputeEnvironment {W} _ _ _.
Arguments DescribeComputeEnvironments {W} _ _ _.
Arguments UpdateComputeEnvironment {W} _ _ _.
Arguments DeleteComputeEnvironment {W} _ _ _.

(** The SSM client, with the two waiters of the provider's
    [service/ssm/waiter] package, which are taken as they answer. A
    describe or get output may come back nil. *)
Record SSMAPI (W : Type) : Type := {
  CreateDocument : CreateDocumentInput -> W -> (error + DocumentDescription) * W;
  DescribeDocument : string -> W -> (error + option DocumentDescription) * W;
  GetDocument : string -> string -> string -> W -> (error + option string) * W;
  DeleteDocument : string -> W -> (error + unit) * W;
  DescribeDocumentPermission : string -> string -> W -> (error + list string) * W;
  ModifyDocumentPermission : ModifyDocumentPermissionInput -> W -> (error + unit) * W;
  DocumentActive : string -> W -> (error + unit) * W;
  DocumentDeleted : string -> W -> (error + unit) * W
}.
Arguments CreateDocument {W} _ _ _.
Arguments DescribeDocument {W} _ _ _.
Arguments GetDocument {W} _ _ _ _ _.
Arguments DeleteDocument {W} _ _ _.
Arguments DescribeDocumentPermission {W} _ _ _ _.
Arguments ModifyDocumentPermission {W} _ _ _.
Arguments DocumentActive {W} _ _ _.
Arguments DocumentDeleted {W} _ _ _.

(** The ELBv2 client with the waiter of [service/elbv2/waiter]. *)
Record ELBv2API (W : Type) : Type := {
  CreateLoadBalancer : CreateLoadBalancerInput -> W -> (error + list LoadBalancer) * W;
  DeleteLoadBalancer : string -> W -> (error + unit) * W;
  LoadBalancerActive : string -> nat -> W -> (error + unit) * W
}.
Arguments CreateLoadBalancer {W} _ _ _.
Arguments DeleteLoadBalancer {W} _ _ _.
Arguments LoadBalancerActive {W} _ _ _ _.

(** The EC2 client with [detachNetworkInterfaces] and
    [deleteNetworkInterfaces], which live in another file of the provider. *)
Record EC2API (W : Type) : Type := {
  DescribeNetworkInterfaces : list (string * list string) -> W -> (error + list NetworkInterface) * W;
  detachNetworkInterfaces : list NetworkInterface -> W -> (error + unit) * W;
  deleteNetworkInterfaces : list NetworkInterface -> W -> (error + unit) * W
}.
Arguments DescribeNetworkInterfaces {W} _ _ _.
Arguments detachNetworkInterfaces {W} _ _ _.
Arguments deleteNetworkInterfaces {W} _ _ _.

(** The [AWSClient] behind [meta]: the service clients, the provider's tag
    configuration (the [keyvaluetags] operations are taken as given), the
    framework's generator of unique names, and the number of poll intervals in
    [waiter.LoadBalancerNetworkInterfaceDetachTimeout]. *)
Record AWSClient (W : Type) : Type := {
  batchconn : BatchAPI W;
  ssmconn : SSMAPI W;
  elbv2conn : ELBv2API W;
  ec2conn : EC2API W;
  partition : string;
  region : string;
  accountid : string;
  MergeTags : gmap string string -> gmap string string;
  IgnoreAws : gmap string string -> gmap string string;
  IgnoreConfig : gmap string string -> gmap string string;
  RemoveDefaultConfig : gmap string string -> gmap string string;
  PrefixedUniqueId : string -> W -> string * W;
  LoadBalancerNetworkInterfaceDetachTimeout : nat
}.
Arguments batchconn {W} _.
Arguments ssmconn {W} _.
Arguments elbv2conn {W} _.
Arguments ec2conn {W} _.
Arguments partition {W} _.
Arguments region {W} _.
Arguments accountid {W} _.
Arguments MergeTags {W} _ _.
Arguments IgnoreAws {W} _ _.
Arguments IgnoreConfig {W} _ _.
Arguments RemoveDefaultConfig {W} _ _.
Arguments PrefixedUniqueId {W} _ _ _.
Arguments LoadBalancerNetworkInterfaceDetachTimeout {W} _.

(** [resource.UniqueId()] is [resource.PrefixedUniqueId("terraform-")]. *)
Definition UniqueId {W} (meta : AWSClient W) : W -> string * W :=
  PrefixedUniqueId meta "terraform-".

(** ** The state poller *)

(** [resource.StateChangeConf]: [sc_Timeout] is the number of poll intervals
    that fit in the timeout. *)
Record StateChangeConf (W R : Type) : Type := {
  Pending : list string;
  Target : list string;
  Refresh : M W (option R * string * option error);
  sc_Timeout : nat;
  MinTimeout : nat
}.
Arguments Pending {W R} _.
Arguments Target {W R} _.
Arguments Refresh {W R} _.
Arguments sc_Timeout {W R} _.
Arguments MinTimeout {W R} _.

(** Modelled from the spec: [WaitForState] is the framework's (section 4.1).
    Refresh at once; an error of the refresh ends the session with that error;
    a status in the target set ends it with the payload; a status in neither
    set ends it as unexpected; a pending status sleeps one interval and
    repeats, and when no interval is left the session ends with a timeout
    error that carries the last status. *)
Fixpoint poll {W R} (conf : StateChangeConf W R) (intervals : nat) : M W (error + option R) :=
  r ← Refresh conf;
  let '(payload, status, err) := r in
  match err with
  | Some e => mret (inl e)
  | None =>
      if bool_decide (status ∈ Target conf) then mret (inr payload)
      else if bool_decide (status ∈ Pending conf) then
        match intervals with
        | 0 => mret (inl (TimeoutError status))
        | S n => poll conf n
        end
      else mret (inl (UnexpectedStateError status))
  end.

Definition WaitForState {W R} (conf : StateChangeConf W R) : M W (error + option R) :=
  poll conf (sc_Timeout conf).

Inductive RetryError : Type :=
| RetryableError (e : error)
| NonRetryableError (e : error).

(** Modelled from the spec: [resource.Retry] is the framework's (section
    4.2, retry policy). A retryable failure is retried until the timeout, after
    which the last attempt's error is surfaced. *)
Fixpoint Retry {W} (intervals : nat) (f : M W (option RetryError)) : M W (option error) :=
  r ← f;
  match r with
  | None => mret None
  | Some (NonRetryableError e) => mret (Some e)
  | Some (RetryableError e) =>
      match intervals with
      | 0 => mret (Some e)
      | S n => Retry n f
      end
  end.

(** [tfresource.TimedOut]. *)
Definition TimedOut (err : option error) : bool :=
  match err with Some (TimeoutError _) => true | _ => false end.

(** Modelled from the spec: [isAWSErr(err, code, "")] lives in another file
    of the provider; an error carries a machine-readable code (section 6),
    looked up through [%w] wrapping. *)
Fixpoint isAWSErr (err : error) (code : string) : bool :=
  match err with
  | AWSErr c _ => bool_decide (c = code)
  | ErrorfW _ cause => isAWSErr cause code
  | _ => false
  end.

(** ** Batch compute environment *)

Definition CETypeManaged : string := "MANAGED".
Definition CEStateDisabled : string := "DISABLED".
Definition CEStatusCreating : string := "CREATING".
Definition CEStatusUpdating : string := "UPDATING".
Definition CEStatusDeleting : string := "DELETING".
Definition CEStatusDeleted : string := "DELETED".
Definition CEStatusValid : string := "VALID".

(** The slice with the flattened compute resource. A compute resource is
    carried as a flat object on both sides, so that flattening keeps its
    fields. *)
Definition flattenBatchComputeResources (computeResource : gmap string string)
  : list (gmap string string) :=
  let result := [] in
  let m := computeResource in
  result ++ [m].

Section Batch.
Context {W : Type} (meta : AWSClient W).

Definition resourceAwsBatchComputeEnvironmentStatusRefreshFunc (computeEnvironmentName : string)
  : M W (option (list ComputeEnvironmentDetail) * string * option error) :=
  r ← api (batch_DescribeComputeEnvironments [computeEnvironmentName])
          (DescribeComputeEnvironments (batchconn meta) [computeEnvironmentName]);
  match r with
  | inl err => mret (None, "failed", Some err)
  | inr result =>
      match result with
      | [] => mret (None, "failed",
                    Some (Errorf "One compute environment is expected, but AWS return no compute environment"))
      | computeEnvironment :: _ => mret (Some result, Status computeEnvironment, None)
      end
  end.

Definition resourceAwsBatchComputeEnvironmentDeleteRefreshFunc (computeEnvironmentName : string)
  : M W (option (list ComputeEnvironmentDetail) * string * option error) :=
  r ← api (batch_DescribeComputeEnvironments [computeEnvironmentName])
          (DescribeComputeEnvironments (batchconn meta) [computeEnvironmentName]);
  match r with
  | inl err => mret (None, "failed", Some err)
  | inr result =>
      match result with
      | [] => mret (Some result, CEStatusDeleted, None)
      | computeEnvironment :: _ => mret (Some result, Status computeEnvironment, None)
      end
  end.

Definition resourceAwsBatchComputeEnvironmentRead : M W unit :=
  computeEnvironmentName ← as_string <$> dGet "compute_environment_name";
  log "[DEBUG] Read compute environment";;
  r ← api (batch_DescribeComputeEnvironments [computeEnvironmentName])
          (DescribeComputeEnvironments (batchconn meta) [computeEnvironmentName]);
  result ← check (ErrorfW "error reading Batch Compute Environment: ") r;
  match result with
  | [] =>
      log "[WARN] Batch Compute Environment not found, removing from state";;
      dSetId "";;
      mret tt
  | computeEnvironment :: _ =>
      dSet "service_role" (VString (ServiceRole computeEnvironment));;
      dSet "state" (VString (State computeEnvironment));;
      let tags := IgnoreConfig meta (IgnoreAws meta (Tags computeEnvironment)) in
      dSet "tags" (VMap (RemoveDefaultConfig meta tags));;
      dSet "tags_all" (VMap tags);;
      dSet "type" (VString (Type_ computeEnvironment));;
      (if bool_decide (Type_ computeEnvironment = CETypeManaged)
       then dSet "compute_resources"
                 (VObjects (flattenBatchComputeResources (ComputeResources computeEnvironment)))
       else mret tt);;
      dSet "arn" (VString (ComputeEnvironmentArn computeEnvironment));;
      dSet "ecs_cluster_arn" (VString (EcsClusterArn computeEnvironment));;
      dSet "status" (VString (Status computeEnvironment));;
      dSet "status_reason" (VString (StatusReason computeEnvironment));;
      mret tt
  end.

Definition resourceAwsBatchComputeEnvironmentCreate : M W unit :=
  tags ← MergeTags meta ∘ as_map <$> dGet "tags";
  (* Build the compute environment name. *)
  computeEnvironmentName ←
    ('(v, ok) ← dGetOk "compute_environment_name";
     if ok : bool then mret (as_string v)
     else
       '(v, ok) ← dGetOk "compute_environment_name_prefix";
       if ok : bool then ask (PrefixedUniqueId meta (as_string v))
       else ask (UniqueId meta));
  dSet "compute_environment_name" (VString computeEnvironmentName);;
  serviceRole ← as_string <$> dGet "service_role";
  computeEnvironmentType ← as_string <$> dGet "type";
  state ← ('(v, ok) ← dGetOk "state";
           mret (if ok : bool then Some (as_string v) else None));
  let inputTags :=
    if bool_decide (0 < size tags) then Some (IgnoreAws meta tags) else None in
  computeResources ←
    (if bool_decide (computeEnvironmentType = CETypeManaged) then
       computeResources ← as_objects <$> dGet "compute_resources";
       match computeResources with
       | [] => fail (Errorf "One compute environment is expected, but no compute environments are set")
       | computeResource :: _ =>
           (* input.ComputeResources is filled field by field from this element *)
           mret (Some computeResource)
       end
     else mret None);
  let input := {|
    cce_ComputeEnvironmentName := computeEnvironmentName;
    cce_ServiceRole := serviceRole;
    cce_Type := computeEnvironmentType;
    cce_State := state;
    cce_Tags := inputTags;
    cce_ComputeResources := computeResources |} in
  log "[DEBUG] Create compute environment";;
  r ← api (batch_CreateComputeEnvironment input)
          (CreateComputeEnvironment (batchconn meta) input);
  check id r;;
  dSetId computeEnvironmentName;;
  timeout ← dTimeout TimeoutCreate;
  let stateConf := {|
    Pending := [CEStatusCreating];
    Target := [CEStatusValid];
    Refresh := resourceAwsBatchComputeEnvironmentStatusRefreshFunc computeEnvironmentName;
    sc_Timeout := timeout;
    MinTimeout := 5 |} in
  r ← WaitForState stateConf;
  check id r;;
  resourceAwsBatchComputeEnvironmentRead.

Definition deleteBatchComputeEnvironment (computeEnvironment : string) (timeout : nat)
  : M W unit :=
  r ← api (batch_DeleteComputeEnvironment computeEnvironment)
          (DeleteComputeEnvironment (batchconn meta) computeEnvironment);
  check id r;;
  let stateChangeConf := {|
    Pending := [CEStatusDeleting];
    Target := [CEStatusDeleted];
    Refresh := resourceAwsBatchComputeEnvironmentDeleteRefreshFunc computeEnvironment;
    sc_Timeout := timeout;
    MinTimeout := 5 |} in
  r ← WaitForState stateChangeConf;
  check id r;;
  mret tt.

Definition disableBatchComputeEnvironment (computeEnvironment : string) (timeout : nat)
  : M W unit :=
  let input := {|
    uce_ComputeEnvironment := computeEnvironment;
    uce_State := Some CEStateDisabled |} in
  r ← api (batch_UpdateComputeEnvironment input)
          (UpdateComputeEnvironment (batchconn meta) input);
  check id r;;
  let stateChangeConf := {|
    Pending := [CEStatusUpdating];
    Target := [CEStatusValid];
    Refresh := resourceAwsBatchComputeEnvironmentStatusRefreshFunc computeEnvironment;
    sc_Timeout := timeout;
    MinTimeout := 5 |} in
  r ← WaitForState stateChangeConf;
  check id r;;
  mret tt.

Definition resourceAwsBatchComputeEnvironmentDelete : M W unit :=
  computeEnvironmentName ← as_string <$> dGet "compute_environment_name";
  log "[DEBUG] Disabling Batch Compute Environment";;
  timeout ← dTimeout TimeoutDelete;
  err ← catch (disableBatchComputeEnvironment computeEnvironmentName timeout);
  check (ErrorfS "error disabling Batch Compute Environment: ") err;;
  log "[DEBUG] Deleting Batch Compute Environment";;
  timeout ← dTimeout TimeoutDelete;
  err ← catch (deleteBatchComputeEnvironment computeEnvironmentName timeout);
  check (ErrorfS "error deleting Batch Compute Environment: ") err;;
  mret tt.

End Batch.

(** ** SSM document *)

(** [for _, x := range l { ... }] with a body that may return an error. *)
Fixpoint for_each {W A} (l : list A) (body : A -> M W unit) : M W unit :=
  match l with
  | [] => mret tt
  | x :: l' => body x;; for_each l' body
  end.

Definition expandSsmAttachmentsSources (a : list (gmap string string))
  : option (list (gmap string string)) :=
  if bool_decide (length a = 0) then None
  else Some (foldl (fun results at_ => results ++ [at_]) [] a).

(** The loop of [resourceAwsSsmDocumentRead] over [doc.Parameters]. *)
Definition flattenDocumentParameter (dp : DocumentParameter) : gmap string string :=
  let param : gmap string string := ∅ in
  let param := match dp_DefaultValue dp with Some v => <["default_value" := v]> param | None => param end in
  let param := match dp_Description dp with Some v => <["description" := v]> param | None => param end in
  let param := match dp_Name dp with Some v => <["name" := v]> param | None => param end in
  let param := match dp_Type dp with Some v => <["type" := v]> param | None => param end in
  param.

Section SSM.
Context {W : Type} (meta : AWSClient W).

Definition modifyDocumentPermissions (name : string)
    (accountIdsToAdd accountIdstoRemove : option (list string)) : M W unit :=
  match accountIdsToAdd with
  | Some accountIdsToAdd =>
      let accountIdsToAddBatches := accountIdBatches accountIdsToAdd in
      for_each accountIdsToAddBatches (fun accountIdsToAdd =>
        let input := {|
          mdp_Name := name;
          mdp_PermissionType := "Share";
          mdp_AccountIdsToAdd := Some accountIdsToAdd;
          mdp_AccountIdsToRemove := None |} in
        r ← api (ssm_ModifyDocumentPermission input)
                (ModifyDocumentPermission (ssmconn meta) input);
        check id r)
  | None => mret tt
  end;;
  match accountIdstoRemove with
  | Some accountIdstoRemove =>
      let accountIdsToRemoveBatches := accountIdBatches accountIdstoRemove in
      for_each accountIdsToRemoveBatches (fun accountIdsToRemove =>
        let input := {|
          mdp_Name := name;
          mdp_PermissionType := "Share";
          mdp_AccountIdsToAdd := None;
          mdp_AccountIdsToRemove := Some accountIdsToRemove |} in
        r ← api (ssm_ModifyDocumentPermission input)
                (ModifyDocumentPermission (ssmconn meta) input);
        check id r)
  | None => mret tt
  end;;
  mret tt.

Definition setDocumentPermissions : M W unit :=
  log "[INFO] Setting permissions for document";;
  changed ← dHasChange "permissions";
  if changed : bool then
    '(o, n) ← dGetChange "permissions";
    let oldPermissions := interface_map (as_map o) in
    let newPermissions := interface_map (as_map n) in
    let oldPermissionsAccountIds := permissionsAccountIds oldPermissions in
    let newPermissionsAccountIds := permissionsAccountIds newPermissions in
    (* Since AccountIdsToRemove has higher priority than AccountIdsToAdd,
       we filter out accounts from both lists *)
    let accountIdsToRemove := accountIdsToRemove oldPermissionsAccountIds newPermissionsAccountIds in
    let accountIdsToAdd := accountIdsToAdd oldPermissionsAccountIds newPermissionsAccountIds in
    name ← as_string <$> dGet "name";
    err ← catch (modifyDocumentPermissions name (Some accountIdsToAdd) (Some accountIdsToRemove));
    check (ErrorfS "error modifying SSM document permissions: ") err
  else mret tt.

Definition getDocumentPermissions : M W (option (gmap string string)) :=
  log "[INFO] Getting permissions for document";;
  let permissionType := "Share" in
  name ← as_string <$> dGet "name";
  r ← api (ssm_DescribeDocumentPermission name permissionType)
          (DescribeDocumentPermission (ssmconn meta) name permissionType);
  account_ids ← check (ErrorfS "Error setting permissions for SSM document: ") r;
  mret (documentPermissionsMap account_ids).

Definition deleteDocumentPermissions : M W unit :=
  log "[INFO] Removing permissions from document";;
  permission ← interface_map ∘ as_map <$> dGet "permissions";
  if bool_decide (is_Some (permission !! "account_ids")) then
    let accountIdsToRemove := permissionsAccountIds permission in
    name ← as_string <$> dGet "name";
    err ← catch (modifyDocumentPermissions name None (Some accountIdsToRemove));
    check (ErrorfS "error removing SSM document permissions: ") err
  else mret tt.

Definition resourceAwsSsmDocumentRead : M W unit :=
  id_ ← dId;
  log "[DEBUG] Reading SSM Document";;
  r ← api (ssm_DescribeDocument id_) (DescribeDocument (ssmconn meta) id_);
  match r with
  | inl err =>
      if isAWSErr err ErrCodeInvalidDocument then
        log "[WARN] SSM Document not found so removing from state";;
        dSetId "";;
        mret tt
      else fail (ErrorfS "error describing SSM Document: " err)
  | inr None => fail (Errorf "error describing SSM Document: empty result")
  | inr (Some doc) =>
      r ← api (ssm_GetDocument (doc_Name doc) (doc_DocumentFormat doc) "$LATEST")
              (GetDocument (ssmconn meta) (doc_Name doc) (doc_DocumentFormat doc) "$LATEST");
      getDocumentOutput ← check (ErrorfS "error getting SSM Document: ") r;
      match getDocumentOutput with
      | None => fail (Errorf "error getting SSM Document: empty result")
      | Some content =>
          dSet "content" (VString content);;
          dSet "created_date" (VString (doc_CreatedDate doc));;
          dSet "default_version" (VString (doc_DefaultVersion doc));;
          dSet "description" (VString (doc_Description doc));;
          dSet "schema_version" (VString (doc_SchemaVersion doc));;
          dSet "document_format" (VString (doc_DocumentFormat doc));;
          dSet "document_type" (VString (doc_DocumentType doc));;
          dSet "document_version" (VString (doc_DocumentVersion doc));;
          dSet "hash" (VString (doc_Hash doc));;
          dSet "hash_type" (VString (doc_HashType doc));;
          dSet "latest_version" (VString (doc_LatestVersion doc));;
          dSet "version_name" (VString (doc_VersionName doc));;
          dSet "name" (VString (doc_Name doc));;
          dSet "owner" (VString (doc_Owner doc));;
          dSet "platform_types" (VStrings (doc_PlatformTypes doc));;
          let arn := "arn:" +:+ partition meta +:+ ":ssm:" +:+ region meta +:+ ":"
                     +:+ accountid meta +:+ ":document/" +:+ doc_Name doc in
          dSet "arn" (VString arn);;
          dSet "status" (VString (doc_Status doc));;
          gp ← catch getDocumentPermissions;
          gp ← check (ErrorfS "Error reading SSM document permissions: ") gp;
          dSet "permissions" (match gp with Some m => VMap m | None => VNil end);;
          let params := foldl (fun params dp => params ++ [flattenDocumentParameter dp])
                              [] (doc_Parameters doc) in
          dSet "parameter" (VObjects params);;
          let tags := IgnoreConfig meta (IgnoreAws meta (doc_Tags doc)) in
          dSet "tags" (VMap (RemoveDefaultConfig meta tags));;
          dSet "tags_all" (VMap tags);;
          dSet "target_type" (VString (doc_TargetType doc));;
          mret tt
      end
  end.

Definition resourceAwsSsmDocumentCreate : M W unit :=
  tags ← MergeTags meta ∘ as_map <$> dGet "tags";
  (* Validates permissions keys, if set, to be type and account_ids
     since ValidateFunc validates only the value not the key. *)
  '(v, ok) ← dGetOk "permissions";
  (if ok : bool then
     let errors := validateSSMDocumentPermissions (interface_map (as_map v)) in
     if bool_decide (0 < length errors)
     then fail (ErrorfV "Error validating Permissions: " (Error <$> errors))
     else mret tt
   else mret tt);;
  log "[INFO] Creating SSM Document";;
  name ← as_string <$> dGet "name";
  content ← as_string <$> dGet "content";
  document_format ← as_string <$> dGet "document_format";
  document_type ← as_string <$> dGet "document_type";
  let docTags :=
    if bool_decide (0 < size tags) then Some (IgnoreAws meta tags) else None in
  attachments ← ('(v, ok) ← dGetOk "attachments_source";
                 mret (if ok : bool then expandSsmAttachmentsSources (as_objects v) else None));
  target_type ← ('(v, ok) ← dGetOk "target_type";
                 mret (if ok : bool then Some (as_string v) else None));
  version_name ← ('(v, ok) ← dGetOk "version_name";
                  mret (if ok : bool then Some (as_string v) else None));
  let docInput := {|
    cd_Name := name;
    cd_Content := content;
    cd_DocumentFormat := document_format;
    cd_DocumentType := document_type;
    cd_Tags := docTags;
    cd_Attachments := attachments;
    cd_TargetType := target_type;
    cd_VersionName := version_name |} in
  r ← api (ssm_CreateDocument docInput) (CreateDocument (ssmconn meta) docInput);
  resp ← check (ErrorfS "Error creating SSM document: ") r;
  dSetId (doc_Name resp);;
  '(v, ok) ← dGetOk "permissions";
  (if ok && negb (bool_decide (v = VNil))
   then setDocumentPermissions
   else log "[DEBUG] Not setting permissions");;
  id_ ← dId;
  r ← api (ssm_waiter_DocumentActive id_) (DocumentActive (ssmconn meta) id_);
  check (ErrorfW "error waiting for SSM Document to be Active: ") r;;
  resourceAwsSsmDocumentRead.

Definition resourceAwsSsmDocumentDelete : M W unit :=
  deleteDocumentPermissions;;
  log "[INFO] Deleting SSM Document";;
  name ← as_string <$> dGet "name";
  r ← api (ssm_DeleteDocument name) (DeleteDocument (ssmconn meta) name);
  check id r;;
  id_ ← dId;
  r ← api (ssm_waiter_DocumentDeleted id_) (DocumentDeleted (ssmconn meta) id_);
  match r with
  | inl err =>
      if isAWSErr err ErrCodeInvalidDocument then mret tt
      else fail (ErrorfW "error waiting for SSM Document to be Deleted: " err)
  | inr _ => mret tt
  end.

End SSM.

(** ** Load balancer *)

Definition slash : ascii := "/"%char.

(** [regexp.MustCompile("([^/]+/[^/]+/[^/]+)$").FindStringSubmatch(arn)]
    matches when the text ends in three non-empty segments separated by
    slashes; the submatch is these three segments. *)
Definition getLbNameFromArn (arn : string) : error + string :=
  match reverse (split_on slash arn) with
  | s3 :: s2 :: s1 :: _ =>
      if bool_decide (s1 ≠ "" ∧ s2 ≠ "" ∧ s3 ≠ "")
      then inr (s1 +:+ "/" +:+ s2 +:+ "/" +:+ s3)
      else inl (Errorf ("unexpected ARN format: " +:+ quoted arn))
  | _ => inl (Errorf ("unexpected ARN format: " +:+ quoted arn))
  end.

(** One element of ["subnet_mapping"] as an [elbv2.SubnetMapping]. *)
Definition expandSubnetMapping (subnetMap : gmap string string) : gmap string string :=
  let field k := default "" (subnetMap !! k) in
  let m : gmap string string := {["SubnetId" := field "subnet_id"]} in
  let m := if bool_decide (field "allocation_id" ≠ "")
           then <["AllocationId" := field "allocation_id"]> m else m in
  let m := if bool_decide (field "private_ipv4_address" ≠ "")
           then <["PrivateIPv4Address" := field "private_ipv4_address"]> m else m in
  let m := if bool_decide (field "ipv6_address" ≠ "")
           then <["IPv6Address" := field "ipv6_address"]> m else m in
  m.

Section LB.
Context {W : Type} (meta : AWSClient W).

(** [resourceAwsLbUpdate], which [resourceAwsLbCreate] ends with: the handler
    that reconciles attributes, security groups, subnets and tags and then
    reads the load balancer back. *)
Variable resourceAwsLbUpdate : M W unit.

Definition resourceAwsLbCreate : M W unit :=
  tags ← IgnoreAws meta ∘ as_map <$> dGet "tags";
  name ←
    ('(v, ok) ← dGetOk "name";
     if ok : bool then mret (as_string v)
     else
       '(v, ok) ← dGetOk "name_prefix";
       if ok : bool then ask (PrefixedUniqueId meta (as_string v))
       else ask (PrefixedUniqueId meta "tf-lb-"));
  dSet "name" (VString name);;
  load_balancer_type ← as_string <$> dGet "load_balancer_type";
  let elbTags := if bool_decide (0 < size tags) then Some tags else None in
  scheme ← ('(_, ok) ← dGetOk "internal";
            mret (if ok : bool then Some "internal" else None));
  security_groups ← ('(v, ok) ← dGetOk "security_groups";
                     mret (if ok : bool then Some (as_strings v) else None));
  subnets ← ('(v, ok) ← dGetOk "subnets";
             mret (if ok : bool then Some (as_strings v) else None));
  subnet_mappings ← ('(v, ok) ← dGetOk "subnet_mapping";
                     mret (if ok : bool then Some (expandSubnetMapping <$> as_objects v) else None));
  ip_address_type ← ('(v, ok) ← dGetOk "ip_address_type";
                     mret (if ok : bool then Some (as_string v) else None));
  customer_owned_ipv4_pool ← ('(v, ok) ← dGetOk "customer_owned_ipv4_pool";
                              mret (if ok : bool then Some (as_string v) else None));
  let elbOpts := {|
    clb_Name := name;
    clb_Type := load_balancer_type;
    clb_Tags := elbTags;
    clb_Scheme := scheme;
    clb_SecurityGroups := security_groups;
    clb_Subnets := subnets;
    clb_SubnetMappings := subnet_mappings;
    clb_IpAddressType := ip_address_type;
    clb_CustomerOwnedIpv4Pool := customer_owned_ipv4_pool |} in
  log "[DEBUG] ALB create configuration";;
  r ← api (elbv2_CreateLoadBalancer elbOpts) (CreateLoadBalancer (elbv2conn meta) elbOpts);
  resp ← check (ErrorfW ("error creating " +:+ load_balancer_type +:+ " Load Balancer: ")) r;
  match resp with
  | [lb] =>
      dSetId (LoadBalancerArn lb);;
      log "[INFO] LB ID";;
      timeout ← dTimeout TimeoutCreate;
      r ← api (elbv2_waiter_LoadBalancerActive (LoadBalancerArn lb))
              (LoadBalancerActive (elbv2conn meta) (LoadBalancerArn lb) timeout);
      check (ErrorfW "error waiting for Load Balancer to be active: ") r;;
      resourceAwsLbUpdate
  | _ =>
      name ← as_string <$> dGet "name";
      fail (Errorf ("no load balancers returned following creation of " +:+ name))
  end.

(* ALB automatically creates ENI(s) on creation
   but the cleanup is asynchronous and may take time
   which then blocks IGW, SG or VPC on deletion
   So we make the cleanup "synchronous" here *)
Definition cleanupLBNetworkInterfaces (lbArn : string) : M W unit :=
  name ← check id (getLbNameFromArn lbArn);
  let filters := [("attachment.instance-owner-id", ["amazon-elb"]);
                  ("description", ["ELB " +:+ name])] in
  r ← api (ec2_DescribeNetworkInterfaces filters)
          (DescribeNetworkInterfaces (ec2conn meta) filters);
  out ← check id r;
  log "[DEBUG] Found ENIs to cleanup for LB";;
  if bool_decide (length out = 0) then
    (* Nothing to cleanup *)
    mret tt
  else
    r ← api (ec2_detachNetworkInterfaces out) (detachNetworkInterfaces (ec2conn meta) out);
    check id r;;
    r ← api (ec2_deleteNetworkInterfaces out) (deleteNetworkInterfaces (ec2conn meta) out);
    check id r.

Definition waitForNLBNetworkInterfacesToDetach (lbArn : string) : M W unit :=
  name ← check id (getLbNameFromArn lbArn);
  (* We cannot cleanup these ENIs ourselves as that would result in
     OperationNotPermitted: You are not allowed to manage 'ela-attach' attachments.
     yet presence of these ENIs may prevent us from deleting EIPs associated w/ the NLB *)
  let input := [("attachment.instance-owner-id", ["amazon-aws"]);
                ("attachment.attachment-id", ["ela-attach-*"]);
                ("description", ["ELB " +:+ name])] in
  err ← Retry (LoadBalancerNetworkInterfaceDetachTimeout meta)
    (r ← api (ec2_DescribeNetworkInterfaces input)
             (DescribeNetworkInterfaces (ec2conn meta) input);
     match r with
     | inl err => mret (Some (NonRetryableError err))
     | inr out =>
         let niCount := length out in
         if bool_decide (0 < niCount) then
           log "[DEBUG] Found ENIs to cleanup for NLB";;
           mret (Some (RetryableError (Errorf "waiting for ENIs to clean up")))
         else
           log "[DEBUG] ENIs gone for NLB";;
           mret None
     end);
  err ←
    (if TimedOut err then
       r ← api (ec2_DescribeNetworkInterfaces input)
               (DescribeNetworkInterfaces (ec2conn meta) input);
       out ← check (ErrorfW "error describing network inferfaces: ") r;
       let niCount := length out in
       if bool_decide (0 < niCount)
       then fail (Errorf "error waiting for ENIs to clean up")
       else mret None
     else mret err);
  match err with
  | Some err => fail (ErrorfW "error describing network inferfaces: " err)
  | None => mret tt
  end.

Definition resourceAwsLbDelete : M W unit :=
  id_ ← dId;
  log "[INFO] Deleting LB";;
  (* Destroy the load balancer *)
  r ← api (elbv2_DeleteLoadBalancer id_) (DeleteLoadBalancer (elbv2conn meta) id_);
  check (ErrorfW "error deleting LB: ") r;;
  err ← catch (cleanupLBNetworkInterfaces id_);
  (if succeeded err then mret tt
   else log "[WARN] Failed to cleanup ENIs for ALB");;
  err ← catch (waitForNLBNetworkInterfacesToDetach id_);
  (if succeeded err then mret tt
   else log "[WARN] Failed to wait for ENIs to disappear for NLB");;
  mret tt.

End LB.

(** The name [resourceAwsLbCreate] gives the load balancer, and the world
    once it is chosen: the configured name, else a unique id under the
    configured prefix, else a unique id under "tf-lb-". *)
Definition lbName {W} (meta : AWSClient W) (d : ResourceData) (w : W) : string * W :=
  let '(v, ok) := GetOk d "name" in
  if ok : bool then (as_string v, w)
  else
    let '(v, ok) := GetOk d "name_prefix" in
    if ok : bool then PrefixedUniqueId meta (as_string v) w
    else PrefixedUniqueId meta "tf-lb-" w.

(** The request [resourceAwsLbCreate] builds for the load balancer of that
    name: [elbOpts]. *)
Definition createLoadBalancerInput {W} (meta : AWSClient W) (d : ResourceData) (name : string)
  : CreateLoadBalancerInput :=
  let tags := IgnoreAws meta (as_map (Get d "tags")) in
  let set_ key := (GetOk d key).2 in
  {| clb_Name := name;
     clb_Type := as_string (Get d "load_balancer_type");
     clb_Tags := if bool_decide (0 < size tags) then Some tags else None;
     clb_Scheme := if set_ "internal" then Some "internal" else None;
     clb_SecurityGroups :=
       if set_ "security_groups" then Some (as_strings (Get d "security_groups")) else None;
     clb_Subnets := if set_ "subnets" then Some (as_strings (Get d "subnets")) else None;
     clb_SubnetMappings :=
       if set_ "subnet_mapping"
       then Some (expandSubnetMapping <$> as_objects (Get d "subnet_mapping")) else None;
     clb_IpAddressType :=
       if set_ "ip_address_type" then Some (as_string (Get d "ip_address_type")) else None;
     clb_CustomerOwnedIpv4Pool :=
       if set_ "customer_owned_ipv4_pool"
       then Some (as_string (Get d "customer_owned_ipv4_pool")) else None |}.

(** ** Observations on event traces *)

(** The calls that ask the cloud to create the resource. *)
Definition is_create (req : Request) : bool :=
  match req with
  | batch_CreateComputeEnvironment _ | ssm_CreateDocument _ | elbv2_CreateLoadBalancer _ => true
  | _ => false
  end.

Definition is_log (ev : Event) : bool :=
  match ev with EvLog _ => true | _ => false end.

Definition is_SetId (ev : Event) : bool :=
  match ev with EvSetId _ => true | _ => false end.

(** A monitor over a trace: every [d.SetId] comes after a create call that
    returned without error. [created] tells whether such a call was seen. *)
Fixpoint id_set_after_create (created : bool) (evs : list Event) : bool :=
  match evs with
  | [] => true
  | EvCall req None :: evs' => id_set_after_create (created || is_create req) evs'
  | EvCall _ (Some _) :: evs' => id_set_after_create created evs'
  | EvSetId _ :: evs' => created && id_set_after_create created evs'
  | EvLog _ :: evs' => id_set_after_create created evs'
  end.

(** How a run of a Create handler relates to its create call. *)
Inductive create_outcome {W A} : (error + A) * St W * list Event -> ResourceData -> Prop :=
| create_not_reached e s' evs d0 :
    forallb is_log evs = true ->
    Id (rd s') = Id d0 ->
    create_outcome (inl e, s', evs) d0
| create_failed pre req e e' s' d0 :
    forallb is_log pre = true ->
    is_create req = true ->
    reports e' e ->
    Id (rd s') = Id d0 ->
    create_outcome (inl e', s', pre ++ [EvCall req (Some e)]) d0
| create_succeeded pre req rest r s' d0 :
    forallb is_log pre = true ->
    is_create req = true ->
    create_outcome (r, s', pre ++ EvCall req None :: rest) d0.

(** ** A program logic for handlers *)

(** [wp m s Q]: the run of [m] from [s] ends in a result, a state and a
    trace that satisfy [Q]. *)
Definition wp {W A} (m : M W A) (s : St W)
    (Q : error + A -> St W -> list Event -> Prop) : Prop :=
  let '(r, s', evs) := m s in Q r s' evs.
Arguments wp : simpl never.

(** ** Applying permission changes on the remote side *)

(** The accounts a document is shared with after a
    [ModifyDocumentPermission] call that returned without error: the accounts
    to add are added, the accounts to remove are removed, and removal has the
    higher priority. *)
Definition applyModifyDocumentPermission (shared : gset string)
    (input : ModifyDocumentPermissionInput) : gset string :=
  (shared ∪ list_to_set (default [] (mdp_AccountIdsToAdd input)))
    ∖ list_to_set (default [] (mdp_AccountIdsToRemove input)).

(** The accounts a document is shared with after the calls of a trace. *)
Definition applyEvents (shared : gset string) (evs : list Event) : gset string :=
  foldl (fun shared ev =>
           match ev with
           | EvCall (ssm_ModifyDocumentPermission input) None =>
               applyModifyDocumentPermission shared input
           | _ => shared
           end) shared evs.

(** Applying a computed diff to a set of keys: the keys to remove are
    removed, the keys to add are added. *)
Definition applyDiff (keys : gset string) (toAdd toRemove : list string) : gset string :=
  (keys ∖ list_to_set toRemove) ∪ list_to_set toAdd.

(** ** Scripted clients *)

(** A scripted world answers the [n]-th call of a run from a table; it is
    what handlers are run against on concrete inputs. *)
Inductive Response : Type :=
| RUnit
| RComputeEnvironments (l : list ComputeEnvironmentDetail)
| RDescription (doc : DocumentDescription)
| RDocument (doc : option DocumentDescription)
| RContent (content : option string)
| RAccountIds (l : list string)
| RLoadBalancers (l : list LoadBalancer)
| RNetworkInterfaces (l : list NetworkInterface).

Definition computeEnvironment (status : string) : ComputeEnvironmentDetail := {|
  ComputeEnvironmentArn := "arn:aws:batch:us-east-1:123456789012:compute-environment/ce";
  EcsClusterArn := "arn:aws:ecs:us-east-1:123456789012:cluster/ce";
  ServiceRole := "arn:aws:iam::123456789012:role/batch";
  State := "ENABLED";
  Status := status;
  StatusReason := "";
  Type_ := "UNMANAGED";
  Tags := ∅;
  ComputeResources := ∅ |}.

Definition document (name : string) : DocumentDescription := {|
  doc_Name := name;
  doc_CreatedDate := "2021-03-01T00:00:00Z";
  doc_DefaultVersion := "1";
  doc_Description := "";
  doc_SchemaVersion := "2.2";
  doc_DocumentFormat := "JSON";
  doc_DocumentType := "Command";
  doc_DocumentVersion := "1";
  doc_Hash := "";
  doc_HashType := "Sha256";
  doc_LatestVersion := "1";
  doc_VersionName := "";
  doc_Owner := "123456789012";
  doc_PlatformTypes := ["Linux"];
  doc_Status := "Active";
  doc_Parameters := [];
  doc_Tags := ∅;
  doc_TargetType := "" |}.

Definition loadBalancer (name : string) : LoadBalancer := {|
  LoadBalancerArn := "arn:aws:elasticloadbalancing:us-east-1:123456789012:loadbalancer/app/" +:+ name +:+ "/50dc6c495c0c9188";
  LoadBalancerName := name |}.

(** The answers of a cloud in which every call goes through. *)
Definition all_ok (n : nat) (req : Request) : error + Response :=
  match req with
  | batch_DescribeComputeEnvironments _ => inr (RComputeEnvironments [computeEnvironment CEStatusValid])
  | ssm_CreateDocument input => inr (RDescription (document (cd_Name input)))
  | ssm_DescribeDocument name => inr (RDocument (Some (document name)))
  | ssm_GetDocument _ _ _ => inr (RContent (Some "{}"))
  | ssm_DescribeDocumentPermission _ _ => inr (RAccountIds [])
  | elbv2_CreateLoadBalancer input => inr (RLoadBalancers [loadBalancer (clb_Name input)])
  | ec2_DescribeNetworkInterfaces _ => inr (RNetworkInterfaces [])
  | _ => inr RUnit
  end.

Definition mistyped : error := Errorf "SerializationError".

Definition scriptedBatch (answer : nat -> Request -> error + Response) : BatchAPI nat := {|
  CreateComputeEnvironment input n :=
    (match answer n (batch_CreateComputeEnvironment input) with
     | inl e => inl e | inr _ => inr tt end, S n);
  DescribeComputeEnvironments names n :=
    (match answer n (batch_DescribeComputeEnvironments names) with
     | inl e => inl e | inr (RComputeEnvironments l) => inr l | inr _ => inl mistyped end, S n);
  UpdateComputeEnvironment input n :=
    (match answer n (batch_UpdateComputeEnvironment input) with
     | inl e => inl e | inr _ => inr tt end, S n);
  DeleteComputeEnvironment name n :=
    (match answer n (batch_DeleteComputeEnvironment name) with
     | inl e => inl e | inr _ => inr tt end, S n) |}.

Definition scriptedSSM (answer : nat -> Request -> error + Response) : SSMAPI nat := {|
  CreateDocument input n :=
    (match answer n (ssm_CreateDocument input) with
     | inl e => inl e | inr (RDescription doc) => inr doc | inr _ => inl mistyped end, S n);
  DescribeDocument name n :=
    (match answer n (ssm_DescribeDocument name) with
     | inl e => inl e | inr (RDocument doc) => inr doc | inr _ => inl mistyped end, S n);
  GetDocument name format version n :=
    (match answer n (ssm_GetDocument name format version) with
     | inl e => inl e | inr (RContent c) => inr c | inr _ => inl mistyped end, S n);
  DeleteDocument name n :=
    (match answer n (ssm_DeleteDocument name) with
     | inl e => inl e | inr _ => inr tt end, S n);
  DescribeDocumentPermission name type n :=
    (match answer n (ssm_DescribeDocumentPermission name type) with
     | inl e => inl e | inr (RAccountIds l) => inr l | inr _ => inl mistyped end, S n);
  ModifyDocumentPermission input n :=
    (match answer n (ssm_ModifyDocumentPermission input) with
     | inl e => inl e | inr _ => inr tt end, S n);
  DocumentActive name n :=
    (match answer n (ssm_waiter_DocumentActive name) with
     | inl e => inl e | inr _ => inr tt end, S n);
  DocumentDeleted name n :=
    (match answer n (ssm_waiter_DocumentDeleted name) with
     | inl e => inl e | inr _ => inr tt end, S n) |}.

Definition scriptedELBv2 (answer : nat -> Request -> error + Response) : ELBv2API nat := {|
  CreateLoadBalancer input n :=
    (match answer n (elbv2_CreateLoadBalancer input) with
     | inl e => inl e | inr (RLoadBalancers l) => inr l | inr _ => inl mistyped end, S n);
  DeleteLoadBalancer arn n :=
    (match answer n (elbv2_DeleteLoadBalancer arn) with
     | inl e => inl e | inr _ => inr tt end, S n);
  LoadBalancerActive arn timeout n :=
    (match answer n (elbv2_waiter_LoadBalancerActive arn) with
     | inl e => inl e | inr _ => inr tt end, S n) |}.

Definition scriptedEC2 (answer : nat -> Request -> error + Response) : EC2API nat := {|
  DescribeNetworkInterfaces filters n :=
    (match answer n (ec2_DescribeNetworkInterfaces filters) with
     | inl e => inl e | inr (RNetworkInterfaces l) => inr l | inr _ => inl mistyped end, S n);
  detachNetworkInterfaces nis n :=
    (match answer n (ec2_detachNetworkInterfaces nis) with
     | inl e => inl e | inr _ => inr tt end, S n);
  deleteNetworkInterfaces nis n :=
    (match answer n (ec2_deleteNetworkInterfaces nis) with
     | inl e => inl e | inr _ => inr tt end, S n) |}.

Definition scripted (answer : nat -> Request -> error + Response) : AWSClient nat := {|
  batchconn := scriptedBatch answer;
  ssmconn := scriptedSSM answer;
  elbv2conn := scriptedELBv2 answer;
  ec2conn := scriptedEC2 answer;
  partition := "aws";
  region := "us-east-1";
  accountid := "123456789012";
  MergeTags tags := tags;
  IgnoreAws tags := tags;
  IgnoreConfig tags := tags;
  RemoveDefaultConfig tags := tags;
  PrefixedUniqueId prefix n := (prefix +:+ "20210301000000000000000001", n);
  LoadBalancerNetworkInterfaceDetachTimeout := 3 |}.

(** A new resource with the given configuration, on a fresh scripted
    world; every timeout leaves room for three poll intervals. *)
Definition configured (config : list (string * GoValue)) : St nat :=
  mkSt 0 (mkResourceData "" ∅ (list_to_map config) true (fun _ => 3)).

(** An existing resource: its identity, prior state and current values. *)
Definition existing (id : string) (config : list (string * GoValue)) : St nat :=
  mkSt 0 (mkResourceData id (list_to_map config) (list_to_map config) false (fun _ => 3)).

(** ** Predicates used in the statements *)

(** [m[k]] holds a string. *)
Definition is_string (v : option GoValue) : bool :=
  match v with Some (VString _) => true | _ => false end.

(** The describe calls of a delete poll session that starts in world [w]
    report the compute environment as DELETING for at most [k] polls and then
    return an empty result set. *)
Fixpoint deleted_within {W} (meta : AWSClient W) (name : string) (k : nat) (w : W) : Prop :=
  match DescribeComputeEnvironments (batchconn meta) [name] w with
  | (inr [], _) => True
  | (inr (computeEnvironment :: _), w') =>
      Status computeEnvironment = CEStatusDeleting /\
      match k with
      | 0 => False
      | S k' => deleted_within meta name k' w'
      end
  | (inl _, _) => False
  end.

(** The calls [modifyDocumentPermissions] is to issue: one per batch, the
    additions first. *)
Definition modifyDocumentPermissionInputs (name : string)
    (accountIdsToAdd accountIdsToRemove : option (list string))
  : list ModifyDocumentPermissionInput :=
  match accountIdsToAdd with
  | Some ids =>
      (fun batch => {| mdp_Name := name; mdp_PermissionType := "Share";
                       mdp_AccountIdsToAdd := Some batch;
                       mdp_AccountIdsToRemove := None |}) <$> accountIdBatches ids
  | None => []
  end ++
  match accountIdsToRemove with
  | Some ids =>
      (fun batch => {| mdp_Name := name; mdp_PermissionType := "Share";
                       mdp_AccountIdsToAdd := None;
                       mdp_AccountIdsToRemove := Some batch |}) <$> accountIdBatches ids
  | None => []
  end.

(** The successful call for an input. *)
Definition ok_call (input : ModifyDocumentPermissionInput) : Event :=
  EvCall (ssm_ModifyDocumentPermission input) None.

(** What a run of calls over [inputs] leaves in the trace: all of them when
    it succeeds, those before the failing one and the failing one when it
    fails. *)
Definition calls_issued {A} (r : error + A) (evs : list Event)
    (inputs : list ModifyDocumentPermissionInput) : Prop :=
  match r with
  | inr _ => evs = ok_call <$> inputs
  | inl e => exists k input,
      inputs !! k = Some input /\
      evs = (ok_call <$> take k inputs)
            ++ [EvCall (ssm_ModifyDocumentPermission input) (Some e)]
  end.

(** ** Scenarios *)

(** Describe answers with two compute environments for one name. *)
Definition two_results (n : nat) (req : Request) : error + Response :=
  match req with
  | batch_DescribeComputeEnvironments _ =>
      inr (RComputeEnvironments [computeEnvironment "VALID"; computeEnvironment "INVALID"])
  | elbv2_CreateLoadBalancer input =>
      inr (RLoadBalancers [loadBalancer (clb_Name input); loadBalancer "other"])
  | _ => all_ok n req
  end.

(** Describe fails with a server error. *)
Definition describe_fails (n : nat) (req : Request) : error + Response :=
  match req with
  | batch_DescribeComputeEnvironments _ => inl (AWSErr "ServerException" "internal failure")
  | _ => all_ok n req
  end.

(** A compute environment that is disabled at once, reports DELETING at
    the first poll after its deletion and is gone at the second. *)
Definition deleting_then_gone (n : nat) (req : Request) : error + Response :=
  match req with
  | batch_DescribeComputeEnvironments _ =>
      if bool_decide (n < 2) then inr (RComputeEnvironments [computeEnvironment CEStatusValid])
      else if bool_decide (n = 3) then inr (RComputeEnvironments [computeEnvironment CEStatusDeleting])
      else inr (RComputeEnvironments [])
  | _ => all_ok n req
  end.

(** The waiter for the deletion of a document finds it gone. *)
Definition document_gone (n : nat) (req : Request) : error + Response :=
  match req with
  | ssm_waiter_DocumentDeleted _ => inl (AWSErr ErrCodeInvalidDocument "Document does not exist")
  | _ => all_ok n req
  end.

(** The network interfaces of a deleted load balancer cannot be listed. *)
Definition cleanup_fails (n : nat) (req : Request) : error + Response :=
  match req with
  | ec2_DescribeNetworkInterfaces _ => inl (AWSErr "UnauthorizedOperation" "not authorized")
  | _ => all_ok n req
  end.

Definition lbArn : string :=
  "arn:aws:elasticloadbalancing:us-east-1:123456789012:loadbalancer/app/lb/50dc6c495c0c9188".


(** ** Further observations *)

(** [strings.Join(l, sep)] for a one-byte separator. *)
Fixpoint join_on (sep : ascii) (l : list string) : string :=
  match l with
  | [] => ""
  | [x] => x
  | x :: l' => x +:+ String sep (join_on sep l')
  end.

Fixpoint has_char (c : ascii) (s : string) : bool :=
  match s with
  | EmptyString => false
  | String c' s' => Ascii.eqb c' c || has_char c s'
  end.

(** A segment of a load balancer name: not empty, no slash. *)
Definition is_segment (s : string) : Prop := s ≠ "" /\ has_char slash s = false.

(** The requests of a trace, in order. *)
Definition requests (evs : list Event) : list Request :=
  omap (fun ev => match ev with EvCall req _ => Some req | _ => None end) evs.

(** A describe call for one compute environment that returned without
    error. *)
Definition describe_ok (name : string) : Event :=
  EvCall (batch_DescribeComputeEnvironments [name]) None.

(** The number of batches [modifyDocumentPermissions] cuts a list of [n]
    account ids into. *)
Definition batch_count (n : nat) : nat :=
  Nat.max 1 ((n + (SSM_DOCUMENT_PERMISSIONS_BATCH_LIMIT - 1)) / SSM_DOCUMENT_PERMISSIONS_BATCH_LIMIT).

(** The describe calls of a poll session that starts in world [w] report the
    status [pending] for at most [k] polls and then the status [target]; the
    response that reports it and the world after it. *)
Fixpoint settles {W} (meta : AWSClient W) (name pending target : string) (k : nat) (w : W)
  : option (list ComputeEnvironmentDetail * W) :=
  match DescribeComputeEnvironments (batchconn meta) [name] w with
  | (inr (computeEnvironment :: rest), w') =>
      if bool_decide (Status computeEnvironment = target)
      then Some (computeEnvironment :: rest, w')
      else if bool_decide (Status computeEnvironment = pending) then
        match k with
        | 0 => None
        | S k' => settles meta name pending target k' w'
        end
      else None
  | _ => None
  end.

(** The describe calls of a poll session that starts in world [w] report the
    status [pending] [n + 1] times in a row; the world after them. *)
Fixpoint lingers {W} (meta : AWSClient W) (name pending : string) (n : nat) (w : W)
  : option W :=
  match DescribeComputeEnvironments (batchconn meta) [name] w with
  | (inr (computeEnvironment :: _), w') =>
      if bool_decide (Status computeEnvironment = pending) then
        match n with
        | 0 => Some w'
        | S n' => lingers meta name pending n' w'
        end
      else None
  | _ => None
  end.

(** The name [resourceAwsBatchComputeEnvironmentCreate] gives the compute
    environment, and the world once it is chosen: the configured name, else a
    unique id under the configured prefix, else a unique id. *)
Definition computeEnvironmentName {W} (meta : AWSClient W) (d : ResourceData) (w : W)
  : string * W :=
  let '(v, ok) := GetOk d "compute_environment_name" in
  if ok : bool then (as_string v, w)
  else
    let '(v, ok) := GetOk d "compute_environment_name_prefix" in
    if ok : bool then PrefixedUniqueId meta (as_string v) w
    else UniqueId meta w.

(** The request [resourceAwsBatchComputeEnvironmentCreate] builds for the
    compute environment of that name: [input]. *)
Definition createComputeEnvironmentInput {W} (meta : AWSClient W) (d : ResourceData)
    (name : string) : CreateComputeEnvironmentInput :=
  let tags := MergeTags meta (as_map (Get d "tags")) in
  let computeEnvironmentType := as_string (Get d "type") in
  {| cce_ComputeEnvironmentName := name;
     cce_ServiceRole := as_string (Get d "service_role");
     cce_Type := computeEnvironmentType;
     cce_State := if (GetOk d "state").2 then Some (as_string (Get d "state")) else None;
     cce_Tags := if bool_decide (0 < size tags) then Some (IgnoreAws meta tags) else None;
     cce_ComputeResources :=
       if bool_decide (computeEnvironmentType = CETypeManaged)
       then head (as_objects (Get d "compute_resources")) else None |}.

(** The first three polls report CREATING, the fourth VALID. *)
Definition creating_then_valid (n : nat) (req : Request) : error + Response :=
  match req with
  | batch_DescribeComputeEnvironments _ =>
      if bool_decide (n < 4) then inr (RComputeEnvironments [computeEnvironment CEStatusCreating])
      else inr (RComputeEnvironments [computeEnvironment CEStatusValid])
  | _ => all_ok n req
  end.

(** The compute environment never leaves CREATING. *)
Definition creating_forever (n : nat) (req : Request) : error + Response :=
  match req with
  | batch_DescribeComputeEnvironments _ =>
      inr (RComputeEnvironments [computeEnvironment CEStatusCreating])
  | _ => all_ok n req
  end.

(** The compute environment is not there. *)
Definition nothing_found (n : nat) (req : Request) : error + Response :=
  match req with
  | batch_DescribeComputeEnvironments _ => inr (RComputeEnvironments [])
  | _ => all_ok n req
  end.

(** The calls that change the sharing of a document. *)
Definition is_modify (req : Request) : bool :=
  match req with ssm_ModifyDocumentPermission _ => true | _ => false end.

(** The calls that only remove accounts. *)
Definition is_removal (req : Request) : bool :=
  match req with
  | ssm_ModifyDocumentPermission input =>
      bool_decide (mdp_AccountIdsToAdd input = None)
  | _ => false
  end.

(** The document is gone. *)
Definition document_missing (n : nat) (req : Request) : error + Response :=
  match req with
  | ssm_DescribeDocument _ => inl (AWSErr ErrCodeInvalidDocument "Document does not exist")
  | _ => all_ok n req
  end.

(** The document is shared with two accounts. *)
Definition shared_with_two (n : nat) (req : Request) : error + Response :=
  match req with
  | ssm_DescribeDocumentPermission _ _ => inr (RAccountIds ["111111111111"; "222222222222"])
  | _ => all_ok n req
  end.

(** A document shared with two accounts. *)
Definition shared_document : St nat :=
  existing "doc"
    [("name", VString "doc");
     ("permissions", VMap (<["account_ids" := "111111111111,222222222222"]>
                             {["type" := "Share"]}))].

(** Deleting the document is refused. *)
Definition delete_document_fails (n : nat) (req : Request) : error + Response :=
  match req with
  | ssm_DeleteDocument _ => inl (AWSErr "AccessDeniedException" "not authorized")
  | _ => all_ok n req
  end.

(** The permissions of the document cannot be read. *)
Definition describe_permission_fails (n : nat) (req : Request) : error + Response :=
  match req with
  | ssm_DescribeDocumentPermission _ _ => inl (AWSErr "AccessDeniedException" "not authorized")
  | _ => all_ok n req
  end.

(** The document named in a call that changes its sharing. *)
Definition modified_document (req : Request) : option string :=
  match req with
  | ssm_ModifyDocumentPermission input => Some (mdp_Name input)
  | _ => None
  end.

(** A document shared with two accounts, to be shared with two others, one of
    them new. *)
Definition reshared_document : St nat :=
  mkSt 0 (mkResourceData "doc"
            (list_to_map [("name", VString "doc");
                          ("permissions", VMap (<["account_ids" := "111111111111,222222222222"]>
                                                  {["type" := "Share"]}))])
            (list_to_map [("name", VString "doc");
                          ("permissions", VMap (<["account_ids" := "222222222222,333333333333"]>
                                                  {["type" := "Share"]}))])
            false (fun _ => 3)).

(** The filters [cleanupLBNetworkInterfaces] describes the network
    interfaces of the load balancer [name] with. *)
Definition cleanupFilters (name : string) : list (string * list string) :=
  [("attachment.instance-owner-id", ["amazon-elb"]);
   ("description", ["ELB " +:+ name])].

(** The filters [waitForNLBNetworkInterfacesToDetach] describes them with. *)
Definition detachFilters (name : string) : list (string * list string) :=
  [("attachment.instance-owner-id", ["amazon-aws"]);
   ("attachment.attachment-id", ["ela-attach-*"]);
   ("description", ["ELB " +:+ name])].

(** The describe calls under [filters] that start in world [w] find network
    interfaces at most [k] times and then none: how often they found some,
    and the world after the call that found none. *)
Fixpoint interfaces_gone {W} (meta : AWSClient W) (filters : list (string * list string))
    (k : nat) (w : W) : option (nat * W) :=
  match DescribeNetworkInterfaces (ec2conn meta) filters w with
  | (inr [], w') => Some (0, w')
  | (inr (_ :: _), w') =>
      match k with
      | 0 => None
      | S k' => (fun found => (S found.1, found.2)) <$> interfaces_gone meta filters k' w'
      end
  | (inl _, _) => None
  end.

(** The describe calls under [filters] that start in world [w] find network
    interfaces [n + 1] times in a row; the world after them. *)
Fixpoint interfaces_linger {W} (meta : AWSClient W) (filters : list (string * list string))
    (n : nat) (w : W) : option W :=
  match DescribeNetworkInterfaces (ec2conn meta) filters w with
  | (inr (_ :: _), w') =>
      match n with
      | 0 => Some w'
      | S n' => interfaces_linger meta filters n' w'
      end
  | _ => None
  end.

(** What one attempt of the wait leaves in the trace when it finds network
    interfaces, and when it finds none. *)
Definition found_interfaces (filters : list (string * list string)) : list Event :=
  [EvCall (ec2_DescribeNetworkInterfaces filters) None;
   EvLog "[DEBUG] Found ENIs to cleanup for NLB"].

Definition found_none (filters : list (string * list string)) : list Event :=
  [EvCall (ec2_DescribeNetworkInterfaces filters) None;
   EvLog "[DEBUG] ENIs gone for NLB"].

(** The network interfaces of the load balancer are gone at the third
    describe call of the wait. *)
Definition interfaces_detach_late (n : nat) (req : Request) : error + Response :=
  match req with
  | ec2_DescribeNetworkInterfaces _ =>
      if bool_decide (n < 2)
      then inr (RNetworkInterfaces [{| NetworkInterfaceId := "eni-1"; AttachmentId := "ela-attach-1" |}])
      else inr (RNetworkInterfaces [])
  | _ => all_ok n req
  end.

(** The network interfaces of the load balancer stay. *)
Definition interfaces_stay (n : nat) (req : Request) : error + Response :=
  match req with
  | ec2_DescribeNetworkInterfaces _ =>
      inr (RNetworkInterfaces [{| NetworkInterfaceId := "eni-1"; AttachmentId := "eni-attach-1" |}])
  | _ => all_ok n req
  end.

(** The network interfaces of the load balancer cannot be detached. *)
Definition detach_fails (n : nat) (req : Request) : error + Response :=
  match req with
  | ec2_DescribeNetworkInterfaces _ =>
      inr (RNetworkInterfaces [{| NetworkInterfaceId := "eni-1"; AttachmentId := "eni-attach-1" |}])
  | ec2_detachNetworkInterfaces _ => inl (AWSErr "OperationNotPermitted" "not allowed")
  | _ => all_ok n req
  end.

(** The function [waitForNLBNetworkInterfacesToDetach] hands to
    [resource.Retry]: one describe call under the filters [input]. *)
Definition describeUntilDetached {W} (meta : AWSClient W) (input : list (string * list string))
  : M W (option RetryError) :=
  r ← api (ec2_DescribeNetworkInterfaces input)
          (DescribeNetworkInterfaces (ec2conn meta) input);
  match r with
  | inl err => mret (Some (NonRetryableError err))
  | inr out =>
      let niCount := length out in
      if bool_decide (0 < niCount) then
        log "[DEBUG] Found ENIs to cleanup for NLB";;
        mret (Some (RetryableError (Errorf "waiting for ENIs to clean up")))
      else
        log "[DEBUG] ENIs gone for NLB";;
        mret None
  end.



(** The load balancer never becomes active. *)
Definition never_active (n : nat) (req : Request) : error + Response :=
  match req with
  | elbv2_waiter_LoadBalancerActive _ => inl (Errorf "ResourceNotReady")
  | _ => all_ok n req
  end.


(** ** Load balancer: availability zones, Read and the subnets of a diff *)






(** [elb.ErrCodeAccessPointNotFoundException]. *)
Definition ErrCodeAccessPointNotFoundException : string := "LoadBalancerNotFound".

Definition dIsNewResource {W} : M W bool :=
  fun s => (inr (IsNewResource (rd s)), s, []).

Section LBRead.
Context {W : Type}.

(** [finder.LoadBalancerByARN] lives in another package of the provider, and
    [flattenAwsLbResource] writes attributes that are not modelled here: Read
    is parametric in both. The error code is looked up as by [isAWSErr]. *)
Variable LoadBalancerByARN : string -> W -> (error + option LoadBalancer) * W.
Variable flattenAwsLbResource : LoadBalancer -> M W unit.

Definition resourceAwsLbRead : M W unit :=
  id_ ← dId;
  r ← ask (LoadBalancerByARN id_);
  isNew ← dIsNewResource;
  if negb isNew && match r with
                   | inl err => isAWSErr err ErrCodeAccessPointNotFoundException
                   | inr _ => false
                   end
  then
    (* The ALB is gone now, so just remove it from the state *)
    log "[WARN] ALB not found in AWS, removing from state";;
    dSetId "";;
    mret tt
  else
    lb ← check (ErrorfW "error retrieving ALB: ") r;
    match lb with
    | None =>
        if isNew : bool
        then fail (Errorf "error retrieving ALB: empty output after creation")
        else
          log "[WARN] ALB not found in AWS, removing from state";;
          dSetId "";;
          mret tt
    | Some lb => flattenAwsLbResource lb
    end.

End LBRead.

Definition LoadBalancerTypeEnumNetwork : string := "network".

Section CustomizeDiff.
(** [schema.ResourceDiff] is the framework's: the diff is read through
    [Get], [Id] and [GetChange], and [SetNew] and [ForceNew] return a changed
    diff or an error; nothing more is assumed of them. A [schema.Set] of
    strings is carried as the list of its elements, nil as [VNil]. *)
Context {D : Type}.
Variable diff_Get : D -> string -> GoValue.
Variable diff_Id : D -> string.
Variable diff_GetChange : D -> string -> GoValue * GoValue.
Variable diff_SetNew : string -> GoValue -> D -> error + D.
Variable diff_ForceNew : string -> D -> error + D.

(* Load balancers of type 'network' cannot have their subnets updated at
   this time. If the type is 'network' and subnets have changed, mark the
   diff as a ForceNew operation *)
Definition customizeDiffNLBSubnets (diff : D) : error + D :=
  if bool_decide (as_string (diff_Get diff "load_balancer_type") ≠ LoadBalancerTypeEnumNetwork)
  then inr diff
  else if bool_decide (diff_Id diff = "") then inr diff
  else
    let '(o, n) := diff_GetChange diff "subnets" in
    let o := if bool_decide (o = VNil) then VStrings [] else o in
    let n := if bool_decide (n = VNil) then VStrings [] else n in
    let os : gset string := list_to_set (as_strings o) in
    let ns : gset string := list_to_set (as_strings n) in
    let remove := elements (os ∖ ns) in
    let add := elements (ns ∖ os) in
    if bool_decide (0 < length remove ∨ 0 < length add) then
      match diff_SetNew "subnets" n diff with
      | inl err => inl err
      | inr diff => diff_ForceNew "subnets" diff
      end
    else inr diff.

End CustomizeDiff.



(** * Properties *)

(** ** Strings *)


Lemma append_nil_l s : "" +:+ s = s.
Proof. reflexivity. Qed.

Lemma append_cons c x s : String c x +:+ s = String c (x +:+ s).
Proof. reflexivity. Qed.

Lemma split_on_nonempty sep s : split_on sep s ≠ [].
Proof.
  destruct s as [|c s]; cbn; [done|].
  destruct (Ascii.eqb c sep); [done|]. by destruct (split_on sep s).
Qed.

Lemma split_on_plain s : has_comma s = false -> split_on comma s = [s].
Proof.
  induction s as [|c s IH]; cbn [split_on has_comma]; [done|].
  intros [Hc Hs]%orb_false_elim. rewrite Hc, (IH Hs). done.
Qed.

Lemma split_on_cons x rest :
  has_comma x = false ->
  split_on comma (x +:+ String comma rest) = x :: split_on comma rest.
Proof.
  induction x as [|c x IH]; cbn [has_comma].
  - intros _. rewrite append_nil_l. cbn [split_on]. by rewrite Ascii.eqb_refl.
  - intros [Hc Hx]%orb_false_elim. rewrite append_cons. cbn [split_on].
    rewrite Hc, (IH Hx). done.
Qed.

Lemma Split_Join l :
  l ≠ [] -> Forall (fun id => has_comma id = false) l -> Split (Join l) = l.
Proof.
  unfold Split. induction l as [|x l IH]; [done|].
  intros _ [Hx Hl]%Forall_cons. destruct l as [|y l].
  - cbn [Join]. by apply split_on_plain.
  - change (Join (x :: y :: l)) with (x +:+ String comma (Join (y :: l))).
    rewrite split_on_cons by done. f_equal. by apply IH.
Qed.

Lemma Join_cons_nonempty x l :
  l ≠ [] -> Join (x :: l) = x +:+ String comma (Join l).
Proof. by destruct l. Qed.

Lemma Join_Split s : Join (Split s) = s.
Proof.
  unfold Split. induction s as [|c s IH]; cbn [split_on]; [done|].
  destruct (Ascii.eqb_spec c comma) as [->|Hne].
  - rewrite Join_cons_nonempty by apply split_on_nonempty.
    rewrite append_nil_l. by rewrite IH.
  - pose proof (split_on_nonempty comma s) as Hs.
    destruct (split_on comma s) as [|h t]; [done|].
    destruct t as [|h' t]; cbn [Join] in *; rewrite ?append_cons; by rewrite <- IH.
Qed.

Lemma Join_nonempty l :
  l ≠ [] -> Forall (fun id => id ≠ "") l -> Join l ≠ "".
Proof.
  destruct l as [|x l]; [done|]. intros _ [Hx _]%Forall_cons.
  destruct l; cbn [Join]; [done|]. destruct x; [done|]. by rewrite append_cons.
Qed.

Lemma joinAccountIds_Join l : joinAccountIds l = Join l.
Proof.
  unfold joinAccountIds. by destruct l as [|x [|y l]].
Qed.

(** ** Validation of the permissions map *)

Lemma validate_spec (v : gmap string GoValue) :
  (validateSSMDocumentPermissions v = [] <->
     v !! "type" = Some (VString "Share") /\ exists s, v !! "account_ids" = Some (VString s)) /\
  length (validateSSMDocumentPermissions v) =
    (if bool_decide (v !! "type" = Some (VString "Share")) then 0 else 1) +
    (if is_string (v !! "account_ids") then 0 else 1).
Proof.
  unfold validateSSMDocumentPermissions, assert_string, DocumentPermissionTypeShare.
  destruct (v !! "type") as [[]|] eqn:Ht; destruct (v !! "account_ids") as [[]|] eqn:Ha;
    cbn; repeat case_bool_decide; simplify_eq; cbn;
    (split; [split; [try done | intros [? [? ?]]; simplify_eq] | try done]); eauto.
Qed.

(** ** Batching *)

Lemma batch_step_inv ids : forall batch batches,
  length batch <= SSM_DOCUMENT_PERMISSIONS_BATCH_LIMIT ->
  Forall (fun b => length b = SSM_DOCUMENT_PERMISSIONS_BATCH_LIMIT) batches ->
  let '(batch', batches') := foldl batch_step (batch, batches) ids in
  concat batches' ++ batch' = concat batches ++ batch ++ ids /\
  length batch' <= SSM_DOCUMENT_PERMISSIONS_BATCH_LIMIT /\
  Forall (fun b => length b = SSM_DOCUMENT_PERMISSIONS_BATCH_LIMIT) batches' /\
  (batch ≠ [] \/ ids ≠ [] -> batch' ≠ []).
Proof.
  induction ids as [|x ids IH]; intros batch batches Hlen Hfull.
  - cbn. rewrite app_nil_r. split_and!; try done. by intros [?|?].
  - cbn [foldl]. unfold batch_step at 2. case_bool_decide as Hfull'.
    + specialize (IH [x] (batches ++ [batch])).
      destruct (foldl batch_step _ ids) as [batch' batches'].
      destruct IH as (Hc & Hl & Hf & Hne).
      { cbn. unfold SSM_DOCUMENT_PERMISSIONS_BATCH_LIMIT. lia. }
      { apply Forall_app. split; [done|]. by apply Forall_singleton. }
      split_and!; try done.
      * rewrite Hc, concat_app. cbn. by rewrite app_nil_r, <- !app_assoc.
      * intros _. apply Hne. by left.
    + specialize (IH (batch ++ [x]) batches).
      destruct (foldl batch_step _ ids) as [batch' batches'].
      destruct IH as (Hc & Hl & Hf & Hne).
      { rewrite length_app. cbn. lia. }
      { done. }
      split_and!; try done.
      * rewrite Hc. by rewrite <- !app_assoc.
      * intros _. apply Hne. left. by destruct batch.
Qed.

Lemma accountIdBatches_spec ids :
  concat (accountIdBatches ids) = ids /\
  Forall (fun b => length b <= SSM_DOCUMENT_PERMISSIONS_BATCH_LIMIT) (accountIdBatches ids) /\
  (exists full last, accountIdBatches ids = full ++ [last] /\
     Forall (fun b => length b = SSM_DOCUMENT_PERMISSIONS_BATCH_LIMIT) full /\
     (ids ≠ [] -> last ≠ [])).
Proof.
  unfold accountIdBatches.
  pose proof (batch_step_inv ids [] []) as H.
  destruct (foldl batch_step ([], []) ids) as [batch batches].
  destruct H as (Hc & Hl & Hf & Hne); [cbn; lia | done |].
  split_and!.
  - rewrite concat_app. cbn. by rewrite app_nil_r.
  - apply Forall_app. split; [|by apply Forall_singleton].
    eapply Forall_impl; [done|]. cbn. intros b ->. done.
  - exists batches, batch. split_and!; try done. intros ?. apply Hne. by right.
Qed.

(** ** The account-id diff *)

Lemma foldl_append_unless (p : string -> bool) l acc :
  foldl (fun acc x => if p x then acc else acc ++ [x]) acc l
  = acc ++ filter (fun x => p x = false) l.
Proof.
  revert acc. induction l as [|x l IH]; intros acc; cbn [foldl].
  - by rewrite filter_nil, app_nil_r.
  - rewrite IH, filter_cons. destruct (p x); case_decide; try done.
    by rewrite <- app_assoc.
Qed.

Lemma elem_of_accountIdsToRemove x oldIds newIds :
  x ∈ accountIdsToRemove oldIds newIds <-> x ∈ oldIds /\ x ∉ newIds.
Proof.
  unfold accountIdsToRemove. rewrite foldl_append_unless, app_nil_l.
  rewrite list_elem_of_filter. unfold sliceContainsString.
  rewrite bool_decide_eq_false. tauto.
Qed.

Lemma elem_of_accountIdsToAdd x oldIds newIds :
  x ∈ accountIdsToAdd oldIds newIds <-> x ∈ newIds /\ x ∉ oldIds.
Proof.
  unfold accountIdsToAdd. rewrite foldl_append_unless, app_nil_l.
  rewrite list_elem_of_filter. unfold sliceContainsString.
  rewrite bool_decide_eq_false. tauto.
Qed.

Lemma diff_apply (O N : list string) :
  applyDiff (list_to_set O) (accountIdsToAdd O N) (accountIdsToRemove O N) = list_to_set N.
Proof.
  unfold applyDiff. apply set_eq. intros x.
  rewrite elem_of_union, elem_of_difference, !elem_of_list_to_set.
  rewrite elem_of_accountIdsToAdd, elem_of_accountIdsToRemove.
  destruct (decide (x ∈ N)); destruct (decide (x ∈ O)); tauto.
Qed.

Lemma diff_self (N : list string) :
  accountIdsToAdd N N = [] /\ accountIdsToRemove N N = [].
Proof.
  split; apply elem_of_nil_inv; intros x.
  - rewrite elem_of_accountIdsToAdd. tauto.
  - rewrite elem_of_accountIdsToRemove. tauto.
Qed.

(** ** Rules of the program logic *)

Section Logic.
Context {W : Type}.
Implicit Types s : St W.

Lemma run_bind {A B} (m : M W A) (f : A -> M W B) s :
  (m ≫= f) s =
  let '(r, s1, ev1) := m s in
  match r with
  | inl e => (inl e, s1, ev1)
  | inr a => let '(r2, s2, ev2) := f a s1 in (r2, s2, ev1 ++ ev2)
  end.
Proof. reflexivity. Qed.

Lemma run_bind_inr {A B} (m : M W A) (f : A -> M W B) s a s1 ev1 :
  m s = (inr a, s1, ev1) ->
  (m ≫= f) s = let '(r2, s2, ev2) := f a s1 in (r2, s2, ev1 ++ ev2).
Proof. intros H. by rewrite run_bind, H. Qed.

Lemma run_bind_inl {A B} (m : M W A) (f : A -> M W B) s e s1 ev1 :
  m s = (inl e, s1, ev1) -> (m ≫= f) s = (inl e, s1, ev1).
Proof. intros H. by rewrite run_bind, H. Qed.

Lemma run_fmap {A B} (g : A -> B) (m : M W A) s :
  (g <$> m) s =
  let '(r, s1, ev1) := m s in
  match r with
  | inl e => (inl e, s1, ev1)
  | inr a => (inr (g a), s1, ev1 ++ [])
  end.
Proof. reflexivity. Qed.

Lemma wp_intro {A} (m : M W A) s (P : (error + A) * St W * list Event -> Prop) :
  wp m s (fun r s' evs => P (r, s', evs)) -> P (m s).
Proof. unfold wp. by destruct (m s) as [[r s1] e1]. Qed.

Lemma wp_bind {A B} (m : M W A) (f : A -> M W B) s Q :
  wp m s (fun r s1 e1 =>
    match r with
    | inl e => Q (inl e) s1 e1
    | inr a => wp (f a) s1 (fun r2 s2 e2 => Q r2 s2 (e1 ++ e2))
    end) ->
  wp (m ≫= f) s Q.
Proof.
  unfold wp. rewrite run_bind. destruct (m s) as [[r s1] e1].
  destruct r as [e|a]; [done|]. by destruct (f a s1) as [[r2 s2] e2].
Qed.

Lemma wp_fmap {A B} (m : M W A) (g : A -> B) s Q :
  wp m s (fun r s1 e1 =>
    match r with
    | inl e => Q (inl e) s1 e1
    | inr a => Q (inr (g a)) s1 (e1 ++ [])
    end) ->
  wp (g <$> m) s Q.
Proof.
  unfold wp. rewrite run_fmap. destruct (m s) as [[r s1] e1]. by destruct r.
Qed.

Lemma wp_any {A} (m : M W A) s (Q : error + A -> St W -> list Event -> Prop) :
  (forall r s' evs, Q r s' evs) -> wp m s Q.
Proof. intros H. unfold wp. by destruct (m s) as [[r s1] e1]. Qed.

Lemma wp_api {A} req (f : W -> (error + A) * W) s Q :
  (forall e w', f (world s) = (inl e, w') ->
     Q (inr (inl e)) (mkSt w' (rd s)) [EvCall req (Some e)]) ->
  (forall a w', f (world s) = (inr a, w') ->
     Q (inr (inr a)) (mkSt w' (rd s)) [EvCall req None]) ->
  wp (api req f) s Q.
Proof.
  intros H1 H2. unfold wp, api. destruct (f (world s)) as [[e|a] w'] eqn:E; auto.
Qed.

Lemma wp_ask {A} (f : W -> A * W) s Q :
  (forall a w', f (world s) = (a, w') -> Q (inr a) (mkSt w' (rd s)) []) ->
  wp (ask f) s Q.
Proof. intros H. unfold wp, ask. destruct (f (world s)) as [r w'] eqn:E. by apply H. Qed.

Lemma wp_catch {A} (m : M W A) s Q :
  wp m s (fun r s1 e1 => Q (inr r) s1 e1) -> wp (catch m) s Q.
Proof. unfold wp, catch. by destruct (m s) as [[r s1] e1]. Qed.

End Logic.

Ltac wp_prim :=
  unfold wp at 1;
  cbn [mret M_ret fail emit log check dGet dGetOk dGetChange dHasChange dId
       dTimeout dSet dSetId rd world Id Set_ SetId app].

Ltac wp_step :=
  lazymatch goal with
  | |- wp (mbind _ _) _ _ => apply wp_bind
  | |- wp (fmap _ _) _ _ => apply wp_fmap
  | |- wp (ask _) _ _ => apply wp_ask; intros ? ? ?
  | |- wp (catch _) _ _ => apply wp_catch
  | |- wp (api _ _) _ _ => fail
  | |- wp (check _ ?r) _ _ => first [is_var r; destruct r as [?e|?a] | wp_prim]
  | |- wp (match ?x with _ => _ end) _ _ => destruct x eqn:?
  | |- wp (if ?x then _ else _) _ _ => destruct x eqn:?
  | |- wp _ _ _ => wp_prim
  end.

Ltac wp_call :=
  apply wp_api; intros ? ? ?; cbn [rd world Id Set_ SetId app].

Lemma reports_refl e : reports e e.
Proof. destruct e; by left. Qed.

Lemma reports_S text e : reports (ErrorfS text e) e.
Proof. right. apply reports_refl. Qed.

Lemma reports_W text e : reports (ErrorfW text e) e.
Proof. right. apply reports_refl. Qed.

Lemma create_failed_at {W A} pre req e e' (s' : St W) d0 evs :
  evs = pre ++ [EvCall req (Some e)] ->
  forallb is_log pre = true -> is_create req = true -> reports e' e ->
  Id (rd s') = Id d0 ->
  @create_outcome W A (inl e', s', evs) d0.
Proof. intros ->. by constructor. Qed.

Lemma create_succeeded_at {W A} pre req rest r (s' : St W) d0 evs :
  evs = pre ++ EvCall req None :: rest ->
  forallb is_log pre = true -> is_create req = true ->
  @create_outcome W A (r, s', evs) d0.
Proof. intros ->. by constructor. Qed.

Ltac create_tail :=
  cbn [rd world Id Set_ SetId app];
  first
    [ apply wp_any; intros ? ? ?;
      eapply (create_succeeded_at [EvLog _]); [reflexivity | done | done]
    | eapply (create_failed_at [EvLog _]);
      [reflexivity | done | done
      | first [apply reports_refl | apply reports_S | apply reports_W] | done]
    | by apply create_not_reached ].

Lemma batch_create_outcome {W} (meta : AWSClient W) (s : St W) :
  create_outcome (resourceAwsBatchComputeEnvironmentCreate meta s) (rd s).
Proof.
  apply (wp_intro _ s (fun x => create_outcome x (rd s))).
  unfold resourceAwsBatchComputeEnvironmentCreate.
  repeat wp_step; try create_tail.
  all: wp_call; wp_step; wp_step; create_tail.
Qed.

Lemma ssm_create_outcome {W} (meta : AWSClient W) (s : St W) :
  create_outcome (resourceAwsSsmDocumentCreate meta s) (rd s).
Proof.
  apply (wp_intro _ s (fun x => create_outcome x (rd s))).
  unfold resourceAwsSsmDocumentCreate.
  repeat wp_step; try create_tail.
  all: wp_call; wp_step; wp_step; create_tail.
Qed.

Lemma lb_create_outcome {W} (meta : AWSClient W) update (s : St W) :
  create_outcome (resourceAwsLbCreate meta update s) (rd s).
Proof.
  apply (wp_intro _ s (fun x => create_outcome x (rd s))).
  unfold resourceAwsLbCreate.
  repeat wp_step; try create_tail.
  all: wp_call; wp_step; wp_step; create_tail.
Qed.

(** ** Identity is set after creation *)

Lemma monitor_created evs : id_set_after_create true evs = true.
Proof. induction evs as [|[req [e|]| |] evs IH]; cbn; auto. Qed.

Lemma monitor_logs created evs rest :
  forallb is_log evs = true ->
  id_set_after_create created (evs ++ rest) = id_set_after_create created rest.
Proof.
  induction evs as [|[req [e|]| |] evs IH]; cbn; try done; auto.
Qed.

Lemma create_outcome_monitor {W A} (r : error + A) (s' : St W) evs d0 :
  create_outcome (r, s', evs) d0 -> id_set_after_create false evs = true.
Proof.
  inversion 1; subst.
  - rewrite <- (app_nil_r evs). by rewrite monitor_logs.
  - by rewrite monitor_logs.
  - rewrite monitor_logs by done. cbn. 
    match goal with H : is_create _ = true |- _ => rewrite H end.
    apply monitor_created.
Qed.

(** What the monitor accepts: an identity set at position [i] has a
    successful create call before it. *)
Lemma monitor_sound evs : forall created i id,
  id_set_after_create created evs = true ->
  evs !! i = Some (EvSetId id) ->
  created = true \/
  exists j req, j < i /\ evs !! j = Some (EvCall req None) /\ is_create req = true.
Proof.
  induction evs as [|ev evs IH]; intros created i id Hm Hi; [done|].
  destruct i as [|i].
  - cbn in Hi. simplify_eq. cbn in Hm. apply andb_prop in Hm as [-> _]. by left.
  - cbn in Hi. destruct ev as [req [e|]| |]; cbn in Hm.
    + destruct (IH _ _ _ Hm Hi) as [?|(j & req' & ? & ? & ?)]; [by left|].
      right. exists (S j), req'. split_and!; [lia|done..].
    + destruct (IH _ _ _ Hm Hi) as [Hc|(j & req' & ? & ? & ?)].
      * apply orb_prop in Hc as [?|?]; [by left|].
        right. exists 0, req. split_and!; [lia|done..].
      * right. exists (S j), req'. split_and!; [lia|done..].
    + apply andb_prop in Hm as [-> _]. by left.
    + destruct (IH _ _ _ Hm Hi) as [?|(j & req' & ? & ? & ?)]; [by left|].
      right. exists (S j), req'. split_and!; [lia|done..].
Qed.

Lemma create_handlers_outcome {W} (meta : AWSClient W) (update : M W unit) (s : St W)
    (handler : M W unit) :
  handler ∈ [resourceAwsBatchComputeEnvironmentCreate meta;
             resourceAwsSsmDocumentCreate meta;
             resourceAwsLbCreate meta update] ->
  create_outcome (handler s) (rd s) /\
  id_set_after_create false (handler s).2 = true.
Proof.
  intros Hin.
  assert (create_outcome (handler s) (rd s)) as H.
  { repeat (apply elem_of_cons in Hin as [->|Hin]);
      [apply batch_create_outcome | apply ssm_create_outcome
      | apply lb_create_outcome | by apply elem_of_nil in Hin]. }
  split; [done|].
  destruct (handler s) as [[r s'] evs]. by eapply create_outcome_monitor.
Qed.

(** C1. Every Create handler (Batch compute environment, SSM document, load
    balancer) sets the resource Id only after its create call has returned
    without error. A run either fails before the create call, with nothing but
    log lines in its trace and the Id untouched; or its create call fails, is
    the last event of the trace, the handler returns an error that reports the
    error of the call, and the Id is untouched; or its create call succeeds,
    and only log lines come before it. In every run the monitor
    [id_set_after_create] accepts the trace. *)
Theorem create_sets_id_after_create_call {W} (meta : AWSClient W)
    (resourceAwsLbUpdate : M W unit) (s : St W) :
  Forall (fun handler : M W unit =>
            create_outcome (handler s) (rd s) /\
            id_set_after_create false (handler s).2 = true)
    [resourceAwsBatchComputeEnvironmentCreate meta;
     resourceAwsSsmDocumentCreate meta;
     resourceAwsLbCreate meta resourceAwsLbUpdate].
Proof.
  apply Forall_forall. intros handler Hin.
  by apply (create_handlers_outcome meta resourceAwsLbUpdate).
Qed.

(** The identity set by a Create handler has a successful create call
    before it in the trace. *)
Lemma create_call_before_SetId {W} (meta : AWSClient W) (update : M W unit) (s : St W)
    (handler : M W unit) i id :
  handler ∈ [resourceAwsBatchComputeEnvironmentCreate meta;
             resourceAwsSsmDocumentCreate meta;
             resourceAwsLbCreate meta update] ->
  (handler s).2 !! i = Some (EvSetId id) ->
  exists j req, j < i /\ (handler s).2 !! j = Some (EvCall req None) /\ is_create req = true.
Proof.
  intros Hin Hi.
  destruct (create_handlers_outcome meta update s _ Hin) as [_ Hm].
  destruct (monitor_sound _ _ _ _ Hm Hi) as [?|?]; done.
Qed.

(** ** Refresh functions and poll sessions *)

Section Refresh.
Context {W : Type} (meta : AWSClient W).
Implicit Types s : St W.

Lemma poll_unfold {R} (conf : StateChangeConf W R) n :
  poll conf n =
  (r ← Refresh conf;
   let '(payload, status, err) := r in
   match err with
   | Some e => mret (inl e)
   | None =>
       if bool_decide (status ∈ Target conf) then mret (inr payload)
       else if bool_decide (status ∈ Pending conf) then
         match n with
         | 0 => mret (inl (TimeoutError status))
         | S n' => poll conf n'
         end
       else mret (inl (UnexpectedStateError status))
   end).
Proof. by destruct n. Qed.

Lemma status_refresh_error name s e w' :
  DescribeComputeEnvironments (batchconn meta) [name] (world s) = (inl e, w') ->
  resourceAwsBatchComputeEnvironmentStatusRefreshFunc meta name s
  = (inr (None, "failed", Some e), mkSt w' (rd s),
     [EvCall (batch_DescribeComputeEnvironments [name]) (Some e)]).
Proof.
  intros H. unfold resourceAwsBatchComputeEnvironmentStatusRefreshFunc.
  rewrite run_bind. unfold api. rewrite H. reflexivity.
Qed.

Lemma delete_refresh_error name s e w' :
  DescribeComputeEnvironments (batchconn meta) [name] (world s) = (inl e, w') ->
  resourceAwsBatchComputeEnvironmentDeleteRefreshFunc meta name s
  = (inr (None, "failed", Some e), mkSt w' (rd s),
     [EvCall (batch_DescribeComputeEnvironments [name]) (Some e)]).
Proof.
  intros H. unfold resourceAwsBatchComputeEnvironmentDeleteRefreshFunc.
  rewrite run_bind. unfold api. rewrite H. reflexivity.
Qed.

Lemma status_refresh_first name s ce rest w' :
  DescribeComputeEnvironments (batchconn meta) [name] (world s) = (inr (ce :: rest), w') ->
  resourceAwsBatchComputeEnvironmentStatusRefreshFunc meta name s
  = (inr (Some (ce :: rest), Status ce, None), mkSt w' (rd s),
     [EvCall (batch_DescribeComputeEnvironments [name]) None]).
Proof.
  intros H. unfold resourceAwsBatchComputeEnvironmentStatusRefreshFunc.
  rewrite run_bind. unfold api. rewrite H. reflexivity.
Qed.

Lemma delete_refresh_first name s ce rest w' :
  DescribeComputeEnvironments (batchconn meta) [name] (world s) = (inr (ce :: rest), w') ->
  resourceAwsBatchComputeEnvironmentDeleteRefreshFunc meta name s
  = (inr (Some (ce :: rest), Status ce, None), mkSt w' (rd s),
     [EvCall (batch_DescribeComputeEnvironments [name]) None]).
Proof.
  intros H. unfold resourceAwsBatchComputeEnvironmentDeleteRefreshFunc.
  rewrite run_bind. unfold api. rewrite H. reflexivity.
Qed.

Lemma status_refresh_empty name s w' :
  DescribeComputeEnvironments (batchconn meta) [name] (world s) = (inr [], w') ->
  resourceAwsBatchComputeEnvironmentStatusRefreshFunc meta name s
  = (inr (None, "failed",
          Some (Errorf "One compute environment is expected, but AWS return no compute environment")),
     mkSt w' (rd s), [EvCall (batch_DescribeComputeEnvironments [name]) None]).
Proof.
  intros H. unfold resourceAwsBatchComputeEnvironmentStatusRefreshFunc.
  rewrite run_bind. unfold api. rewrite H. reflexivity.
Qed.

Lemma delete_refresh_empty name s w' :
  DescribeComputeEnvironments (batchconn meta) [name] (world s) = (inr [], w') ->
  resourceAwsBatchComputeEnvironmentDeleteRefreshFunc meta name s
  = (inr (Some [], CEStatusDeleted, None), mkSt w' (rd s),
     [EvCall (batch_DescribeComputeEnvironments [name]) None]).
Proof.
  intros H. unfold resourceAwsBatchComputeEnvironmentDeleteRefreshFunc.
  rewrite run_bind. unfold api. rewrite H. reflexivity.
Qed.

(** A refresh that returns an error ends the session at once. *)
Lemma poll_refresh_error {R} (conf : StateChangeConf W R) n s payload status e s' evs :
  Refresh conf s = (inr (payload, status, Some e), s', evs) ->
  poll conf n s = (inr (inl e), s', evs).
Proof.
  intros H. rewrite poll_unfold, run_bind, H. cbn. by rewrite app_nil_r.
Qed.

(** C6. When the describe call inside a poll refresh function returns an
    error, the refresh function returns that error with the status "failed",
    and a poll session over that refresh function, whatever its pending and
    target sets and however many intervals its timeout leaves, ends with that
    error after this one call. *)
Theorem refresh_error_fails_session (name : string) (s : St W) (e : error) (w' : W)
    (conf : StateChangeConf W (list ComputeEnvironmentDetail)) (n : nat) :
  DescribeComputeEnvironments (batchconn meta) [name] (world s) = (inl e, w') ->
  Refresh conf = resourceAwsBatchComputeEnvironmentStatusRefreshFunc meta name \/
  Refresh conf = resourceAwsBatchComputeEnvironmentDeleteRefreshFunc meta name ->
  let failed := (mkSt w' (rd s), [EvCall (batch_DescribeComputeEnvironments [name]) (Some e)]) in
  resourceAwsBatchComputeEnvironmentStatusRefreshFunc meta name s
    = (inr (None, "failed", Some e), failed.1, failed.2) /\
  resourceAwsBatchComputeEnvironmentDeleteRefreshFunc meta name s
    = (inr (None, "failed", Some e), failed.1, failed.2) /\
  poll conf n s = (inr (inl e), failed.1, failed.2) /\
  WaitForState conf s = (inr (inl e), failed.1, failed.2).
Proof.
  intros Hdesc Hconf. cbn.
  pose proof (status_refresh_error name s e w' Hdesc) as Hs.
  pose proof (delete_refresh_error name s e w' Hdesc) as Hd.
  split_and!; try done; unfold WaitForState;
    (destruct Hconf as [Hr|Hr];
     eapply poll_refresh_error; rewrite Hr; [apply Hs | apply Hd]).
Qed.

(** A delete poll session whose describe calls report DELETING and then an
    empty result set ends in success, with the empty result as payload. *)
Lemma delete_session_gone name k : forall n timeout (w : W) d,
  k <= n ->
  deleted_within meta name k w ->
  exists w' evs,
    poll {| Pending := [CEStatusDeleting]; Target := [CEStatusDeleted];
            Refresh := resourceAwsBatchComputeEnvironmentDeleteRefreshFunc meta name;
            sc_Timeout := timeout; MinTimeout := 5 |} n (mkSt w d)
    = (inr (inr (Some [])), mkSt w' d, evs) /\
    last evs = Some (EvCall (batch_DescribeComputeEnvironments [name]) None).
Proof.
  induction k as [|k IH]; intros n timeout w d Hk Hgone.
  - cbn in Hgone.
    destruct (DescribeComputeEnvironments (batchconn meta) [name] w)
      as [[e|[|ce rest]] w'] eqn:Hdesc; try done.
    + exists w', [EvCall (batch_DescribeComputeEnvironments [name]) None].
      rewrite poll_unfold, run_bind. cbn [Refresh].
      rewrite (delete_refresh_empty name (mkSt w d) w') by done. done.
    + by destruct Hgone.
  - cbn in Hgone.
    destruct (DescribeComputeEnvironments (batchconn meta) [name] w)
      as [[e|[|ce rest]] w'] eqn:Hdesc; try done.
    + exists w', [EvCall (batch_DescribeComputeEnvironments [name]) None].
      rewrite poll_unfold, run_bind. cbn [Refresh].
      rewrite (delete_refresh_empty name (mkSt w d) w') by done. done.
    + destruct Hgone as [Hstatus Hgone]. destruct n as [|n]; [lia|].
      destruct (IH n timeout w' d) as (w'' & evs & Hpoll & Hlast); [lia|done|].
      exists w'', (EvCall (batch_DescribeComputeEnvironments [name]) None :: evs).
      split.
      * rewrite poll_unfold, run_bind. cbn [Refresh].
        rewrite (delete_refresh_first name (mkSt w d) ce rest w') by done.
        rewrite Hstatus. cbn [Target Pending].
        rewrite bool_decide_false by (by intros ?%list_elem_of_singleton).
        rewrite bool_decide_true by apply list_elem_of_here.
        cbv beta iota. cbn [rd world]. rewrite Hpoll. done.
      * rewrite last_cons, Hlast. done.
Qed.

End Refresh.

Lemma wp_eq {W A} (m : M W A) (s : St W) Q r s' evs :
  m s = (r, s', evs) -> Q r s' evs -> wp m s Q.
Proof. intros H HQ. unfold wp. by rewrite H. Qed.

(** An API call whose answer in the current world is known. *)
Lemma wp_api_eq {W A} req (f : W -> (error + A) * W) (s : St W) Q r w' :
  f (world s) = (r, w') ->
  Q (inr r) (mkSt w' (rd s)) [EvCall req (err_of r)] ->
  wp (api req f) s Q.
Proof. intros H HQ. unfold wp, api. by rewrite H. Qed.

(** Steps through binds and the primitives that neither call the API nor
    branch on something unknown. *)
Ltac wp_pure :=
  lazymatch goal with
  | |- wp (mbind _ _) _ _ => apply wp_bind
  | |- wp (fmap _ _) _ _ => apply wp_fmap
  | |- wp (check _ ?r) _ _ => first [is_var r; fail 1 | wp_prim]
  | |- wp (mret _) _ _ => wp_prim
  | |- wp (fail _) _ _ => wp_prim
  | |- wp (log _) _ _ => wp_prim
  | |- wp (dGet _) _ _ => wp_prim
  | |- wp (dGetOk _) _ _ => wp_prim
  | |- wp (dGetChange _) _ _ => wp_prim
  | |- wp (dHasChange _) _ _ => wp_prim
  | |- wp dId _ _ => wp_prim
  | |- wp (dTimeout _) _ _ => wp_prim
  | |- wp (dSet _ _) _ _ => wp_prim
  | |- wp (dSetId _) _ _ => wp_prim
  | |- wp (catch _) _ _ => apply wp_catch
  end.

Ltac wp_known H := eapply wp_eq; [exact H|]; cbn [app rd world].
Ltac wp_answer H := eapply wp_api_eq; [exact H|]; cbn [err_of app rd world].

(** ** Delete handlers and the not-found response *)

Section Delete.
Context {W : Type} (meta : AWSClient W).
Implicit Types s : St W.

Lemma batch_delete_not_found s s1 ev1 w2 k :
  let name := as_string (Get (rd s) "compute_environment_name") in
  disableBatchComputeEnvironment meta name (Timeout (rd s) TimeoutDelete) s
    = (inr tt, s1, ev1) ->
  DeleteComputeEnvironment (batchconn meta) name (world s1) = (inr tt, w2) ->
  k <= Timeout (rd s1) TimeoutDelete ->
  deleted_within meta name k w2 ->
  exists w' evs,
    resourceAwsBatchComputeEnvironmentDelete meta s = (inr tt, mkSt w' (rd s1), evs) /\
    last evs = Some (EvCall (batch_DescribeComputeEnvironments [name]) None).
Proof.
  intros name Hdisable Hdelete Hk Hgone.
  destruct (delete_session_gone meta name k (Timeout (rd s1) TimeoutDelete)
              (Timeout (rd s1) TimeoutDelete) w2 (rd s1) Hk Hgone)
    as (w' & evs & Hpoll & Hlast).
  exists w', (resourceAwsBatchComputeEnvironmentDelete meta s).2.
  cut (let x := resourceAwsBatchComputeEnvironmentDelete meta s in
       x.1 = (inr tt, mkSt w' (rd s1)) /\
       last x.2 = Some (EvCall (batch_DescribeComputeEnvironments [name]) None)).
  { cbn. destruct (resourceAwsBatchComputeEnvironmentDelete meta s) as [[r s'] evs'].
    cbn. by intros [[= -> ->] ->]. }
  apply (wp_intro _ s (fun x => x.1 = _ /\ last x.2 = _)).
  unfold resourceAwsBatchComputeEnvironmentDelete.
  repeat wp_pure. fold name. wp_known Hdisable.
  repeat wp_pure. unfold deleteBatchComputeEnvironment.
  repeat wp_pure. wp_answer Hdelete.
  repeat wp_pure. unfold WaitForState. cbn [sc_Timeout]. wp_known Hpoll.
  repeat wp_pure.
  split; [reflexivity|]. cbn [snd].
  rewrite ?app_nil_r. repeat first [rewrite last_cons | rewrite last_app].
  by rewrite Hlast.
Qed.

Lemma ssm_delete_not_found s s1 ev1 w2 w3 e :
  deleteDocumentPermissions meta s = (inr tt, s1, ev1) ->
  DeleteDocument (ssmconn meta) (as_string (Get (rd s1) "name")) (world s1) = (inr tt, w2) ->
  DocumentDeleted (ssmconn meta) (Id (rd s1)) w2 = (inl e, w3) ->
  isAWSErr e ErrCodeInvalidDocument = true ->
  exists evs,
    resourceAwsSsmDocumentDelete meta s = (inr tt, mkSt w3 (rd s1), evs) /\
    last evs = Some (EvCall (ssm_waiter_DocumentDeleted (Id (rd s1))) (Some e)).
Proof.
  intros Hperm Hdelete Hwait Hcode.
  exists (resourceAwsSsmDocumentDelete meta s).2.
  cut (let x := resourceAwsSsmDocumentDelete meta s in
       x.1 = (inr tt, mkSt w3 (rd s1)) /\
       last x.2 = Some (EvCall (ssm_waiter_DocumentDeleted (Id (rd s1))) (Some e))).
  { cbn. destruct (resourceAwsSsmDocumentDelete meta s) as [[r s'] evs'].
    cbn. by intros [[= -> ->] ->]. }
  apply (wp_intro _ s (fun x => x.1 = _ /\ last x.2 = _)).
  unfold resourceAwsSsmDocumentDelete.
  repeat wp_pure. wp_known Hperm.
  repeat wp_pure. wp_answer Hdelete.
  repeat wp_pure. wp_answer Hwait.
  rewrite Hcode. repeat wp_pure.
  split; [reflexivity|]. cbn [snd].
  rewrite ?app_nil_r. repeat first [rewrite last_cons | rewrite last_app].
  done.
Qed.

(** C3. In a delete poll session a not-found response is the deleted
    terminal state. For a Batch compute environment: the delete refresh
    function turns an empty describe result into the status DELETED; a delete
    poll session whose describe calls report DELETING for at most as many
    polls as the timeout allows and then return an empty result set succeeds;
    and once the environment has been disabled and its deletion accepted, such
    a session makes the Delete handler return success. For an SSM document: once the permissions have
    been removed and the deletion accepted, an invalid-document error from the
    waiter makes the Delete handler return success. *)
Theorem delete_not_found_is_success (s : St W) :
  (forall name w',
     DescribeComputeEnvironments (batchconn meta) [name] (world s) = (inr [], w') ->
     resourceAwsBatchComputeEnvironmentDeleteRefreshFunc meta name s
     = (inr (Some [], CEStatusDeleted, None), mkSt w' (rd s),
        [EvCall (batch_DescribeComputeEnvironments [name]) None])) /\
  (forall name k timeout,
     k <= timeout ->
     deleted_within meta name k (world s) ->
     exists w' evs,
       WaitForState {| Pending := [CEStatusDeleting]; Target := [CEStatusDeleted];
                       Refresh := resourceAwsBatchComputeEnvironmentDeleteRefreshFunc meta name;
                       sc_Timeout := timeout; MinTimeout := 5 |} s
       = (inr (inr (Some [])), mkSt w' (rd s), evs) /\
       last evs = Some (EvCall (batch_DescribeComputeEnvironments [name]) None)) /\
  (forall s1 ev1 w2 k,
     let name := as_string (Get (rd s) "compute_environment_name") in
     disableBatchComputeEnvironment meta name (Timeout (rd s) TimeoutDelete) s
       = (inr tt, s1, ev1) ->
     DeleteComputeEnvironment (batchconn meta) name (world s1) = (inr tt, w2) ->
     k <= Timeout (rd s1) TimeoutDelete ->
     deleted_within meta name k w2 ->
     exists w' evs,
       resourceAwsBatchComputeEnvironmentDelete meta s = (inr tt, mkSt w' (rd s1), evs) /\
       last evs = Some (EvCall (batch_DescribeComputeEnvironments [name]) None)) /\
  (forall s1 ev1 w2 w3 e,
     deleteDocumentPermissions meta s = (inr tt, s1, ev1) ->
     DeleteDocument (ssmconn meta) (as_string (Get (rd s1) "name")) (world s1) = (inr tt, w2) ->
     DocumentDeleted (ssmconn meta) (Id (rd s1)) w2 = (inl e, w3) ->
     isAWSErr e ErrCodeInvalidDocument = true ->
     exists evs,
       resourceAwsSsmDocumentDelete meta s = (inr tt, mkSt w3 (rd s1), evs) /\
       last evs = Some (EvCall (ssm_waiter_DocumentDeleted (Id (rd s1))) (Some e))).
Proof.
  split_and!.
  - intros name w' H. by apply delete_refresh_empty.
  - intros name k timeout Hk Hgone. unfold WaitForState. cbn [sc_Timeout].
    destruct s as [w d]. by apply (delete_session_gone meta name k).
  - intros s1 ev1 w2 k. apply batch_delete_not_found.
  - intros s1 ev1 w2 w3 e. apply ssm_delete_not_found.
Qed.

End Delete.

(** ** Load balancer: deletion and creation *)

Section LoadBalancer.
Context {W : Type} (meta : AWSClient W).
Implicit Types s : St W.

(** C5. Once the DeleteLoadBalancer call has returned without error, the
    Delete handler returns success whatever the network-interface cleanup and
    the wait for detachment return: its trace is the delete call, the trace of
    the cleanup, a warning line if the cleanup failed, the trace of the wait,
    and a warning line if the wait failed. *)
Theorem lb_delete_swallows_cleanup_errors (s : St W) (w1 : W) :
  DeleteLoadBalancer (elbv2conn meta) (Id (rd s)) (world s) = (inr tt, w1) ->
  let '(r1, s1, ev1) := cleanupLBNetworkInterfaces meta (Id (rd s)) (mkSt w1 (rd s)) in
  let '(r2, s2, ev2) := waitForNLBNetworkInterfacesToDetach meta (Id (rd s)) s1 in
  resourceAwsLbDelete meta s
  = (inr tt, s2,
     [EvLog "[INFO] Deleting LB"; EvCall (elbv2_DeleteLoadBalancer (Id (rd s))) None]
     ++ ev1
     ++ (if succeeded r1 then [] else [EvLog "[WARN] Failed to cleanup ENIs for ALB"])
     ++ ev2
     ++ (if succeeded r2 then [] else [EvLog "[WARN] Failed to wait for ENIs to disappear for NLB"])).
Proof.
  intros Hdelete.
  destruct (cleanupLBNetworkInterfaces meta (Id (rd s)) (mkSt w1 (rd s)))
    as [[r1 s1] ev1] eqn:Hcleanup.
  destruct (waitForNLBNetworkInterfacesToDetach meta (Id (rd s)) s1)
    as [[r2 s2] ev2] eqn:Hwait.
  apply (wp_intro _ s (fun x => x = _)).
  unfold resourceAwsLbDelete.
  repeat wp_pure. wp_answer Hdelete.
  repeat wp_pure. wp_known Hcleanup.
  destruct r1 as [e1|[]]; cbn [succeeded]; repeat wp_pure;
    wp_known Hwait;
    destruct r2 as [e2|[]]; cbn [succeeded]; repeat wp_pure;
    by rewrite ?app_nil_r, <- ?app_assoc.
Qed.

End LoadBalancer.

(** ** Reading values back *)

Lemma Get_Set_eq d key v : Get (Set_ d key v) key = v.
Proof. unfold Get, Set_. cbn. by rewrite lookup_insert_eq. Qed.

Lemma Get_Set_ne d key key' v : key ≠ key' -> Get (Set_ d key v) key' = Get d key'.
Proof. intros H. unfold Get, Set_. cbn. by rewrite lookup_insert_ne. Qed.

Section Describe.
Context {W : Type} (meta : AWSClient W).
Implicit Types s : St W.

(** The Read handler hydrates the state from the first result. *)
Lemma batch_read_first s ce rest w' :
  DescribeComputeEnvironments (batchconn meta)
    [as_string (Get (rd s) "compute_environment_name")] (world s) = (inr (ce :: rest), w') ->
  exists d',
    resourceAwsBatchComputeEnvironmentRead meta s
    = (inr tt, mkSt w' d',
       [EvLog "[DEBUG] Read compute environment";
        EvCall (batch_DescribeComputeEnvironments
                  [as_string (Get (rd s) "compute_environment_name")]) None]) /\
    Id d' = Id (rd s) /\
    Get d' "status" = VString (Status ce) /\
    Get d' "arn" = VString (ComputeEnvironmentArn ce).
Proof.
  intros Hdesc.
  cut (let x := resourceAwsBatchComputeEnvironmentRead meta s in
       x.1.1 = inr tt /\ world x.1.2 = w' /\
       x.2 = [EvLog "[DEBUG] Read compute environment";
              EvCall (batch_DescribeComputeEnvironments
                        [as_string (Get (rd s) "compute_environment_name")]) None] /\
       Id (rd x.1.2) = Id (rd s) /\
       Get (rd x.1.2) "status" = VString (Status ce) /\
       Get (rd x.1.2) "arn" = VString (ComputeEnvironmentArn ce)).
  { cbn. destruct (resourceAwsBatchComputeEnvironmentRead meta s) as [[r [w d']] evs].
    cbn. intros (-> & -> & -> & ? & ? & ?). by exists d'. }
  apply (wp_intro _ s (fun x =>
           x.1.1 = inr tt /\ world x.1.2 = w' /\ x.2 = _ /\
           Id (rd x.1.2) = Id (rd s) /\
           Get (rd x.1.2) "status" = VString (Status ce) /\
           Get (rd x.1.2) "arn" = VString (ComputeEnvironmentArn ce))).
  unfold resourceAwsBatchComputeEnvironmentRead.
  repeat wp_pure. wp_answer Hdesc. repeat wp_pure.
  case_bool_decide; repeat wp_pure; cbn [fst snd rd world Id];
    (split_and!; try reflexivity;
     rewrite ?Get_Set_eq; repeat (rewrite Get_Set_ne by done; rewrite ?Get_Set_eq);
     done).
Qed.

End Describe.

(** ** The response of the load balancer create call *)

Section LbCreate.
Context {W : Type} (meta : AWSClient W).
Implicit Types s : St W.

Lemma lb_create_run update s :
  let name := (lbName meta (rd s) (world s)).1 in
  let w0 := (lbName meta (rd s) (world s)).2 in
  let d0 := Set_ (rd s) "name" (VString name) in
  let input := createLoadBalancerInput meta (rd s) name in
  let call := EvCall (elbv2_CreateLoadBalancer input) in
  resourceAwsLbCreate meta update s
  = match CreateLoadBalancer (elbv2conn meta) input w0 with
    | (inl e, w1) =>
        (inl (ErrorfW ("error creating " +:+ as_string (Get (rd s) "load_balancer_type")
                       +:+ " Load Balancer: ") e),
         mkSt w1 d0, [EvLog "[DEBUG] ALB create configuration"; call (Some e)])
    | (inr [lb], w1) =>
        let arn := LoadBalancerArn lb in
        let d1 := SetId d0 arn in
        match LoadBalancerActive (elbv2conn meta) arn (Timeout d0 TimeoutCreate) w1 with
        | (inl e, w2) =>
            (inl (ErrorfW "error waiting for Load Balancer to be active: " e), mkSt w2 d1,
             [EvLog "[DEBUG] ALB create configuration"; call None; EvSetId arn;
              EvLog "[INFO] LB ID"; EvCall (elbv2_waiter_LoadBalancerActive arn) (Some e)])
        | (inr _, w2) =>
            let '(r, s', evs) := update (mkSt w2 d1) in
            (r, s',
             [EvLog "[DEBUG] ALB create configuration"; call None; EvSetId arn;
              EvLog "[INFO] LB ID"; EvCall (elbv2_waiter_LoadBalancerActive arn) None] ++ evs)
        end
    | (inr _, w1) =>
        (inl (Errorf ("no load balancers returned following creation of " +:+ name)),
         mkSt w1 d0, [EvLog "[DEBUG] ALB create configuration"; call None])
    end.
Proof.
  intros name w0 d0 input call. subst call input d0 name w0.
  destruct (lbName meta (rd s) (world s)) as [name w0] eqn:Hname. cbn [fst snd].
  set (d0 := Set_ (rd s) "name" (VString name)).
  set (input := createLoadBalancerInput meta (rd s) name).
  assert (forall P : (error + unit) * St W * list Event -> Prop,
            wp (resourceAwsLbCreate meta update) s (fun r s' evs => P (r, s', evs)) ->
            P (resourceAwsLbCreate meta update s)) as Hwp.
  { intros P H. by apply (wp_intro _ s P). }
  apply Hwp. clear Hwp.
  unfold resourceAwsLbCreate. repeat wp_pure.
  unfold lbName in Hname.
  destruct (GetOk (rd s) "name") as [v1 [|]] eqn:Hn1.
  2: wp_pure; wp_pure; destruct (GetOk (rd s) "name_prefix") as [v2 [|]] eqn:Hn2.
  all: first [ wp_prim; injection Hname as <- <-
             | apply wp_ask; intros ? ? Hask; rewrite Hname in Hask; injection Hask as <- <- ].
  all: cbn [app].
  all: repeat first [wp_pure | progress (unfold GetOk; cbn beta iota zeta)].
  all: rewrite ?Get_Set_ne by done.
  all: match goal with
       | |- wp (api (elbv2_CreateLoadBalancer ?i) _) _ _ => change i with input
       end.
  all: fold d0.
  all: match goal with
       | |- wp (api _ ?f) {| world := ?w; rd := _ |} _ =>
           destruct (f w) as [[e|l] w1] eqn:Hcreate
       end; wp_answer Hcreate; repeat wp_pure; [done|].
  all: destruct l as [|lb [|lb' l]]; repeat wp_pure; unfold d0;
         rewrite ?Get_Set_eq; try done.
  all: repeat match goal with
         | |- context [Timeout (SetId ?d ?i)] =>
             change (Timeout (SetId d i)) with (Timeout d)
         end.
  all: match goal with
       | |- wp (api _ ?f) {| world := ?w; rd := _ |} _ =>
           destruct (f w) as [[e|[]] w2] eqn:Hactive
       end; wp_answer Hactive; repeat wp_pure; try done.
  all: match goal with
       | |- wp ?m ?st _ => destruct (m st) as [[r s'] evs] eqn:Hupdate
       end; eapply wp_eq; [exact Hupdate|]; done.
Qed.

(** A create response that does not hold exactly one load balancer makes
    the Create handler fail before it sets the Id. *)
Lemma lb_create_not_one update s l w1 :
  let name := (lbName meta (rd s) (world s)).1 in
  let w0 := (lbName meta (rd s) (world s)).2 in
  let input := createLoadBalancerInput meta (rd s) name in
  CreateLoadBalancer (elbv2conn meta) input w0 = (inr l, w1) ->
  length l ≠ 1 ->
  resourceAwsLbCreate meta update s
  = (inl (Errorf ("no load balancers returned following creation of " +:+ name)),
     mkSt w1 (Set_ (rd s) "name" (VString name)),
     [EvLog "[DEBUG] ALB create configuration"; EvCall (elbv2_CreateLoadBalancer input) None]).
Proof.
  intros name w0 input Hcreate Hlen.
  rewrite lb_create_run. cbv zeta. fold name w0 input. rewrite Hcreate.
  by destruct l as [|lb [|lb' l]].
Qed.

End LbCreate.

(** C2 (amended). A describe response with two or more results is not
    rejected: both poll refresh functions report the status of the first
    result with no error, and the Read handler hydrates the state from the
    first result and returns success. What is checked is the response of the
    load balancer create call: when the response to the request this Create
    sends does not hold exactly one load balancer, the Create handler fails
    after that one call and the Id is not set. *)
Theorem describe_takes_first_result {W} (meta : AWSClient W) (update : M W unit) (s : St W) :
  (forall name ce rest w',
     DescribeComputeEnvironments (batchconn meta) [name] (world s) = (inr (ce :: rest), w') ->
     resourceAwsBatchComputeEnvironmentStatusRefreshFunc meta name s
       = (inr (Some (ce :: rest), Status ce, None), mkSt w' (rd s),
          [EvCall (batch_DescribeComputeEnvironments [name]) None]) /\
     resourceAwsBatchComputeEnvironmentDeleteRefreshFunc meta name s
       = (inr (Some (ce :: rest), Status ce, None), mkSt w' (rd s),
          [EvCall (batch_DescribeComputeEnvironments [name]) None])) /\
  (forall ce rest w',
     let name := as_string (Get (rd s) "compute_environment_name") in
     DescribeComputeEnvironments (batchconn meta) [name] (world s) = (inr (ce :: rest), w') ->
     exists d',
       resourceAwsBatchComputeEnvironmentRead meta s
       = (inr tt, mkSt w' d',
          [EvLog "[DEBUG] Read compute environment";
           EvCall (batch_DescribeComputeEnvironments [name]) None]) /\
       Id d' = Id (rd s) /\
       Get d' "status" = VString (Status ce) /\
       Get d' "arn" = VString (ComputeEnvironmentArn ce)) /\
  (forall l w1,
     let name := (lbName meta (rd s) (world s)).1 in
     let w0 := (lbName meta (rd s) (world s)).2 in
     let input := createLoadBalancerInput meta (rd s) name in
     CreateLoadBalancer (elbv2conn meta) input w0 = (inr l, w1) ->
     length l ≠ 1 ->
     resourceAwsLbCreate meta update s
     = (inl (Errorf ("no load balancers returned following creation of " +:+ name)),
        mkSt w1 (Set_ (rd s) "name" (VString name)),
        [EvLog "[DEBUG] ALB create configuration";
         EvCall (elbv2_CreateLoadBalancer input) None]) /\
     Id (Set_ (rd s) "name" (VString name)) = Id (rd s)).
Proof.
  split_and!.
  - intros name ce rest w' Hdesc. split.
    + by apply status_refresh_first.
    + by apply delete_refresh_first.
  - intros ce rest w' name Hdesc. apply (batch_read_first meta s ce rest w' Hdesc).
  - intros l w1 name w0 input Hcreate Hlen. split; [|reflexivity].
    by apply (lb_create_not_one meta update s l w1).
Qed.

(** ** Malformed configuration *)


Section Malformed.
Context {W : Type} (meta : AWSClient W).
Implicit Types s : St W.


End Malformed.


(** ** Permission changes in batches *)

Section Modify.
Context {W : Type} (meta : AWSClient W).
Implicit Types s : St W.

Lemma for_each_calls {A} (mk : A -> ModifyDocumentPermissionInput) (l : list A) : forall s,
  let '(r, s', evs) :=
    for_each l (fun x =>
      let input := mk x in
      r ← api (ssm_ModifyDocumentPermission input)
              (ModifyDocumentPermission (ssmconn meta) input);
      check id r) s in
  rd s' = rd s /\ calls_issued r evs (mk <$> l).
Proof.
  induction l as [|x l IH]; intros s; [done|].
  cbn [for_each]. rewrite run_bind, run_bind. unfold api at 1.
  destruct (ModifyDocumentPermission (ssmconn meta) (mk x) (world s)) as [[e|[]] w'].
  - cbn. split; [done|]. exists 0, (mk x). done.
  - cbn. specialize (IH (mkSt w' (rd s))).
    destruct (for_each l _ (mkSt w' (rd s))) as [[r s'] evs].
    destruct IH as [Hrd Hcalls]. split; [done|].
    destruct r as [e|[]]; cbn in *.
    + destruct Hcalls as (k & input & Hk & ->). exists (S k), input. done.
    + by rewrite Hcalls.
Qed.

Lemma modify_calls name adds rems s :
  let '(r, s', evs) := modifyDocumentPermissions meta name adds rems s in
  calls_issued r evs (modifyDocumentPermissionInputs name adds rems).
Proof.
  unfold modifyDocumentPermissions, modifyDocumentPermissionInputs.
  set (mkAdd := fun batch => {| mdp_Name := name; mdp_PermissionType := "Share";
                                mdp_AccountIdsToAdd := Some batch;
                                mdp_AccountIdsToRemove := None |}).
  set (mkRem := fun batch => {| mdp_Name := name; mdp_PermissionType := "Share";
                                mdp_AccountIdsToAdd := None;
                                mdp_AccountIdsToRemove := Some batch |}).
  set (addInputs := match adds with Some ids => mkAdd <$> accountIdBatches ids | None => [] end).
  set (remInputs := match rems with Some ids => mkRem <$> accountIdBatches ids | None => [] end).
  set (addPhase := match adds with
                   | Some ids => for_each (accountIdBatches ids) _
                   | None => mret tt end).
  set (remPhase := match rems with
                   | Some ids => for_each (accountIdBatches ids) _
                   | None => mret tt end).
  assert (forall s, let '(r, s', evs) := addPhase s in calls_issued r evs addInputs) as Hadd.
  { intros s0. subst addPhase addInputs. destruct adds as [ids|]; [|done].
    pose proof (for_each_calls mkAdd (accountIdBatches ids) s0) as H.
    cbv zeta in H. destruct (for_each _ _ s0) as [[r s'] evs]. tauto. }
  assert (forall s, let '(r, s', evs) := remPhase s in calls_issued r evs remInputs) as Hrem.
  { intros s0. subst remPhase remInputs. destruct rems as [ids|]; [|done].
    pose proof (for_each_calls mkRem (accountIdBatches ids) s0) as H.
    cbv zeta in H. destruct (for_each _ _ s0) as [[r s'] evs]. tauto. }
  rewrite run_bind. specialize (Hadd s).
  destruct (addPhase s) as [[[e|[]] s1] ev1]; cbn in Hadd.
  - destruct Hadd as (k & input & Hk & ->). exists k, input. split.
    + by apply lookup_app_l_Some.
    + rewrite take_app_le; [done|]. apply lookup_lt_Some in Hk. lia.
  - rewrite run_bind. specialize (Hrem s1).
    destruct (remPhase s1) as [[[e|[]] s2] ev2]; cbn in Hrem; cbn.
    + destruct Hrem as (k & input & Hk & ->).
      exists (length addInputs + k), input. split.
      * rewrite lookup_app_r by lia. by replace (length addInputs + k - length addInputs) with k by lia.
      * rewrite take_app_ge by lia.
        replace (length addInputs + k - length addInputs) with k by lia.
        rewrite fmap_app, Hadd. by rewrite <- app_assoc.
    + by rewrite app_nil_r, fmap_app, Hadd, Hrem.
Qed.

End Modify.

(** ** The calls of [setDocumentPermissions] on the remote side *)

Lemma applyEvents_app shared evs1 evs2 :
  applyEvents shared (evs1 ++ evs2) = applyEvents (applyEvents shared evs1) evs2.
Proof. unfold applyEvents. apply foldl_app. Qed.

Lemma applyEvents_add name batches : forall shared,
  applyEvents shared
    (ok_call <$> ((fun batch => {| mdp_Name := name; mdp_PermissionType := "Share";
                                   mdp_AccountIdsToAdd := Some batch;
                                   mdp_AccountIdsToRemove := None |}) <$> batches))
  = shared ∪ list_to_set (concat batches).
Proof.
  induction batches as [|batch batches IH]; intros shared.
  - cbn. by rewrite union_empty_r_L.
  - cbn [fmap list_fmap concat]. unfold applyEvents in *. cbn [foldl ok_call].
    rewrite IH. unfold applyModifyDocumentPermission. cbn.
    by rewrite list_to_set_app_L, difference_empty_L, (assoc_L (∪)).
Qed.

Lemma applyEvents_remove name batches : forall shared,
  applyEvents shared
    (ok_call <$> ((fun batch => {| mdp_Name := name; mdp_PermissionType := "Share";
                                   mdp_AccountIdsToAdd := None;
                                   mdp_AccountIdsToRemove := Some batch |}) <$> batches))
  = shared ∖ list_to_set (concat batches).
Proof.
  induction batches as [|batch batches IH]; intros shared.
  - cbn. by rewrite difference_empty_L.
  - cbn [fmap list_fmap concat]. unfold applyEvents in *. cbn [foldl ok_call].
    rewrite IH. unfold applyModifyDocumentPermission. cbn.
    by rewrite list_to_set_app_L, union_empty_r_L, difference_difference_l_L.
Qed.

Lemma applyEvents_diff name (O N : list string) :
  applyEvents (list_to_set O)
    (ok_call <$> modifyDocumentPermissionInputs name
                   (Some (accountIdsToAdd O N)) (Some (accountIdsToRemove O N)))
  = list_to_set N.
Proof.
  unfold modifyDocumentPermissionInputs.
  rewrite fmap_app, applyEvents_app, applyEvents_add, applyEvents_remove.
  destruct (accountIdBatches_spec (accountIdsToAdd O N)) as [-> _].
  destruct (accountIdBatches_spec (accountIdsToRemove O N)) as [-> _].
  apply set_eq. intros x.
  rewrite elem_of_difference, elem_of_union, !elem_of_list_to_set.
  rewrite elem_of_accountIdsToAdd, elem_of_accountIdsToRemove.
  destruct (decide (x ∈ N)); destruct (decide (x ∈ O)); tauto.
Qed.

(** A run of [setDocumentPermissions] that succeeds leaves the document
    shared with exactly the new accounts, when it was shared with the old
    ones. *)
Lemma set_permissions_reconciles {W} (meta : AWSClient W) (s s' : St W) evs :
  setDocumentPermissions meta s = (inr tt, s', evs) ->
  let '(o, n) := GetChange (rd s) "permissions" in
  applyEvents (list_to_set (permissionsAccountIds (interface_map (as_map o)))) evs
  = list_to_set (permissionsAccountIds (interface_map (as_map n))).
Proof.
  unfold setDocumentPermissions. rewrite run_bind. cbn [log emit].
  rewrite run_bind. cbn [dHasChange]. unfold HasChange.
  destruct (GetChange (rd s) "permissions") as [o n] eqn:Hchange.
  case_bool_decide as Hne.
  - rewrite run_bind. cbn [dGetChange rd]. rewrite Hchange.
    rewrite run_bind, run_fmap. cbn [dGet].
    rewrite run_bind. unfold catch.
    pose proof (modify_calls meta (as_string (Get (rd s) "name"))
                  (Some (accountIdsToAdd (permissionsAccountIds (interface_map (as_map o)))
                                         (permissionsAccountIds (interface_map (as_map n)))))
                  (Some (accountIdsToRemove (permissionsAccountIds (interface_map (as_map o)))
                                            (permissionsAccountIds (interface_map (as_map n)))))
                  s) as Hcalls.
    destruct (modifyDocumentPermissions meta _ _ _ s) as [[[e|[]] s1] ev1];
      cbn; intros [= <- <-].
    unfold calls_issued in Hcalls. rewrite Hcalls. cbn [app].
    rewrite app_nil_r. apply applyEvents_diff.
  - cbn. intros [= <- <-]. cbn. by rewrite Hne.
Qed.

(** ** The claims on the pure helpers *)

(** C4. The account-id diff of [setDocumentPermissions] reconciles the old
    set of accounts with the new one: removing the accounts to remove from the
    old accounts and adding the accounts to add yields exactly the new
    accounts, and the diff from the new accounts to themselves is empty, so
    that applying it again changes nothing. On the remote side, a run of
    [setDocumentPermissions] that succeeds, with [O] and [N] the old and the
    new account ids of the resource data, turns a document shared with the old
    accounts into one shared with exactly the new accounts. *)
Theorem account_id_diff_reconciles (O N : list string) :
  applyDiff (list_to_set O) (accountIdsToAdd O N) (accountIdsToRemove O N) = list_to_set N /\
  accountIdsToAdd N N = [] /\
  accountIdsToRemove N N = [] /\
  applyDiff (list_to_set N) (accountIdsToAdd N N) (accountIdsToRemove N N) = list_to_set N /\
  (forall W (meta : AWSClient W) (s s' : St W) evs,
     setDocumentPermissions meta s = (inr tt, s', evs) ->
     O = permissionsAccountIds (interface_map (as_map (GetChange (rd s) "permissions").1)) ->
     N = permissionsAccountIds (interface_map (as_map (GetChange (rd s) "permissions").2)) ->
     applyEvents (list_to_set O) evs = list_to_set N).
Proof.
  destruct (diff_self N) as [Ha Hr]. split_and!; try done; try apply diff_apply.
  intros W meta s s' evs Hrun -> ->.
  pose proof (set_permissions_reconciles meta s s' evs Hrun) as H.
  by destruct (GetChange (rd s) "permissions") as [o n].
Qed.

(** C8. [modifyDocumentPermissions] cuts each of its two lists into
    consecutive batches of at most 20 account ids whose concatenation is the
    list, every batch but the last holding exactly 20, and issues one
    ModifyDocumentPermission call per batch, the additions first: a run that
    succeeds leaves exactly these calls in its trace, a run that fails leaves
    the calls before the failing one and the failing one. *)
Theorem modify_permissions_in_batches {W} (meta : AWSClient W) (name : string)
    (accountIdsToAdd accountIdstoRemove : option (list string)) (s : St W) :
  (forall ids,
     concat (accountIdBatches ids) = ids /\
     Forall (fun batch => length batch <= SSM_DOCUMENT_PERMISSIONS_BATCH_LIMIT)
            (accountIdBatches ids) /\
     exists full last,
       accountIdBatches ids = full ++ [last] /\
       Forall (fun batch => length batch = SSM_DOCUMENT_PERMISSIONS_BATCH_LIMIT) full) /\
  let '(r, s', evs) := modifyDocumentPermissions meta name accountIdsToAdd accountIdstoRemove s in
  calls_issued r evs (modifyDocumentPermissionInputs name accountIdsToAdd accountIdstoRemove).
Proof.
  split.
  - intros ids. destruct (accountIdBatches_spec ids) as (Hc & Hl & full & last & Hb & Hf & _).
    split_and!; try done. by exists full, last.
  - apply modify_calls.
Qed.

(** C9. [validateSSMDocumentPermissions] returns no error exactly when the
    map holds the string "Share" under "type" and a string under
    "account_ids"; a "type" that is missing or not "Share" adds one error, and
    so does an "account_ids" that is not a string. *)
Theorem validate_permissions_errors (v : gmap string GoValue) :
  (validateSSMDocumentPermissions v = [] <->
     v !! "type" = Some (VString "Share") /\ exists s, v !! "account_ids" = Some (VString s)) /\
  length (validateSSMDocumentPermissions v) =
    (if bool_decide (v !! "type" = Some (VString "Share")) then 0 else 1) +
    (if is_string (v !! "account_ids") then 0 else 1).
Proof. apply validate_spec. Qed.

(** C10. For a non-empty list of non-empty account ids without commas, the
    string [getDocumentPermissions] stores under "account_ids" is the
    comma-joined list, splitting it as [setDocumentPermissions] and
    [deleteDocumentPermissions] do gives the list back in order, and joining
    what was split gives the stored string back. *)
Theorem account_ids_join_split_inverse (account_ids : list string) :
  account_ids ≠ [] ->
  Forall (fun id => id ≠ "" /\ has_comma id = false) account_ids ->
  exists permissions,
    documentPermissionsMap account_ids = Some permissions /\
    permissions !! "account_ids" = Some (Join account_ids) /\
    permissionsAccountIds (interface_map permissions) = account_ids /\
    joinAccountIds (permissionsAccountIds (interface_map permissions)) = Join account_ids.
Proof.
  intros Hne Hall.
  assert (Forall (fun id => id ≠ "") account_ids) as Hfull
    by (apply (Forall_impl _ _ _ Hall); by intros ? [? ?]).
  assert (Forall (fun id => has_comma id = false) account_ids) as Hplain
    by (apply (Forall_impl _ _ _ Hall); by intros ? [? ?]).
  pose proof (Join_nonempty account_ids Hne Hfull) as Hjoin.
  eexists. unfold documentPermissionsMap.
  rewrite joinAccountIds_Join, bool_decide_false by done.
  split; [reflexivity|].
  assert (permissionsAccountIds
            (interface_map (<["account_ids" := Join account_ids]> (<["type" := "Share"]> ∅)))
          = account_ids) as Hdecode.
  { unfold permissionsAccountIds, interface_map.
    rewrite lookup_fmap, lookup_insert_eq. cbn [fmap option_fmap option_map as_string].
    rewrite bool_decide_true by done. by apply Split_Join. }
  split_and!.
  - by rewrite lookup_insert_eq.
  - done.
  - by rewrite Hdecode, joinAccountIds_Join.
Qed.

(** ** The claims on concrete inputs *)

(** C2 as stated fails: a describe response with two compute environments
    for the name "ce" is accepted by the Read handler, which returns success
    with the status of the first, and by both refresh functions, which report
    the status of the first with no error. *)
Lemma two_results_are_not_rejected :
  let meta := scripted two_results in
  let s := existing "ce" [("compute_environment_name", VString "ce")] in
  let both := [computeEnvironment "VALID"; computeEnvironment "INVALID"] in
  DescribeComputeEnvironments (batchconn meta) ["ce"] (world s) = (inr both, 1) /\
  (resourceAwsBatchComputeEnvironmentRead meta s).1.1 = inr tt /\
  Get (rd (resourceAwsBatchComputeEnvironmentRead meta s).1.2) "status" = VString "VALID" /\
  (resourceAwsBatchComputeEnvironmentStatusRefreshFunc meta "ce" s).1.1
    = inr (Some both, "VALID", None) /\
  (resourceAwsBatchComputeEnvironmentDeleteRefreshFunc meta "ce" s).1.1
    = inr (Some both, "VALID", None).
Proof. vm_compute. repeat split. Qed.

Lemma describe_takes_first_result_witness :
  let meta := scripted two_results in
  let s := existing "ce" [("compute_environment_name", VString "ce")] in
  (resourceAwsBatchComputeEnvironmentStatusRefreshFunc meta "ce" s).1.1
    = inr (Some [computeEnvironment "VALID"; computeEnvironment "INVALID"], "VALID", None) /\
  (resourceAwsBatchComputeEnvironmentRead meta s).1.1 = inr tt /\
  resourceAwsLbCreate meta (mret tt) s
  = (inl (Errorf "no load balancers returned following creation of tf-lb-20210301000000000000000001"),
     mkSt 1 (Set_ (rd s) "name" (VString "tf-lb-20210301000000000000000001")),
     [EvLog "[DEBUG] ALB create configuration";
      EvCall (elbv2_CreateLoadBalancer
                (createLoadBalancerInput meta (rd s) "tf-lb-20210301000000000000000001")) None]).
Proof.
  intros meta s.
  destruct (describe_takes_first_result meta (mret tt) s) as (Hrefresh & Hread & Hlb).
  destruct (Hrefresh "ce" (computeEnvironment "VALID") [computeEnvironment "INVALID"] 1)
    as [Hstatus _]; [reflexivity|].
  destruct (Hread (computeEnvironment "VALID") [computeEnvironment "INVALID"] 1)
    as (d' & Hrun & _); [reflexivity|].
  destruct (Hlb [loadBalancer "tf-lb-20210301000000000000000001"; loadBalancer "other"] 1)
    as [Hcreate _]; [reflexivity | cbn; lia |].
  split_and!.
  - rewrite Hstatus. reflexivity.
  - rewrite Hrun. reflexivity.
  - exact Hcreate.
Defined.

Lemma delete_not_found_is_success_witness :
  (let meta := scripted deleting_then_gone in
   let s := existing "ce" [("compute_environment_name", VString "ce")] in
   exists w' evs,
     resourceAwsBatchComputeEnvironmentDelete meta s = (inr tt, mkSt w' (rd s), evs) /\
     last evs = Some (EvCall (batch_DescribeComputeEnvironments ["ce"]) None)) /\
  (let meta := scripted document_gone in
   let s := existing "doc" [("name", VString "doc")] in
   exists evs,
     resourceAwsSsmDocumentDelete meta s = (inr tt, mkSt 2 (rd s), evs) /\
     last evs = Some (EvCall (ssm_waiter_DocumentDeleted "doc")
                        (Some (AWSErr ErrCodeInvalidDocument "Document does not exist")))).
Proof.
  split.
  - intros meta s.
    destruct (delete_not_found_is_success meta s) as (_ & _ & Hbatch & _).
    apply (Hbatch (mkSt 2 (rd s))
             [EvCall (batch_UpdateComputeEnvironment
                        {| uce_ComputeEnvironment := "ce"; uce_State := Some CEStateDisabled |})
                     None;
              EvCall (batch_DescribeComputeEnvironments ["ce"]) None]
             3 1).
    + vm_compute. reflexivity.
    + vm_compute. reflexivity.
    + vm_compute. lia.
    + vm_compute. tauto.
  - intros meta s.
    destruct (delete_not_found_is_success meta s) as (_ & _ & _ & Hssm).
    apply (Hssm (mkSt 0 (rd s)) [EvLog "[INFO] Removing permissions from document"] 1 2
             (AWSErr ErrCodeInvalidDocument "Document does not exist")).
    + vm_compute. reflexivity.
    + vm_compute. reflexivity.
    + vm_compute. reflexivity.
    + vm_compute. reflexivity.
Defined.

Lemma lb_delete_swallows_cleanup_errors_witness :
  let meta := scripted cleanup_fails in
  let s := existing lbArn [("name", VString "lb")] in
  DeleteLoadBalancer (elbv2conn meta) (Id (rd s)) (world s) = (inr tt, 1) /\
  (cleanupLBNetworkInterfaces meta lbArn (mkSt 1 (rd s))).1.1
    = inl (AWSErr "UnauthorizedOperation" "not authorized") /\
  (resourceAwsLbDelete meta s).1.1 = inr tt /\
  EvLog "[WARN] Failed to cleanup ENIs for ALB" ∈ (resourceAwsLbDelete meta s).2.
Proof.
  intros meta s.
  pose proof (lb_delete_swallows_cleanup_errors meta s 1 eq_refl) as H.
  split; [reflexivity|]. split; [vm_compute; reflexivity|].
  destruct (cleanupLBNetworkInterfaces meta (Id (rd s)) (mkSt 1 (rd s)))
    as [[r1 s1] ev1] eqn:Hcleanup.
  destruct (waitForNLBNetworkInterfacesToDetach meta (Id (rd s)) s1) as [[r2 s2] ev2].
  rewrite H. split; [reflexivity|].
  assert (r1 = inl (AWSErr "UnauthorizedOperation" "not authorized")) as ->.
  { change r1 with (r1, s1, ev1).1.1. rewrite <- Hcleanup. vm_compute. reflexivity. }
  cbn [snd succeeded]. rewrite !elem_of_app, !elem_of_cons. tauto.
Defined.

Lemma refresh_error_fails_session_witness :
  let meta := scripted describe_fails in
  let s := existing "ce" [("compute_environment_name", VString "ce")] in
  let conf := {| Pending := [CEStatusCreating]; Target := [CEStatusValid];
                 Refresh := resourceAwsBatchComputeEnvironmentStatusRefreshFunc meta "ce";
                 sc_Timeout := 3; MinTimeout := 5 |} in
  WaitForState conf s
  = (inr (inl (AWSErr "ServerException" "internal failure")), mkSt 1 (rd s),
     [EvCall (batch_DescribeComputeEnvironments ["ce"])
             (Some (AWSErr "ServerException" "internal failure"))]).
Proof.
  intros meta s conf.
  destruct (refresh_error_fails_session meta "ce" s
              (AWSErr "ServerException" "internal failure") 1 conf 3)
    as (_ & _ & _ & H); [reflexivity | by left | exact H].
Defined.



Lemma account_ids_join_split_inverse_witness :
  exists permissions,
    documentPermissionsMap ["111111111111"; "222222222222"] = Some permissions /\
    permissions !! "account_ids" = Some "111111111111,222222222222" /\
    permissionsAccountIds (interface_map permissions) = ["111111111111"; "222222222222"].
Proof.
  destruct (account_ids_join_split_inverse ["111111111111"; "222222222222"])
    as (permissions & H1 & H2 & H3 & _).
  - done.
  - repeat constructor; done.
  - by exists permissions.
Defined.

Lemma account_id_diff_reconciles_witness :
  let s := mkSt 0 (mkResourceData "doc"
                     {["permissions" := VMap {["account_ids" := "111111111111,222222222222"]}]}
                     (<["permissions" := VMap {["account_ids" := "222222222222,333333333333"]}]>
                        {["name" := VString "doc"]})
                     false (fun _ => 3)) in
  let run := setDocumentPermissions (scripted all_ok) s in
  run.1.1 = inr tt /\
  applyEvents (list_to_set ["111111111111"; "222222222222"]) run.2
  = list_to_set ["222222222222"; "333333333333"].
Proof.
  intros s run. split; [vm_compute; reflexivity|].
  destruct (account_id_diff_reconciles ["111111111111"; "222222222222"]
              ["222222222222"; "333333333333"]) as (_ & _ & _ & _ & H).
  apply (H nat (scripted all_ok) s run.1.2 run.2); vm_compute; reflexivity.
Defined.

(** * Further properties *)

(** ** Names of load balancers *)

Lemma split_on_app sep a b :
  split_on sep (a +:+ String sep b) = split_on sep a ++ split_on sep b.
Proof.
  induction a as [|c a IH].
  - rewrite append_nil_l. cbn [split_on]. by rewrite Ascii.eqb_refl.
  - rewrite append_cons. cbn [split_on]. rewrite IH.
    destruct (Ascii.eqb c sep); [done|].
    pose proof (split_on_nonempty sep a) as Hne.
    by destruct (split_on sep a).
Qed.

Lemma split_on_whole sep s : has_char sep s = false -> split_on sep s = [s].
Proof.
  induction s as [|c s IH]; cbn [split_on has_char]; [done|].
  intros [Hc Hs]%orb_false_elim. by rewrite Hc, (IH Hs).
Qed.

Lemma split_on_parts sep s : Forall (fun part => has_char sep part = false) (split_on sep s).
Proof.
  induction s as [|c s IH]; cbn [split_on].
  - by apply Forall_singleton.
  - destruct (Ascii.eqb c sep) eqn:Hc; [by apply Forall_cons|].
    pose proof (split_on_nonempty sep s) as Hne.
    destruct (split_on sep s) as [|h t]; [done|].
    apply Forall_cons in IH as [Hh Ht]. apply Forall_cons. split; [|done].
    cbn [has_char]. by rewrite Hc, Hh.
Qed.

Lemma join_on_cons sep x l : l ≠ [] -> join_on sep (x :: l) = x +:+ String sep (join_on sep l).
Proof. by destruct l. Qed.

Lemma join_on_split sep s : join_on sep (split_on sep s) = s.
Proof.
  induction s as [|c s IH]; cbn [split_on]; [done|].
  destruct (Ascii.eqb_spec c sep) as [->|Hne].
  - rewrite join_on_cons by apply split_on_nonempty. by rewrite append_nil_l, IH.
  - pose proof (split_on_nonempty sep s) as Hs.
    destruct (split_on sep s) as [|h t]; [done|].
    destruct t as [|h' t]; cbn [join_on] in *; rewrite ?append_cons; by rewrite <- IH.
Qed.

Lemma append_assoc (a b c : string) : (a +:+ b) +:+ c = a +:+ (b +:+ c).
Proof. induction a as [|x a IH]; [done|]. by rewrite !append_cons, IH. Qed.

Lemma join_on_app sep l k :
  l ≠ [] -> k ≠ [] ->
  join_on sep (l ++ k) = join_on sep l +:+ String sep (join_on sep k).
Proof.
  intros Hl Hk. induction l as [|x l IH]; [done|].
  destruct l as [|y l].
  - cbn [app]. by rewrite join_on_cons.
  - change ((x :: y :: l) ++ k) with (x :: ((y :: l) ++ k)).
    rewrite join_on_cons by done. rewrite IH by done.
    rewrite (join_on_cons sep x (y :: l)) by done.
    by rewrite append_assoc, append_cons.
Qed.

(** [getLbNameFromArn] accepts exactly the texts that end in three segments
    separated by slashes, alone or after a slash, and returns these three
    segments. *)
Theorem getLbNameFromArn_spec (arn name : string) :
  getLbNameFromArn arn = inr name <->
  exists s1 s2 s3,
    is_segment s1 /\ is_segment s2 /\ is_segment s3 /\
    name = s1 +:+ "/" +:+ s2 +:+ "/" +:+ s3 /\
    (arn = name \/ exists prefix, arn = prefix +:+ "/" +:+ name).
Proof.
  unfold getLbNameFromArn. split.
  - pose proof (join_on_split slash arn) as Hjoin.
    pose proof (split_on_parts slash arn) as Hparts.
    rewrite <- (reverse_involutive (split_on slash arn)) in Hjoin, Hparts.
    destruct (reverse (split_on slash arn)) as [|s3 [|s2 [|s1 rest]]]; try done.
    case_bool_decide as Hseg; [|done]. intros [= <-].
    destruct Hseg as (H1 & H2 & H3).
    rewrite !reverse_cons, <- !app_assoc in Hjoin, Hparts. cbn [app] in Hjoin, Hparts.
    apply Forall_app in Hparts as [_ Hparts].
    apply Forall_cons in Hparts as [P1 Hparts].
    apply Forall_cons in Hparts as [P2 Hparts].
    apply Forall_cons in Hparts as [P3 _].
    exists s1, s2, s3. split_and!; try done.
    destruct (reverse rest) as [|p ps] eqn:Hrest.
    + left. by rewrite <- Hjoin.
    + right. exists (join_on slash (p :: ps)).
      rewrite <- Hjoin at 1.
      by rewrite (join_on_app slash (p :: ps) [s1; s2; s3]).
  - intros (s1 & s2 & s3 & [N1 P1] & [N2 P2] & [N3 P3] & -> & Harn).
    assert (split_on slash (s1 +:+ "/" +:+ s2 +:+ "/" +:+ s3) = [s1; s2; s3]) as Hname.
    { change (split_on slash (s1 +:+ String slash (s2 +:+ String slash s3)) = [s1; s2; s3]).
      rewrite !split_on_app.
      by rewrite (split_on_whole _ s1 P1), (split_on_whole _ s2 P2), (split_on_whole _ s3 P3). }
    destruct Harn as [->|[prefix ->]].
    + rewrite Hname. cbn. rewrite bool_decide_true by done. done.
    + change (prefix +:+ "/" +:+ ?x) with (prefix +:+ String slash x).
      rewrite split_on_app, Hname, reverse_app. cbn.
      rewrite bool_decide_true by done. done.
Qed.

(** ** The number of batches *)

Lemma length_concat_full (full : list (list string)) n :
  Forall (fun b => length b = n) full -> length (concat full) = length full * n.
Proof.
  induction 1 as [|b full Hb _ IH]; [done|].
  cbn [concat length]. rewrite length_app, IH, Hb. lia.
Qed.

Lemma accountIdBatches_length (ids : list string) :
  length (accountIdBatches ids) = batch_count (length ids).
Proof.
  destruct (accountIdBatches_spec ids) as (Hc & Hl & full & last & Hb & Hf & Hne).
  assert (length last <= SSM_DOCUMENT_PERMISSIONS_BATCH_LIMIT) as Hlast.
  { rewrite Hb in Hl. apply Forall_app in Hl as [_ Hl%Forall_inv]. exact Hl. }
  assert (length ids = length full * SSM_DOCUMENT_PERMISSIONS_BATCH_LIMIT + length last) as Hn.
  { rewrite <- Hc at 1. rewrite Hb, concat_app, length_app.
    rewrite (length_concat_full full _ Hf). cbn [concat]. by rewrite app_nil_r. }
  rewrite Hb, length_app. cbn [length]. unfold batch_count. rewrite Hn.
  unfold SSM_DOCUMENT_PERMISSIONS_BATCH_LIMIT in *.
  destruct (decide (ids = [])) as [->|Hids].
  - cbn in Hn. assert (length full = 0) as -> by lia.
    assert (length last = 0) as -> by lia. done.
  - specialize (Hne Hids). assert (1 <= length last) by (destruct last; [done|cbn; lia]).
    replace (length full * 20 + length last + (20 - 1))
      with ((length last + 19) + length full * 20) by lia.
    rewrite Nat.div_add by lia.
    assert ((length last + 19) / 20 = 1) as ->.
    { symmetry. apply Nat.div_unique with (r := length last - 1); lia. }
    lia.
Qed.

(** The batching loop closes [⌈n/20⌉] batches for [n] account ids, and one
    empty batch for none; no batch of a non-empty list is empty. *)
Theorem accountIdBatches_count (ids : list string) :
  length (accountIdBatches ids) = batch_count (length ids) /\
  (ids ≠ [] -> Forall (fun batch => batch ≠ []) (accountIdBatches ids)) /\
  (ids = [] -> accountIdBatches ids = [[]]).
Proof.
  split_and!.
  - apply accountIdBatches_length.
  - destruct (accountIdBatches_spec ids) as (Hc & Hl & full & last & Hb & Hf & Hne).
    intros Hids. rewrite Hb. apply Forall_app. split.
    + eapply Forall_impl; [exact Hf|]. unfold SSM_DOCUMENT_PERMISSIONS_BATCH_LIMIT.
      intros b Hlen ->. done.
    + apply Forall_singleton. by apply Hne.
  - intros ->. done.
Qed.

Lemma accountIdBatches_count_witness :
  length (accountIdBatches (replicate 41 "123456789012")) = 3 /\
  Forall (fun batch => batch ≠ []) (accountIdBatches (replicate 41 "123456789012")).
Proof.
  destruct (accountIdBatches_count (replicate 41 "123456789012")) as (Hlen & Hne & _).
  split; [exact Hlen | by apply Hne].
Defined.

(** ** What the diff leaves alone *)

(** The accounts to remove are old accounts in their order, the accounts to
    add are new accounts in their order, no account is in both lists, and an
    account that is both old and new is in neither. *)
Theorem account_id_diff_disjoint (oldIds newIds : list string) :
  accountIdsToRemove oldIds newIds `sublist_of` oldIds /\
  accountIdsToAdd oldIds newIds `sublist_of` newIds /\
  (forall id, ¬ (id ∈ accountIdsToAdd oldIds newIds /\ id ∈ accountIdsToRemove oldIds newIds)) /\
  (forall id, ¬ (id ∈ oldIds /\ id ∈ newIds /\
                 (id ∈ accountIdsToAdd oldIds newIds \/ id ∈ accountIdsToRemove oldIds newIds))).
Proof.
  split_and!.
  - unfold accountIdsToRemove. rewrite foldl_append_unless, app_nil_l. apply sublist_filter.
  - unfold accountIdsToAdd. rewrite foldl_append_unless, app_nil_l. apply sublist_filter.
  - intros id. rewrite elem_of_accountIdsToAdd, elem_of_accountIdsToRemove. tauto.
  - intros id. rewrite elem_of_accountIdsToAdd, elem_of_accountIdsToRemove. tauto.
Qed.

(** ** What is stored for the permissions *)

(** The map [getDocumentPermissions] returns is nil exactly when the joined
    account ids are the empty string; a map it returns passes
    [validateSSMDocumentPermissions] and holds the joined account ids; and
    joining the account ids read back from any stored string gives that
    string. *)
Theorem stored_permissions_validate (account_ids : list string) (stored : string) :
  (documentPermissionsMap account_ids = None <-> Join account_ids = "") /\
  (forall permissions,
     documentPermissionsMap account_ids = Some permissions ->
     validateSSMDocumentPermissions (interface_map permissions) = [] /\
     permissions !! "account_ids" = Some (Join account_ids) /\
     permissions !! "type" = Some "Share") /\
  joinAccountIds (permissionsAccountIds (interface_map {["account_ids" := stored]})) = stored.
Proof.
  split_and!.
  - unfold documentPermissionsMap. rewrite joinAccountIds_Join.
    case_bool_decide; split; done.
  - intros permissions. unfold documentPermissionsMap. rewrite joinAccountIds_Join.
    case_bool_decide; [done|]. intros [= <-]. split_and!.
    + apply validate_spec. unfold interface_map. rewrite !lookup_fmap.
      rewrite lookup_insert_eq, lookup_insert_ne, lookup_insert_eq by done.
      split; [done|]. by eexists.
    + by rewrite lookup_insert_eq.
    + by rewrite lookup_insert_ne, lookup_insert_eq.
  - unfold permissionsAccountIds, interface_map.
    rewrite lookup_fmap, lookup_singleton_eq. cbn [fmap option_fmap option_map as_string].
    case_bool_decide as Hs.
    + by rewrite joinAccountIds_Join, Join_Split.
    + by rewrite Hs.
Qed.

Lemma stored_permissions_validate_witness :
  validateSSMDocumentPermissions
    (interface_map (<["account_ids" := "111111111111,222222222222"]> {["type" := "Share"]})) = [].
Proof.
  destruct (stored_permissions_validate ["111111111111"; "222222222222"] "") as (_ & H & _).
  apply (H (<["account_ids" := "111111111111,222222222222"]> {["type" := "Share"]})).
  reflexivity.
Defined.

(** ** Batch compute environment: polls of the status *)

Section BatchRuns.
Context {W : Type} (meta : AWSClient W).
Implicit Types s : St W.

Lemma poll_settles name pending target k : forall n timeout (w : W) d result w',
  k <= n ->
  settles meta name pending target k w = Some (result, w') ->
  exists m,
    m <= k /\
    poll {| Pending := [pending]; Target := [target];
            Refresh := resourceAwsBatchComputeEnvironmentStatusRefreshFunc meta name;
            sc_Timeout := timeout; MinTimeout := 5 |} n (mkSt w d)
    = (inr (inr (Some result)), mkSt w' d, replicate (S m) (describe_ok name)).
Proof.
  induction k as [|k IH]; intros n timeout w d result w' Hk Hsettles.
  - cbn in Hsettles.
    destruct (DescribeComputeEnvironments (batchconn meta) [name] w)
      as [[e|[|ce rest]] w1] eqn:Hdesc; try done.
    case_bool_decide as Ht; [|by case_bool_decide]. simplify_eq.
    exists 0. split; [done|].
    rewrite poll_unfold, run_bind. cbn [Refresh].
    rewrite (status_refresh_first meta name (mkSt w d) ce rest w') by done.
    cbn [Target Pending]. rewrite bool_decide_true by apply list_elem_of_here. done.
  - cbn in Hsettles.
    destruct (DescribeComputeEnvironments (batchconn meta) [name] w)
      as [[e|[|ce rest]] w1] eqn:Hdesc; try done.
    case_bool_decide as Ht.
    + simplify_eq. exists 0. split; [lia|].
      rewrite poll_unfold, run_bind. cbn [Refresh].
      rewrite (status_refresh_first meta name (mkSt w d) ce rest w') by done.
      cbn [Target Pending]. rewrite bool_decide_true by apply list_elem_of_here. done.
    + case_bool_decide as Hp; [|done]. destruct n as [|n]; [lia|].
      destruct (IH n timeout w1 d result w') as (m & Hm & Hpoll); [lia|done|].
      exists (S m). split; [lia|].
      rewrite poll_unfold, run_bind. cbn [Refresh].
      rewrite (status_refresh_first meta name (mkSt w d) ce rest w1) by done.
      cbn [Target Pending].
      rewrite bool_decide_false by (by intros ?%list_elem_of_singleton).
      rewrite bool_decide_true by (rewrite Hp; apply list_elem_of_here).
      cbv beta iota. cbn [rd world]. rewrite Hpoll. done.
Qed.

Lemma poll_lingers name pending target n : forall timeout (w : W) d w',
  pending ≠ target ->
  lingers meta name pending n w = Some w' ->
  poll {| Pending := [pending]; Target := [target];
          Refresh := resourceAwsBatchComputeEnvironmentStatusRefreshFunc meta name;
          sc_Timeout := timeout; MinTimeout := 5 |} n (mkSt w d)
  = (inr (inl (TimeoutError pending)), mkSt w' d, replicate (S n) (describe_ok name)).
Proof.
  induction n as [|n IH]; intros timeout w d w' Hne Hlingers.
  - cbn in Hlingers.
    destruct (DescribeComputeEnvironments (batchconn meta) [name] w)
      as [[e|[|ce rest]] w1] eqn:Hdesc; try done.
    case_bool_decide as Hp; [|done]. injection Hlingers as ->.
    rewrite poll_unfold, run_bind. cbn [Refresh].
    rewrite (status_refresh_first meta name (mkSt w d) ce rest w') by done.
    cbn [Target Pending].
    rewrite bool_decide_false by (intros ?%list_elem_of_singleton; congruence).
    rewrite bool_decide_true by (rewrite Hp; apply list_elem_of_here).
    by rewrite Hp.
  - cbn in Hlingers.
    destruct (DescribeComputeEnvironments (batchconn meta) [name] w)
      as [[e|[|ce rest]] w1] eqn:Hdesc; try done.
    case_bool_decide as Hp; [|done].
    rewrite poll_unfold, run_bind. cbn [Refresh].
    rewrite (status_refresh_first meta name (mkSt w d) ce rest w1) by done.
    cbn [Target Pending].
    rewrite bool_decide_false by (intros ?%list_elem_of_singleton; congruence).
    rewrite bool_decide_true by (rewrite Hp; apply list_elem_of_here).
    cbv beta iota. cbn [rd world]. rewrite (IH timeout w1 d w') by done. done.
Qed.

End BatchRuns.

Lemma Get_SetId d id key : Get (SetId d id) key = Get d key.
Proof. reflexivity. Qed.

Ltac get_simpl :=
  repeat first
    [ rewrite Get_SetId
    | rewrite Get_Set_eq
    | rewrite Get_Set_ne by done ].

Ltac get_simpl_in H :=
  repeat first
    [ rewrite Get_SetId in H
    | rewrite Get_Set_eq in H
    | rewrite Get_Set_ne in H by done ].

(** Turns a goal about the run [m s] into a goal of the program logic. *)
Ltac wp_start run :=
  pattern run;
  lazymatch goal with
  | |- ?P (?m ?s) => apply (wp_intro m s P); cbv beta
  end.

Section BatchCreate.
Context {W : Type} (meta : AWSClient W).
Implicit Types s : St W.

Lemma wp_run {A} (m : M W A) s (Q : error + A -> St W -> list Event -> Prop) :
  Q (m s).1.1 (m s).1.2 (m s).2 -> wp m s Q.
Proof. unfold wp. by destruct (m s) as [[r s1] e1]. Qed.

(** Create up to the answer to its request: a request that is refused ends
    the handler; after one that is accepted the Id is set and the handler
    waits for the compute environment and reads it back. *)
Lemma batch_create_run s :
  let name := (computeEnvironmentName meta (rd s) (world s)).1 in
  let w0 := (computeEnvironmentName meta (rd s) (world s)).2 in
  let d0 := Set_ (rd s) "compute_environment_name" (VString name) in
  let input := createComputeEnvironmentInput meta (rd s) name in
  (as_string (Get (rd s) "type") = CETypeManaged ->
   as_objects (Get (rd s) "compute_resources") ≠ []) ->
  resourceAwsBatchComputeEnvironmentCreate meta s
  = match CreateComputeEnvironment (batchconn meta) input w0 with
    | (inl e, w1) =>
        (inl e, mkSt w1 d0,
         [EvLog "[DEBUG] Create compute environment";
          EvCall (batch_CreateComputeEnvironment input) (Some e)])
    | (inr _, w1) =>
        let '(r, s', evs) :=
          (r ← WaitForState {|
                 Pending := [CEStatusCreating];
                 Target := [CEStatusValid];
                 Refresh := resourceAwsBatchComputeEnvironmentStatusRefreshFunc meta name;
                 sc_Timeout := Timeout (rd s) TimeoutCreate;
                 MinTimeout := 5 |};
           check id r;;
           resourceAwsBatchComputeEnvironmentRead meta) (mkSt w1 (SetId d0 name)) in
        (r, s',
         [EvLog "[DEBUG] Create compute environment";
          EvCall (batch_CreateComputeEnvironment input) None;
          EvSetId name] ++ evs)
    end.
Proof.
  intros name w0 d0 input Hres. subst input d0 name w0.
  destruct (computeEnvironmentName meta (rd s) (world s)) as [name w0] eqn:Hname.
  cbn [fst snd].
  set (d0 := Set_ (rd s) "compute_environment_name" (VString name)).
  set (input := createComputeEnvironmentInput meta (rd s) name).
  wp_start (resourceAwsBatchComputeEnvironmentCreate meta s).
  unfold resourceAwsBatchComputeEnvironmentCreate. repeat wp_pure.
  unfold computeEnvironmentName in Hname.
  destruct (GetOk (rd s) "compute_environment_name") as [v1 [|]] eqn:Hn1.
  2: wp_pure; wp_pure;
     destruct (GetOk (rd s) "compute_environment_name_prefix") as [v2 [|]] eqn:Hn2.
  all: first [ wp_prim; injection Hname as <- <-
             | apply wp_ask; intros ? ? Hask; rewrite Hname in Hask; injection Hask as <- <- ].
  all: cbn [app].
  all: repeat first [wp_pure | progress (unfold GetOk; cbn beta iota zeta)].
  all: rewrite ?Get_Set_ne by done.
  all: assert (cce_ComputeResources input
               = if bool_decide (as_string (Get (rd s) "type") = CETypeManaged)
                 then head (as_objects (Get (rd s) "compute_resources")) else None)
         as Hcr by reflexivity.
  all: destruct (bool_decide (as_string (Get (rd s) "type") = CETypeManaged)) eqn:Htype;
         [ repeat wp_pure; rewrite ?Get_Set_ne by done;
           destruct (as_objects (Get (rd s) "compute_resources")) as [|cr crs] eqn:Hcrs;
           [ exfalso; by apply Hres; [eapply bool_decide_eq_true_1|] |]
         | ].
  all: repeat wp_pure.
  all: match goal with
       | |- wp (api (batch_CreateComputeEnvironment ?i) _) _ _ =>
           replace i with input
             by (unfold input, createComputeEnvironmentInput, GetOk;
                 cbn [snd]; by rewrite ?Htype, ?Hcrs)
       end.
  all: fold d0.
  all: match goal with
       | |- wp (api _ ?f) {| world := ?w; rd := _ |} _ =>
           destruct (f w) as [[e|[]] w1] eqn:Hcreate
       end; wp_answer Hcreate; repeat wp_pure; [done|].
  all: apply wp_run.
  all: change (Timeout (SetId d0 ?n) TimeoutCreate) with (Timeout (rd s) TimeoutCreate).
  all: rewrite run_bind.
  all: match goal with
       | |- context [WaitForState ?c ?st] => destruct (WaitForState c st) as [[[e|r] s1] ev1]
       end; cbn [fst snd]; [done|].
  all: apply wp_run.
  all: match goal with
       | |- context [(check id ?a ≫= ?k) ?st] =>
           destruct ((check id a ≫= k) st) as [[r2 s2] ev2]
       end; done.
Qed.

(** A Create whose request is accepted, whose polls report CREATING for no
    longer than the timeout allows and then VALID, and whose read-back finds
    the compute environment, returns success: the Id is the name sent in the
    request (the configured name, or the unique id), and the state holds that
    name and the status that was read back. *)
Theorem batch_create_succeeds s w1 result w2 ce rest w3 :
  let name := (computeEnvironmentName meta (rd s) (world s)).1 in
  let w0 := (computeEnvironmentName meta (rd s) (world s)).2 in
  let input := createComputeEnvironmentInput meta (rd s) name in
  (as_string (Get (rd s) "type") = CETypeManaged ->
   as_objects (Get (rd s) "compute_resources") ≠ []) ->
  CreateComputeEnvironment (batchconn meta) input w0 = (inr tt, w1) ->
  settles meta name CEStatusCreating CEStatusValid (Timeout (rd s) TimeoutCreate) w1
    = Some (result, w2) ->
  DescribeComputeEnvironments (batchconn meta) [name] w2 = (inr (ce :: rest), w3) ->
  exists d' m,
    resourceAwsBatchComputeEnvironmentCreate meta s
    = (inr tt, mkSt w3 d',
       [EvLog "[DEBUG] Create compute environment";
        EvCall (batch_CreateComputeEnvironment input) None;
        EvSetId name]
       ++ replicate (S m) (describe_ok name)
       ++ [EvLog "[DEBUG] Read compute environment"; describe_ok name]) /\
    m <= Timeout (rd s) TimeoutCreate /\
    Id d' = name /\
    Get d' "compute_environment_name" = VString name /\
    Get d' "status" = VString (Status ce).
Proof.
  intros name w0 input Hres Hcreate Hsettles Hread.
  destruct (poll_settles meta name CEStatusCreating CEStatusValid
              (Timeout (rd s) TimeoutCreate) (Timeout (rd s) TimeoutCreate)
              (Timeout (rd s) TimeoutCreate) w1
              (SetId (Set_ (rd s) "compute_environment_name" (VString name)) name)
              result w2) as (m & Hm & Hpoll); [lia|done|].
  rewrite (batch_create_run s Hres). cbv zeta. fold name w0 input. rewrite Hcreate.
  lazymatch goal with
  | |- context [match ?run with _ => _ end] =>
      cut (run.1.1 = inr tt /\ world run.1.2 = w3 /\
           run.2 = replicate (S m) (describe_ok name)
                   ++ [EvLog "[DEBUG] Read compute environment"; describe_ok name] /\
           Id (rd run.1.2) = name /\
           Get (rd run.1.2) "compute_environment_name" = VString name /\
           Get (rd run.1.2) "status" = VString (Status ce));
        [ destruct run as [[r [w d']] evs]; cbn [fst snd world rd];
          intros (-> & -> & -> & ? & ? & ?); by exists d', m
        | wp_start run ]
  end.
  wp_pure. unfold WaitForState. cbn [sc_Timeout]. wp_known Hpoll. repeat wp_pure.
  unfold resourceAwsBatchComputeEnvironmentRead. repeat wp_pure.
  lazymatch goal with
  | |- context [as_string (Get ?d "compute_environment_name")] =>
      replace (as_string (Get d "compute_environment_name")) with name by (by get_simpl)
  end.
  wp_answer Hread. repeat wp_pure.
  destruct (bool_decide (Type_ ce = CETypeManaged)); repeat wp_pure.
  all: cbn [fst snd world rd].
  all: split_and!; [reflexivity | reflexivity | reflexivity | done | by get_simpl ..].
Qed.

(** A Create whose request is accepted and whose polls report CREATING
    until the timeout has passed fails with a timeout error that carries the
    status CREATING, after one poll more than the timeout has intervals; the
    Id stays set to the name. *)
Theorem batch_create_times_out s w1 w2 :
  let name := (computeEnvironmentName meta (rd s) (world s)).1 in
  let w0 := (computeEnvironmentName meta (rd s) (world s)).2 in
  let input := createComputeEnvironmentInput meta (rd s) name in
  (as_string (Get (rd s) "type") = CETypeManaged ->
   as_objects (Get (rd s) "compute_resources") ≠ []) ->
  CreateComputeEnvironment (batchconn meta) input w0 = (inr tt, w1) ->
  lingers meta name CEStatusCreating (Timeout (rd s) TimeoutCreate) w1 = Some w2 ->
  resourceAwsBatchComputeEnvironmentCreate meta s
  = (inl (TimeoutError CEStatusCreating),
     mkSt w2 (SetId (Set_ (rd s) "compute_environment_name" (VString name)) name),
     [EvLog "[DEBUG] Create compute environment";
      EvCall (batch_CreateComputeEnvironment input) None;
      EvSetId name]
     ++ replicate (S (Timeout (rd s) TimeoutCreate)) (describe_ok name)).
Proof.
  intros name w0 input Hres Hcreate Hlingers.
  pose proof (poll_lingers meta name CEStatusCreating CEStatusValid
                (Timeout (rd s) TimeoutCreate) (Timeout (rd s) TimeoutCreate) w1
                (SetId (Set_ (rd s) "compute_environment_name" (VString name)) name)
                w2 ltac:(done) Hlingers) as Hpoll.
  rewrite (batch_create_run s Hres). cbv zeta. fold name w0 input. rewrite Hcreate.
  lazymatch goal with
  | |- context [match ?run with _ => _ end] =>
      cut (run = (inl (TimeoutError CEStatusCreating),
                  mkSt w2 (SetId (Set_ (rd s) "compute_environment_name" (VString name)) name),
                  replicate (S (Timeout (rd s) TimeoutCreate)) (describe_ok name)))
  end.
  { by intros ->. }
  match goal with |- ?run = _ => wp_start run end.
  wp_pure. unfold WaitForState. cbn [sc_Timeout]. wp_known Hpoll. repeat wp_pure.
  by rewrite app_nil_r.
Qed.

End BatchCreate.

Section BatchReadDelete.
Context {W : Type} (meta : AWSClient W).
Implicit Types s : St W.

(** A Read that finds no compute environment clears the Id, writes no
    attribute and returns success; a Read whose describe call fails returns an
    error that wraps the error of the call and leaves the resource data as it
    was. *)
Theorem batch_read_gone_or_failing s :
  let name := as_string (Get (rd s) "compute_environment_name") in
  (forall w',
     DescribeComputeEnvironments (batchconn meta) [name] (world s) = (inr [], w') ->
     resourceAwsBatchComputeEnvironmentRead meta s
     = (inr tt, mkSt w' (SetId (rd s) ""),
        [EvLog "[DEBUG] Read compute environment"; describe_ok name;
         EvLog "[WARN] Batch Compute Environment not found, removing from state";
         EvSetId ""])) /\
  (forall e w',
     DescribeComputeEnvironments (batchconn meta) [name] (world s) = (inl e, w') ->
     resourceAwsBatchComputeEnvironmentRead meta s
     = (inl (ErrorfW "error reading Batch Compute Environment: " e), mkSt w' (rd s),
        [EvLog "[DEBUG] Read compute environment";
         EvCall (batch_DescribeComputeEnvironments [name]) (Some e)])).
Proof.
  intros name. split.
  - intros w' Hdesc. wp_start (resourceAwsBatchComputeEnvironmentRead meta s).
    unfold resourceAwsBatchComputeEnvironmentRead.
    repeat wp_pure. fold name. wp_answer Hdesc. by repeat wp_pure.
  - intros e w' Hdesc. wp_start (resourceAwsBatchComputeEnvironmentRead meta s).
    unfold resourceAwsBatchComputeEnvironmentRead.
    repeat wp_pure. fold name. wp_answer Hdesc. by repeat wp_pure.
Qed.

(** Deleting a compute environment that is no longer there fails: the
    environment is disabled first, the poll that follows finds nothing, which
    the status refresh function reports as an error, and the
    DeleteComputeEnvironment call is never issued. *)
Theorem batch_delete_of_missing_fails s w1 w2 :
  let name := as_string (Get (rd s) "compute_environment_name") in
  let input := {| uce_ComputeEnvironment := name; uce_State := Some CEStateDisabled |} in
  UpdateComputeEnvironment (batchconn meta) input (world s) = (inr tt, w1) ->
  DescribeComputeEnvironments (batchconn meta) [name] w1 = (inr [], w2) ->
  resourceAwsBatchComputeEnvironmentDelete meta s
  = (inl (ErrorfS "error disabling Batch Compute Environment: "
            (Errorf "One compute environment is expected, but AWS return no compute environment")),
     mkSt w2 (rd s),
     [EvLog "[DEBUG] Disabling Batch Compute Environment";
      EvCall (batch_UpdateComputeEnvironment input) None;
      describe_ok name]).
Proof.
  intros name input Hupdate Hdesc.
  wp_start (resourceAwsBatchComputeEnvironmentDelete meta s).
  unfold resourceAwsBatchComputeEnvironmentDelete.
  repeat wp_pure. fold name. unfold disableBatchComputeEnvironment.
  repeat wp_pure. fold input. wp_answer Hupdate. repeat wp_pure.
  unfold WaitForState. cbn [sc_Timeout]. rewrite poll_unfold. cbn [Refresh].
  wp_pure.
  eapply wp_eq; [apply (status_refresh_empty meta name (mkSt w1 (rd s)) w2 Hdesc)|].
  by repeat wp_pure.
Qed.

End BatchReadDelete.

Lemma batch_create_succeeds_witness :
  let meta := scripted creating_then_valid in
  let s := configured [("compute_environment_name", VString "ce"); ("type", VString "UNMANAGED")] in
  exists d' m,
    resourceAwsBatchComputeEnvironmentCreate meta s
    = (inr tt, mkSt 6 d',
       [EvLog "[DEBUG] Create compute environment";
        EvCall (batch_CreateComputeEnvironment (createComputeEnvironmentInput meta (rd s) "ce")) None;
        EvSetId "ce"]
       ++ replicate (S m) (describe_ok "ce")
       ++ [EvLog "[DEBUG] Read compute environment"; describe_ok "ce"]) /\
    Id d' = "ce" /\
    Get d' "status" = VString CEStatusValid.
Proof.
  intros meta s.
  destruct (batch_create_succeeds meta s 1 [computeEnvironment CEStatusValid] 5
              (computeEnvironment CEStatusValid) [] 6)
    as (d' & m & Hrun & _ & Hid & _ & Hstatus).
  - intros H. vm_compute in H. discriminate.
  - reflexivity.
  - vm_compute. reflexivity.
  - reflexivity.
  - by exists d', m.
Defined.

Lemma batch_create_times_out_witness :
  let meta := scripted creating_forever in
  let s := configured [("compute_environment_name", VString "ce"); ("type", VString "UNMANAGED")] in
  (resourceAwsBatchComputeEnvironmentCreate meta s).1.1 = inl (TimeoutError CEStatusCreating) /\
  length (resourceAwsBatchComputeEnvironmentCreate meta s).2 = 7.
Proof.
  intros meta s.
  rewrite (batch_create_times_out meta s 1 5).
  - split; reflexivity.
  - intros H. vm_compute in H. discriminate.
  - reflexivity.
  - vm_compute. reflexivity.
Defined.

Lemma batch_read_gone_or_failing_witness :
  let s := existing "ce" [("compute_environment_name", VString "ce")] in
  Id (rd (resourceAwsBatchComputeEnvironmentRead (scripted nothing_found) s).1.2) = "" /\
  (resourceAwsBatchComputeEnvironmentRead (scripted describe_fails) s).1.1
  = inl (ErrorfW "error reading Batch Compute Environment: "
           (AWSErr "ServerException" "internal failure")).
Proof.
  intros s. split.
  - destruct (batch_read_gone_or_failing (scripted nothing_found) s) as [H _].
    by rewrite (H 1 eq_refl).
  - destruct (batch_read_gone_or_failing (scripted describe_fails) s) as [_ H].
    by rewrite (H (AWSErr "ServerException" "internal failure") 1 eq_refl).
Defined.

Lemma batch_delete_of_missing_fails_witness :
  let s := existing "ce" [("compute_environment_name", VString "ce")] in
  (resourceAwsBatchComputeEnvironmentDelete (scripted nothing_found) s).1.1
  = inl (ErrorfS "error disabling Batch Compute Environment: "
           (Errorf "One compute environment is expected, but AWS return no compute environment")) /\
  Forall (fun req => match req with batch_DeleteComputeEnvironment _ => False | _ => True end)
         (requests (resourceAwsBatchComputeEnvironmentDelete (scripted nothing_found) s).2).
Proof.
  intros s.
  rewrite (batch_delete_of_missing_fails (scripted nothing_found) s 1 2 eq_refl eq_refl).
  split; [reflexivity|]. cbn. repeat constructor.
Defined.

(** ** SSM document: permissions *)

Section Permissions.
Context {W : Type} (meta : AWSClient W).
Implicit Types s : St W.

Lemma modify_keeps_data name adds rems s :
  rd (modifyDocumentPermissions meta name adds rems s).1.2 = rd s.
Proof.
  unfold modifyDocumentPermissions. rewrite run_bind.
  set (mkAdd := fun batch => {| mdp_Name := name; mdp_PermissionType := "Share";
                                mdp_AccountIdsToAdd := Some batch;
                                mdp_AccountIdsToRemove := None |}).
  set (mkRem := fun batch => {| mdp_Name := name; mdp_PermissionType := "Share";
                                mdp_AccountIdsToAdd := None;
                                mdp_AccountIdsToRemove := Some batch |}).
  assert (forall ids s0,
            rd (for_each (accountIdBatches ids) (fun x =>
                  let input := mkAdd x in
                  r ← api (ssm_ModifyDocumentPermission input)
                          (ModifyDocumentPermission (ssmconn meta) input);
                  check id r) s0).1.2 = rd s0) as Hadd.
  { intros ids s0. pose proof (for_each_calls meta mkAdd (accountIdBatches ids) s0) as H.
    cbv zeta in H. destruct (for_each _ _ s0) as [[r s'] evs]. by destruct H. }
  assert (forall ids s0,
            rd (for_each (accountIdBatches ids) (fun x =>
                  let input := mkRem x in
                  r ← api (ssm_ModifyDocumentPermission input)
                          (ModifyDocumentPermission (ssmconn meta) input);
                  check id r) s0).1.2 = rd s0) as Hrem.
  { intros ids s0. pose proof (for_each_calls meta mkRem (accountIdBatches ids) s0) as H.
    cbv zeta in H. destruct (for_each _ _ s0) as [[r s'] evs]. by destruct H. }
  destruct adds as [adds|].
  - specialize (Hadd adds s). fold mkAdd. cbv zeta in Hadd.
    destruct (for_each (accountIdBatches adds) _ s) as [[[e|[]] s1] ev1]; [done|].
    rewrite run_bind. cbn in Hadd. rewrite <- Hadd.
    destruct rems as [rems|]; [|done].
    specialize (Hrem rems s1). fold mkRem. cbv zeta in Hrem.
    by destruct (for_each (accountIdBatches rems) _ s1) as [[[e|[]] s2] ev2].
  - cbn. rewrite run_bind.
    destruct rems as [rems|]; [|done].
    specialize (Hrem rems s). fold mkRem. cbv zeta in Hrem.
    by destruct (for_each (accountIdBatches rems) _ s) as [[[e|[]] s2] ev2].
Qed.

Lemma calls_issued_requests {A} (r : error + A) evs inputs :
  calls_issued r evs inputs ->
  Forall (fun req => is_modify req = true) (requests evs) /\
  (forall k, Forall (fun input => mdp_AccountIdsToAdd input = None) (take k inputs) ->
             Forall (fun input => mdp_AccountIdsToAdd input = None) inputs ->
             Forall (fun req => is_removal req = true) (requests evs)).
Proof.
  assert (forall l, requests (ok_call <$> l) = ssm_ModifyDocumentPermission <$> l) as Hok.
  { induction l as [|x l IH]; [done|]. cbn. by rewrite <- IH. }
  assert (forall l1 l2, requests (l1 ++ l2) = requests l1 ++ requests l2) as Happ.
  { intros l1 l2. unfold requests. apply omap_app. }
  destruct r as [e|a]; cbn.
  - intros (k & input & Hk & ->). rewrite Happ, Hok. cbn. split.
    + apply Forall_app. split; [|by apply Forall_singleton].
      apply Forall_fmap. by apply Forall_true.
    + intros _ _ Hall. apply Forall_app. split.
      * apply Forall_fmap. apply Forall_take. eapply Forall_impl; [exact Hall|].
        cbn. intros x ->. by rewrite bool_decide_true.
      * apply Forall_singleton. cbn. rewrite Forall_forall in Hall.
        rewrite (Hall input); [by rewrite bool_decide_true|].
        by eapply list_elem_of_lookup_2.
  - intros ->. rewrite Hok. split.
    + apply Forall_fmap. by apply Forall_true.
    + intros _ _ Hall. apply Forall_fmap. eapply Forall_impl; [exact Hall|].
      cbn. intros x ->. by rewrite bool_decide_true.
Qed.

Lemma removal_inputs name ids :
  Forall (fun input => mdp_AccountIdsToAdd input = None)
         (modifyDocumentPermissionInputs name None (Some ids)).
Proof.
  unfold modifyDocumentPermissionInputs. cbn [app]. apply Forall_fmap. by apply Forall_true.
Qed.

Lemma requests_ok_calls (l : list ModifyDocumentPermissionInput) :
  requests (ok_call <$> l) = ssm_ModifyDocumentPermission <$> l.
Proof. induction l as [|x l IH]; [done|]. cbn. by rewrite <- IH. Qed.

Lemma delete_permissions_run s :
  let permission := as_map (Get (rd s) "permissions") in
  let name := as_string (Get (rd s) "name") in
  let ids := permissionsAccountIds (interface_map permission) in
  deleteDocumentPermissions meta s
  = if bool_decide (is_Some (permission !! "account_ids")) then
      let '(r, s', evs) := modifyDocumentPermissions meta name None (Some ids) s in
      (match r with
       | inl e => inl (ErrorfS "error removing SSM document permissions: " e)
       | inr a => inr a
       end, s', EvLog "[INFO] Removing permissions from document" :: evs)
    else (inr tt, s, [EvLog "[INFO] Removing permissions from document"]).
Proof.
  intros permission name ids.
  assert (is_Some ((interface_map ∘ as_map) (Get (rd s) "permissions") !! "account_ids")
          <-> is_Some (permission !! "account_ids")) as Hiff.
  { unfold compose, interface_map. fold permission. rewrite lookup_fmap.
    apply fmap_is_Some. }
  wp_start (deleteDocumentPermissions meta s).
  unfold deleteDocumentPermissions. repeat wp_pure.
  case_bool_decide as Hsome.
  - rewrite bool_decide_true by (by apply Hiff).
    repeat wp_pure.
    change ((interface_map ∘ as_map) (Get (rd s) "permissions"))
      with (interface_map permission).
    fold ids name.
    destruct (modifyDocumentPermissions meta name None (Some ids) s) as [[r s'] evs] eqn:Hm.
    eapply wp_eq; [exact Hm|]. destruct r as [e|[]]; repeat wp_pure;
      by rewrite ?app_nil_r.
  - rewrite bool_decide_false by (intros Hx; by apply Hiff in Hx).
    repeat wp_pure. by destruct s.
Qed.

Lemma delete_permissions_trace s :
  rd (deleteDocumentPermissions meta s).1.2 = rd s /\
  Forall (fun req => is_removal req = true) (requests (deleteDocumentPermissions meta s).2).
Proof.
  rewrite delete_permissions_run. cbv zeta.
  case_bool_decide; [|by split; [|apply Forall_nil]].
  set (ids := permissionsAccountIds _). set (name := as_string _).
  pose proof (modify_calls meta name None (Some ids) s) as Hcalls.
  pose proof (modify_keeps_data name None (Some ids) s) as Hdata.
  destruct (modifyDocumentPermissions meta name None (Some ids) s) as [[r s'] evs].
  cbn [fst snd] in *. split; [done|].
  destruct (calls_issued_requests r evs _ Hcalls) as [_ Hrem].
  change (requests (EvLog "[INFO] Removing permissions from document" :: evs))
    with (requests evs).
  apply (Hrem 0); [by apply Forall_nil | apply removal_inputs].
Qed.

(** [deleteDocumentPermissions] issues no call when the permissions hold no
    "account_ids"; otherwise it leaves the resource data as it was and issues
    removals only, and a run that succeeds has issued one removal per batch
    and has taken every stored account off the accounts the document is
    shared with. *)
Theorem delete_permissions_removes_all s :
  let permission := as_map (Get (rd s) "permissions") in
  let run := deleteDocumentPermissions meta s in
  (permission !! "account_ids" = None ->
   run = (inr tt, s, [EvLog "[INFO] Removing permissions from document"])) /\
  (is_Some (permission !! "account_ids") ->
   rd run.1.2 = rd s /\
   Forall (fun req => is_removal req = true) (requests run.2) /\
   (run.1.1 = inr tt ->
    length (requests run.2)
      = batch_count (length (permissionsAccountIds (interface_map permission))) /\
    forall shared,
      applyEvents shared run.2
      = shared ∖ list_to_set (permissionsAccountIds (interface_map permission)))).
Proof.
  intros permission run. subst run. split.
  - intros Hnone. rewrite delete_permissions_run. cbv zeta. fold permission.
    by rewrite bool_decide_false by (rewrite Hnone; by intros [? ?]).
  - intros Hsome. destruct (delete_permissions_trace s) as [Hrd Htrace].
    split_and!; [done|done|].
    rewrite delete_permissions_run. cbv zeta. fold permission.
    rewrite bool_decide_true by done.
    set (ids := permissionsAccountIds (interface_map permission)).
    set (name := as_string (Get (rd s) "name")).
    pose proof (modify_calls meta name None (Some ids) s) as Hcalls.
    destruct (modifyDocumentPermissions meta name None (Some ids) s) as [[r s'] evs].
    cbn [fst snd] in *.
    destruct r as [e|[]]; [done|]. intros _. cbn in Hcalls. subst evs. split.
    + change (requests (EvLog "[INFO] Removing permissions from document" :: ?l))
        with (requests l).
      unfold modifyDocumentPermissionInputs. cbn [app].
      rewrite requests_ok_calls, !length_fmap. apply accountIdBatches_length.
    + intros shared. unfold modifyDocumentPermissionInputs. cbn [app].
      change (applyEvents shared (EvLog "[INFO] Removing permissions from document" :: ?l))
        with (applyEvents shared l).
      rewrite applyEvents_remove.
      by destruct (accountIdBatches_spec ids) as [-> _].
Qed.

End Permissions.

Lemma delete_permissions_removes_all_witness :
  let s := shared_document in
  length (requests (deleteDocumentPermissions (scripted all_ok) s).2) = 1 /\
  applyEvents {["111111111111"; "222222222222"; "333333333333"]}
              (deleteDocumentPermissions (scripted all_ok) s).2
  = {["111111111111"; "222222222222"; "333333333333"]}
      ∖ list_to_set ["111111111111"; "222222222222"].
Proof.
  intros s.
  destruct (delete_permissions_removes_all (scripted all_ok) s) as [_ H].
  destruct H as (_ & _ & H); [by eexists|].
  destruct H as [Hlen Hshared]; [reflexivity|].
  split; [exact Hlen | exact (Hshared _)].
Defined.

(** ** SSM document: Delete and Read *)

Section Document.
Context {W : Type} (meta : AWSClient W).
Implicit Types s : St W.

(** Delete stops at the first step that fails. When removing the permissions
    fails, Delete returns that error and has issued removals of accounts
    only: the document is not deleted. When the deletion is refused, Delete
    returns the error of the API as it is and does not wait. When the waiter
    fails with another error than an invalid document, Delete returns the
    wrapped error. The resource data is never written. *)
Theorem ssm_delete_stops_at_first_failure s :
  let name := as_string (Get (rd s) "name") in
  (forall e s1 ev1,
     deleteDocumentPermissions meta s = (inl e, s1, ev1) ->
     resourceAwsSsmDocumentDelete meta s = (inl e, s1, ev1) /\
     rd s1 = rd s /\
     Forall (fun req => is_removal req = true) (requests ev1)) /\
  (forall s1 ev1 e w2,
     deleteDocumentPermissions meta s = (inr tt, s1, ev1) ->
     DeleteDocument (ssmconn meta) name (world s1) = (inl e, w2) ->
     resourceAwsSsmDocumentDelete meta s
     = (inl e, mkSt w2 (rd s),
        ev1 ++ [EvLog "[INFO] Deleting SSM Document";
                EvCall (ssm_DeleteDocument name) (Some e)])) /\
  (forall s1 ev1 w2 e w3,
     deleteDocumentPermissions meta s = (inr tt, s1, ev1) ->
     DeleteDocument (ssmconn meta) name (world s1) = (inr tt, w2) ->
     DocumentDeleted (ssmconn meta) (Id (rd s)) w2 = (inl e, w3) ->
     isAWSErr e ErrCodeInvalidDocument = false ->
     resourceAwsSsmDocumentDelete meta s
     = (inl (ErrorfW "error waiting for SSM Document to be Deleted: " e), mkSt w3 (rd s),
        ev1 ++ [EvLog "[INFO] Deleting SSM Document";
                EvCall (ssm_DeleteDocument name) None;
                EvCall (ssm_waiter_DocumentDeleted (Id (rd s))) (Some e)])).
Proof.
  intros name. pose proof (delete_permissions_trace meta s) as [Hrd Htrace].
  split_and!.
  - intros e s1 ev1 Hperm. rewrite Hperm in Hrd, Htrace. split_and!; [|done|done].
    wp_start (resourceAwsSsmDocumentDelete meta s).
    unfold resourceAwsSsmDocumentDelete. repeat wp_pure. wp_known Hperm.
    by rewrite ?app_nil_r.
  - intros s1 ev1 e w2 Hperm Hdelete. rewrite Hperm in Hrd. cbn in Hrd.
    wp_start (resourceAwsSsmDocumentDelete meta s).
    unfold resourceAwsSsmDocumentDelete. repeat wp_pure. wp_known Hperm.
    repeat wp_pure. rewrite Hrd. fold name. wp_answer Hdelete.
    repeat wp_pure. by rewrite ?Hrd.
  - intros s1 ev1 w2 e w3 Hperm Hdelete Hwait Hcode. rewrite Hperm in Hrd. cbn in Hrd.
    wp_start (resourceAwsSsmDocumentDelete meta s).
    unfold resourceAwsSsmDocumentDelete. repeat wp_pure. wp_known Hperm.
    repeat wp_pure. rewrite Hrd. fold name. wp_answer Hdelete.
    repeat wp_pure. rewrite ?Hrd. wp_answer Hwait. rewrite Hcode.
    repeat wp_pure. by rewrite ?Hrd.
Qed.

End Document.

Lemma ssm_delete_stops_at_first_failure_witness :
  resourceAwsSsmDocumentDelete (scripted delete_document_fails) shared_document
  = (inl (AWSErr "AccessDeniedException" "not authorized"), mkSt 2 (rd shared_document),
     (deleteDocumentPermissions (scripted delete_document_fails) shared_document).2
     ++ [EvLog "[INFO] Deleting SSM Document";
         EvCall (ssm_DeleteDocument "doc")
                (Some (AWSErr "AccessDeniedException" "not authorized"))]).
Proof.
  destruct (ssm_delete_stops_at_first_failure (scripted delete_document_fails) shared_document)
    as (_ & H & _).
  eapply (H (mkSt 1 (rd shared_document))); reflexivity.
Defined.

Section Read.
Context {W : Type} (meta : AWSClient W).
Implicit Types s : St W.

(** Read when the document cannot be had. An invalid-document error of the
    describe call clears the Id and Read returns success; any other error of
    the describe call, an empty describe output, an error of the get call and
    an empty get output make Read fail, and the resource data is left as it
    was: nothing is written before the content has been fetched. *)
Theorem ssm_read_gone_or_failing s :
  let id_ := Id (rd s) in
  let reading := EvLog "[DEBUG] Reading SSM Document" in
  (forall e w',
     DescribeDocument (ssmconn meta) id_ (world s) = (inl e, w') ->
     resourceAwsSsmDocumentRead meta s
     = if isAWSErr e ErrCodeInvalidDocument
       then (inr tt, mkSt w' (SetId (rd s) ""),
             [reading; EvCall (ssm_DescribeDocument id_) (Some e);
              EvLog "[WARN] SSM Document not found so removing from state"; EvSetId ""])
       else (inl (ErrorfS "error describing SSM Document: " e), mkSt w' (rd s),
             [reading; EvCall (ssm_DescribeDocument id_) (Some e)])) /\
  (forall w',
     DescribeDocument (ssmconn meta) id_ (world s) = (inr None, w') ->
     resourceAwsSsmDocumentRead meta s
     = (inl (Errorf "error describing SSM Document: empty result"), mkSt w' (rd s),
        [reading; EvCall (ssm_DescribeDocument id_) None])) /\
  (forall doc w1 r w2,
     DescribeDocument (ssmconn meta) id_ (world s) = (inr (Some doc), w1) ->
     GetDocument (ssmconn meta) (doc_Name doc) (doc_DocumentFormat doc) "$LATEST" w1 = (r, w2) ->
     match r with
     | inl e =>
         resourceAwsSsmDocumentRead meta s
         = (inl (ErrorfS "error getting SSM Document: " e), mkSt w2 (rd s),
            [reading; EvCall (ssm_DescribeDocument id_) None;
             EvCall (ssm_GetDocument (doc_Name doc) (doc_DocumentFormat doc) "$LATEST") (Some e)])
     | inr None =>
         resourceAwsSsmDocumentRead meta s
         = (inl (Errorf "error getting SSM Document: empty result"), mkSt w2 (rd s),
            [reading; EvCall (ssm_DescribeDocument id_) None;
             EvCall (ssm_GetDocument (doc_Name doc) (doc_DocumentFormat doc) "$LATEST") None])
     | inr (Some _) => True
     end).
Proof.
  intros id_ reading. split_and!.
  - intros e w' Hdescribe.
    wp_start (resourceAwsSsmDocumentRead meta s).
    unfold resourceAwsSsmDocumentRead. repeat wp_pure. wp_answer Hdescribe.
    destruct (isAWSErr e ErrCodeInvalidDocument); repeat wp_pure; done.
  - intros w' Hdescribe.
    wp_start (resourceAwsSsmDocumentRead meta s).
    unfold resourceAwsSsmDocumentRead. repeat wp_pure. wp_answer Hdescribe.
    repeat wp_pure. done.
  - intros doc w1 r w2 Hdescribe Hget.
    destruct r as [e|[content|]]; [| done |].
    + wp_start (resourceAwsSsmDocumentRead meta s).
      unfold resourceAwsSsmDocumentRead. repeat wp_pure. wp_answer Hdescribe.
      repeat wp_pure. wp_answer Hget. repeat wp_pure. done.
    + wp_start (resourceAwsSsmDocumentRead meta s).
      unfold resourceAwsSsmDocumentRead. repeat wp_pure. wp_answer Hdescribe.
      repeat wp_pure. wp_answer Hget. repeat wp_pure. done.
Qed.

End Read.

Lemma ssm_read_gone_or_failing_witness :
  resourceAwsSsmDocumentRead (scripted document_missing) shared_document
  = (inr tt, mkSt 1 (SetId (rd shared_document) ""),
     [EvLog "[DEBUG] Reading SSM Document";
      EvCall (ssm_DescribeDocument "doc")
             (Some (AWSErr ErrCodeInvalidDocument "Document does not exist"));
      EvLog "[WARN] SSM Document not found so removing from state"; EvSetId ""]).
Proof.
  destruct (ssm_read_gone_or_failing (scripted document_missing) shared_document) as (H & _).
  exact (H _ 1 eq_refl).
Defined.

Section Hydrate.
Context {W : Type} (meta : AWSClient W).
Implicit Types s : St W.

(** A Read that finds the document, its content and its permissions returns
    success after exactly these three calls; the Id is kept; the state holds
    the name the API reports, the content, the ARN built from the partition,
    region and account of the client and that name, and the permissions map
    of [getDocumentPermissions], asked for under the name the API reports.
    When the API reports at least one account and every account id is
    non-empty and free of commas, the account ids that the handlers decode
    from the state are the reported ones. *)
Theorem ssm_read_hydrates s doc w1 content w2 account_ids w3 :
  let id_ := Id (rd s) in
  DescribeDocument (ssmconn meta) id_ (world s) = (inr (Some doc), w1) ->
  GetDocument (ssmconn meta) (doc_Name doc) (doc_DocumentFormat doc) "$LATEST" w1
    = (inr (Some content), w2) ->
  DescribeDocumentPermission (ssmconn meta) (doc_Name doc) "Share" w2 = (inr account_ids, w3) ->
  exists d',
    resourceAwsSsmDocumentRead meta s
    = (inr tt, mkSt w3 d',
       [EvLog "[DEBUG] Reading SSM Document";
        EvCall (ssm_DescribeDocument id_) None;
        EvCall (ssm_GetDocument (doc_Name doc) (doc_DocumentFormat doc) "$LATEST") None;
        EvLog "[INFO] Getting permissions for document";
        EvCall (ssm_DescribeDocumentPermission (doc_Name doc) "Share") None]) /\
    Id d' = id_ /\
    Get d' "name" = VString (doc_Name doc) /\
    Get d' "content" = VString content /\
    Get d' "arn" = VString ("arn:" +:+ partition meta +:+ ":ssm:" +:+ region meta +:+ ":"
                            +:+ accountid meta +:+ ":document/" +:+ doc_Name doc) /\
    Get d' "permissions"
      = match documentPermissionsMap account_ids with Some m => VMap m | None => VNil end /\
    (account_ids ≠ [] ->
     Forall (fun id => id ≠ "" /\ has_comma id = false) account_ids ->
     permissionsAccountIds (interface_map (as_map (Get d' "permissions"))) = account_ids).
Proof.
  intros id_ Hdescribe Hget Hperm.
  eexists.
  match goal with |- ?run = _ /\ _ => wp_start run end.
  unfold resourceAwsSsmDocumentRead. repeat wp_pure. wp_answer Hdescribe.
  repeat wp_pure. wp_answer Hget. repeat wp_pure.
  unfold getDocumentPermissions. repeat wp_pure.
  lazymatch goal with
  | |- context [as_string (Get ?d "name")] =>
      replace (as_string (Get d "name")) with (doc_Name doc) by (by get_simpl)
  end.
  wp_answer Hperm. repeat wp_pure.
  split; [reflexivity|]. cbn [rd]. get_simpl.
  split_and!; try reflexivity.
  intros Hne Hids.
  assert (Join account_ids ≠ "") as Hjoin.
  { apply Join_nonempty; [done|]. eapply Forall_impl; [exact Hids|]. by intros ? [? ?]. }
  unfold documentPermissionsMap. rewrite joinAccountIds_Join.
  rewrite bool_decide_false by done. cbn [as_map].
  unfold permissionsAccountIds, interface_map.
  rewrite lookup_fmap, lookup_insert_eq. cbn [fmap option_fmap option_map as_string].
  rewrite bool_decide_true by done.
  apply Split_Join; [done|]. eapply Forall_impl; [exact Hids|]. by intros ? [? ?].
Qed.

(** When the permissions cannot be read, Read fails with the error wrapped
    twice, after the other attributes have been written. *)
Theorem ssm_read_permissions_error s doc w1 content w2 e w3 :
  let id_ := Id (rd s) in
  DescribeDocument (ssmconn meta) id_ (world s) = (inr (Some doc), w1) ->
  GetDocument (ssmconn meta) (doc_Name doc) (doc_DocumentFormat doc) "$LATEST" w1
    = (inr (Some content), w2) ->
  DescribeDocumentPermission (ssmconn meta) (doc_Name doc) "Share" w2 = (inl e, w3) ->
  exists d',
    resourceAwsSsmDocumentRead meta s
    = (inl (ErrorfS "Error reading SSM document permissions: "
              (ErrorfS "Error setting permissions for SSM document: " e)),
       mkSt w3 d',
       [EvLog "[DEBUG] Reading SSM Document";
        EvCall (ssm_DescribeDocument id_) None;
        EvCall (ssm_GetDocument (doc_Name doc) (doc_DocumentFormat doc) "$LATEST") None;
        EvLog "[INFO] Getting permissions for document";
        EvCall (ssm_DescribeDocumentPermission (doc_Name doc) "Share") (Some e)]) /\
    Get d' "content" = VString content /\
    Get d' "status" = VString (doc_Status doc) /\
    Get d' "permissions" = Get (rd s) "permissions" /\
    Get d' "tags" = Get (rd s) "tags".
Proof.
  intros id_ Hdescribe Hget Hperm.
  eexists.
  match goal with |- ?run = _ /\ _ => wp_start run end.
  unfold resourceAwsSsmDocumentRead. repeat wp_pure. wp_answer Hdescribe.
  repeat wp_pure. wp_answer Hget. repeat wp_pure.
  unfold getDocumentPermissions. repeat wp_pure.
  lazymatch goal with
  | |- context [as_string (Get ?d "name")] =>
      replace (as_string (Get d "name")) with (doc_Name doc) by (by get_simpl)
  end.
  wp_answer Hperm. repeat wp_pure.
  split; [reflexivity|]. cbn [rd]. get_simpl. done.
Qed.

End Hydrate.

Lemma ssm_read_hydrates_witness :
  exists d',
    (resourceAwsSsmDocumentRead (scripted shared_with_two) shared_document).1
    = (inr tt, mkSt 3 d') /\
    permissionsAccountIds (interface_map (as_map (Get d' "permissions")))
    = ["111111111111"; "222222222222"].
Proof.
  destruct (ssm_read_hydrates (scripted shared_with_two) shared_document
              (document "doc") 1 "{}" 2 ["111111111111"; "222222222222"] 3
              eq_refl eq_refl eq_refl) as (d' & Hrun & _ & _ & _ & _ & _ & Hids).
  exists d'. split.
  - by rewrite Hrun.
  - apply Hids; [done|]. repeat constructor; done.
Defined.

Lemma ssm_read_permissions_error_witness :
  (resourceAwsSsmDocumentRead (scripted describe_permission_fails) shared_document).1.1
  = inl (ErrorfS "Error reading SSM document permissions: "
           (ErrorfS "Error setting permissions for SSM document: "
              (AWSErr "AccessDeniedException" "not authorized"))).
Proof.
  destruct (ssm_read_permissions_error (scripted describe_permission_fails) shared_document
              (document "doc") 1 "{}" 2 (AWSErr "AccessDeniedException" "not authorized") 3
              eq_refl eq_refl eq_refl) as (d' & Hrun & _).
  by rewrite Hrun.
Defined.

(** ** SSM document: setting the permissions *)

Section SetPermissions.
Context {W : Type} (meta : AWSClient W).
Implicit Types s : St W.

Lemma set_permissions_run s :
  let o := (GetChange (rd s) "permissions").1 in
  let n := (GetChange (rd s) "permissions").2 in
  let O := permissionsAccountIds (interface_map (as_map o)) in
  let N := permissionsAccountIds (interface_map (as_map n)) in
  let name := as_string (Get (rd s) "name") in
  setDocumentPermissions meta s
  = if HasChange (rd s) "permissions" then
      let '(r, s', evs) :=
        modifyDocumentPermissions meta name
          (Some (accountIdsToAdd O N)) (Some (accountIdsToRemove O N)) s in
      (match r with
       | inl e => inl (ErrorfS "error modifying SSM document permissions: " e)
       | inr a => inr a
       end, s', EvLog "[INFO] Setting permissions for document" :: evs)
    else (inr tt, s, [EvLog "[INFO] Setting permissions for document"]).
Proof.
  intros o n O N name.
  wp_start (setDocumentPermissions meta s).
  unfold setDocumentPermissions. repeat wp_pure.
  destruct (HasChange (rd s) "permissions").
  - repeat wp_pure. subst O N o n name.
    destruct (GetChange (rd s) "permissions") as [o n]. cbn [fst snd].
    repeat wp_pure.
    destruct (modifyDocumentPermissions meta _ _ _ s) as [[r s'] evs] eqn:Hm.
    eapply wp_eq; [exact Hm|]. destruct r as [e|[]]; repeat wp_pure;
      by rewrite ?app_nil_r.
  - repeat wp_pure. by destruct s.
Qed.

(** [setDocumentPermissions] issues no call when the permissions have not
    changed. When they have, it never writes the resource data; every call it
    issues changes the sharing of the document named by the "name" attribute;
    a run that succeeds has issued the additions of the accounts that are new
    and not old, batch by batch, and then the removals of the accounts that
    are old and not new, at least one call of each kind; a run that fails
    returns the error of the failing call, wrapped. *)
Theorem set_permissions_calls s :
  let o := (GetChange (rd s) "permissions").1 in
  let n := (GetChange (rd s) "permissions").2 in
  let O := permissionsAccountIds (interface_map (as_map o)) in
  let N := permissionsAccountIds (interface_map (as_map n)) in
  let name := as_string (Get (rd s) "name") in
  let run := setDocumentPermissions meta s in
  (o = n -> run = (inr tt, s, [EvLog "[INFO] Setting permissions for document"])) /\
  (o ≠ n ->
   rd run.1.2 = rd s /\
   Forall (fun req => modified_document req = Some name) (requests run.2) /\
   (run.1.1 = inr tt ->
    requests run.2
    = ssm_ModifyDocumentPermission <$>
        modifyDocumentPermissionInputs name
          (Some (accountIdsToAdd O N)) (Some (accountIdsToRemove O N)) /\
    length (requests run.2)
    = batch_count (length (accountIdsToAdd O N))
      + batch_count (length (accountIdsToRemove O N)) /\
    2 <= length (requests run.2)) /\
   (forall e, run.1.1 = inl e ->
      exists k input cause,
        modifyDocumentPermissionInputs name
          (Some (accountIdsToAdd O N)) (Some (accountIdsToRemove O N)) !! k = Some input /\
        e = ErrorfS "error modifying SSM document permissions: " cause /\
        last run.2 = Some (EvCall (ssm_ModifyDocumentPermission input) (Some cause)) /\
        length (requests run.2) = S k)).
Proof.
  intros o n O N name run. subst run.
  rewrite set_permissions_run. cbv zeta. fold o n O N name.
  assert (HasChange (rd s) "permissions" = bool_decide (o ≠ n)) as ->.
  { unfold HasChange. subst o n. by destruct (GetChange (rd s) "permissions"). }
  split.
  - intros Heq. by rewrite bool_decide_false by (by intros ?).
  - intros Hne. rewrite bool_decide_true by done.
    set (adds := accountIdsToAdd O N). set (rems := accountIdsToRemove O N).
    pose proof (modify_calls meta name (Some adds) (Some rems) s) as Hcalls.
    pose proof (modify_keeps_data meta name (Some adds) (Some rems) s) as Hdata.
    destruct (modifyDocumentPermissions meta name (Some adds) (Some rems) s) as [[r s'] evs].
    cbn [fst snd] in *.
    change (requests (EvLog "[INFO] Setting permissions for document" :: evs))
      with (requests evs).
    assert (Forall (fun input => mdp_Name input = name)
                   (modifyDocumentPermissionInputs name (Some adds) (Some rems))) as Hnames.
    { unfold modifyDocumentPermissionInputs. apply Forall_app.
      split; apply Forall_fmap; by apply Forall_true. }
    assert (length (modifyDocumentPermissionInputs name (Some adds) (Some rems))
            = batch_count (length adds) + batch_count (length rems)) as Hlen.
    { unfold modifyDocumentPermissionInputs.
      by rewrite length_app, !length_fmap, !accountIdBatches_length. }
    split_and!; [done| | |].
    + destruct r as [e|[]]; unfold calls_issued in Hcalls.
      * destruct Hcalls as (k & input & Hk & ->).
        unfold requests. rewrite omap_app. fold (requests (ok_call <$> take k
          (modifyDocumentPermissionInputs name (Some adds) (Some rems)))).
        rewrite requests_ok_calls. apply Forall_app. split.
        -- apply Forall_fmap, Forall_take. eapply Forall_impl; [exact Hnames|].
           cbn. by intros ? ->.
        -- apply Forall_singleton. cbn. f_equal.
           rewrite Forall_forall in Hnames. apply Hnames.
           by eapply list_elem_of_lookup_2.
      * subst evs. rewrite requests_ok_calls. apply Forall_fmap.
        eapply Forall_impl; [exact Hnames|]. cbn. by intros ? ->.
    + destruct r as [e|[]]; [done|]. intros _. unfold calls_issued in Hcalls. subst evs.
      rewrite requests_ok_calls, length_fmap, Hlen. split_and!; [done|done|].
      unfold batch_count. lia.
    + intros e0. destruct r as [e|[]]; [|done]. intros [= <-]. unfold calls_issued in Hcalls.
      destruct Hcalls as (k & input & Hk & ->).
      exists k, input, e. split_and!; [done|done| |].
      * change (EvLog ?x :: ?l ++ ?l') with ((EvLog x :: l) ++ l').
        by rewrite last_app.
      * unfold requests. rewrite omap_app. fold (requests (ok_call <$> take k
          (modifyDocumentPermissionInputs name (Some adds) (Some rems)))).
        rewrite requests_ok_calls, length_app, length_fmap, length_take.
        cbn [omap list_omap length].
        apply lookup_lt_Some in Hk. lia.
Qed.

End SetPermissions.

Lemma set_permissions_calls_witness :
  requests (setDocumentPermissions (scripted all_ok) reshared_document).2
  = ssm_ModifyDocumentPermission <$>
      modifyDocumentPermissionInputs "doc" (Some ["333333333333"]) (Some ["111111111111"]).
Proof.
  destruct (set_permissions_calls (scripted all_ok) reshared_document) as [_ H].
  destruct H as (_ & _ & H & _); [by vm_compute|].
  destruct H as (H & _); [reflexivity|].
  exact H.
Defined.

(** ** Load balancer: network interfaces *)

Section Interfaces.
Context {W : Type} (meta : AWSClient W).
Implicit Types s : St W.

(** [cleanupLBNetworkInterfaces] step by step. An Id that is no load
    balancer ARN makes it fail before any call. A describe call that fails or
    finds nothing ends it. When network interfaces are found they are
    detached, and deleted only if detaching them succeeded; the interfaces
    detached and deleted are the ones found, and the error of the step that
    failed is returned as it is. The resource data is never written. *)
Theorem cleanup_network_interfaces_steps (lbArn : string) s :
  (forall e, getLbNameFromArn lbArn = inl e ->
     cleanupLBNetworkInterfaces meta lbArn s = (inl e, s, [])) /\
  (forall name r w1,
     getLbNameFromArn lbArn = inr name ->
     DescribeNetworkInterfaces (ec2conn meta) (cleanupFilters name) (world s) = (r, w1) ->
     let describe := EvCall (ec2_DescribeNetworkInterfaces (cleanupFilters name)) in
     let found := EvLog "[DEBUG] Found ENIs to cleanup for LB" in
     match r with
     | inl e =>
         cleanupLBNetworkInterfaces meta lbArn s
         = (inl e, mkSt w1 (rd s), [describe (Some e)])
     | inr [] =>
         cleanupLBNetworkInterfaces meta lbArn s
         = (inr tt, mkSt w1 (rd s), [describe None; found])
     | inr out =>
         forall r2 w2,
           detachNetworkInterfaces (ec2conn meta) out w1 = (r2, w2) ->
           match r2 with
           | inl e =>
               cleanupLBNetworkInterfaces meta lbArn s
               = (inl e, mkSt w2 (rd s),
                  [describe None; found; EvCall (ec2_detachNetworkInterfaces out) (Some e)])
           | inr _ =>
               forall r3 w3,
                 deleteNetworkInterfaces (ec2conn meta) out w2 = (r3, w3) ->
                 cleanupLBNetworkInterfaces meta lbArn s
                 = (r3, mkSt w3 (rd s),
                    [describe None; found; EvCall (ec2_detachNetworkInterfaces out) None;
                     EvCall (ec2_deleteNetworkInterfaces out) (err_of r3)])
           end
     end).
Proof.
  split.
  - intros e Hname. wp_start (cleanupLBNetworkInterfaces meta lbArn s).
    unfold cleanupLBNetworkInterfaces. rewrite Hname. repeat wp_pure. by destruct s.
  - intros name r w1 Hname Hdescribe describe found.
    destruct r as [e|[|ni out]].
    + wp_start (cleanupLBNetworkInterfaces meta lbArn s).
      unfold cleanupLBNetworkInterfaces. rewrite Hname. repeat wp_pure.
      fold (cleanupFilters name). wp_answer Hdescribe. by repeat wp_pure.
    + wp_start (cleanupLBNetworkInterfaces meta lbArn s).
      unfold cleanupLBNetworkInterfaces. rewrite Hname. repeat wp_pure.
      fold (cleanupFilters name). wp_answer Hdescribe. by repeat wp_pure.
    + intros [e|[]] w2 Hdetach.
      * wp_start (cleanupLBNetworkInterfaces meta lbArn s).
        unfold cleanupLBNetworkInterfaces. rewrite Hname. repeat wp_pure.
        fold (cleanupFilters name). wp_answer Hdescribe. repeat wp_pure.
        cbn [length bool_decide]. rewrite bool_decide_false by done.
        repeat wp_pure. wp_answer Hdetach. by repeat wp_pure.
      * intros r3 w3 Hdelete.
        wp_start (cleanupLBNetworkInterfaces meta lbArn s).
        unfold cleanupLBNetworkInterfaces. rewrite Hname. repeat wp_pure.
        fold (cleanupFilters name). wp_answer Hdescribe. repeat wp_pure.
        cbn [length bool_decide]. rewrite bool_decide_false by done.
        repeat wp_pure. wp_answer Hdetach. repeat wp_pure. wp_answer Hdelete.
        destruct r3 as [e|[]]; by repeat wp_pure.
Qed.

End Interfaces.

(** ** Load balancer: waiting for the network interfaces to detach *)

Section Wait.
Context {W : Type} (meta : AWSClient W).
Implicit Types s : St W.

Lemma Retry_unfold n (f : M W (option RetryError)) :
  Retry n f
  = (r ← f;
     match r with
     | None => mret None
     | Some (NonRetryableError e) => mret (Some e)
     | Some (RetryableError e) =>
         match n with
         | 0 => mret (Some e)
         | S n' => Retry n' f
         end
     end).
Proof. by destruct n. Qed.

Lemma attempt_run input w d :
  describeUntilDetached meta input (mkSt w d)
  = match DescribeNetworkInterfaces (ec2conn meta) input w with
    | (inl e, w') =>
        (inr (Some (NonRetryableError e)), mkSt w' d,
         [EvCall (ec2_DescribeNetworkInterfaces input) (Some e)])
    | (inr [], w') => (inr None, mkSt w' d, found_none input)
    | (inr (_ :: _), w') =>
        (inr (Some (RetryableError (Errorf "waiting for ENIs to clean up"))), mkSt w' d,
         found_interfaces input)
    end.
Proof.
  wp_start (describeUntilDetached meta input (mkSt w d)).
  unfold describeUntilDetached. repeat wp_pure.
  destruct (DescribeNetworkInterfaces (ec2conn meta) input w) as [[e|[|ni out]] w'] eqn:Hd;
    wp_answer Hd; by repeat wp_pure.
Qed.

Lemma retry_gone input k : forall n w d found w',
  k <= n ->
  interfaces_gone meta input k w = Some (found, w') ->
  Retry n (describeUntilDetached meta input) (mkSt w d)
  = (inr None, mkSt w' d,
     concat (replicate found (found_interfaces input)) ++ found_none input).
Proof.
  induction k as [|k IH]; intros n w d found w' Hk Hgone.
  - cbn in Hgone. rewrite Retry_unfold, run_bind, attempt_run.
    destruct (DescribeNetworkInterfaces (ec2conn meta) input w) as [[e|[|ni out]] w1];
      try done.
    by simplify_eq.
  - cbn in Hgone. rewrite Retry_unfold, run_bind, attempt_run.
    destruct (DescribeNetworkInterfaces (ec2conn meta) input w) as [[e|[|ni out]] w1];
      try done.
    + by simplify_eq.
    + destruct (interfaces_gone meta input k w1) as [[found' w'']|] eqn:Hrec; [|done].
      cbn in Hgone. simplify_eq. destruct n as [|n]; [lia|].
      rewrite (IH n w1 d found' w') by (done || lia). done.
Qed.

Lemma retry_linger input n : forall w d w',
  interfaces_linger meta input n w = Some w' ->
  Retry n (describeUntilDetached meta input) (mkSt w d)
  = (inr (Some (Errorf "waiting for ENIs to clean up")), mkSt w' d,
     concat (replicate (S n) (found_interfaces input))).
Proof.
  induction n as [|n IH]; intros w d w' Hlinger.
  - cbn in Hlinger. rewrite Retry_unfold, run_bind, attempt_run.
    destruct (DescribeNetworkInterfaces (ec2conn meta) input w) as [[e|[|ni out]] w1];
      try done.
    by simplify_eq.
  - cbn in Hlinger. rewrite Retry_unfold, run_bind, attempt_run.
    destruct (DescribeNetworkInterfaces (ec2conn meta) input w) as [[e|[|ni out]] w1];
      try done.
    rewrite (IH w1 d w') by done. done.
Qed.

Lemma requests_app evs1 evs2 : requests (evs1 ++ evs2) = requests evs1 ++ requests evs2.
Proof. unfold requests. apply omap_app. Qed.

Lemma retry_describes_only input n : forall w d,
  rd (Retry n (describeUntilDetached meta input) (mkSt w d)).1.2 = d /\
  Forall (fun req => req = ec2_DescribeNetworkInterfaces input)
         (requests (Retry n (describeUntilDetached meta input) (mkSt w d)).2).
Proof.
  induction n as [|n IH]; intros w d.
  - rewrite Retry_unfold, run_bind, attempt_run.
    destruct (DescribeNetworkInterfaces (ec2conn meta) input w) as [[e|[|ni out]] w1];
      cbn; (split; [done | repeat constructor]).
  - rewrite Retry_unfold, run_bind, attempt_run.
    destruct (DescribeNetworkInterfaces (ec2conn meta) input w) as [[e|[|ni out]] w1];
      cbn; try (split; [done | repeat constructor]).
    destruct (IH w1 d) as [Hrd Hreq].
    destruct (Retry n (describeUntilDetached meta input) (mkSt w1 d)) as [[r s'] evs].
    cbn in *. split; [done|]. by constructor.
Qed.

(** [waitForNLBNetworkInterfacesToDetach] only looks: an Id that is no load
    balancer ARN makes it fail before any call; otherwise every call it issues
    is a describe call under its three filters, and the resource data is never
    written. When the describe calls find network interfaces no more often
    than the timeout has intervals and then none, it returns success after the
    call that found none. When they keep finding network interfaces it gives
    up after one call more than the timeout has intervals, and returns the
    error of the last attempt under the text for a failed describe call. *)
Theorem wait_for_interfaces_to_detach (lbArn : string) s :
  let timeout := LoadBalancerNetworkInterfaceDetachTimeout meta in
  let run := waitForNLBNetworkInterfacesToDetach meta lbArn s in
  (forall e, getLbNameFromArn lbArn = inl e -> run = (inl e, s, [])) /\
  (forall name,
     getLbNameFromArn lbArn = inr name ->
     let input := detachFilters name in
     (forall found w',
        interfaces_gone meta input timeout (world s) = Some (found, w') ->
        run = (inr tt, mkSt w' (rd s),
               concat (replicate found (found_interfaces input)) ++ found_none input)) /\
     (forall w',
        interfaces_linger meta input timeout (world s) = Some w' ->
        run = (inl (ErrorfW "error describing network inferfaces: "
                      (Errorf "waiting for ENIs to clean up")),
               mkSt w' (rd s),
               concat (replicate (S timeout) (found_interfaces input)))) /\
     rd run.1.2 = rd s /\
     Forall (fun req => req = ec2_DescribeNetworkInterfaces input) (requests run.2)).
Proof.
  intros timeout run. subst run. split.
  - intros e Hname. wp_start (waitForNLBNetworkInterfacesToDetach meta lbArn s).
    unfold waitForNLBNetworkInterfacesToDetach. rewrite Hname. repeat wp_pure.
    by destruct s.
  - intros name Hname input.
    assert (waitForNLBNetworkInterfacesToDetach meta lbArn s
            = (err ← Retry timeout (describeUntilDetached meta input);
               err ←
                 (if TimedOut err then
                    r ← api (ec2_DescribeNetworkInterfaces input)
                            (DescribeNetworkInterfaces (ec2conn meta) input);
                    out ← check (ErrorfW "error describing network inferfaces: ") r;
                    let niCount := length out in
                    if bool_decide (0 < niCount)
                    then fail (Errorf "error waiting for ENIs to clean up")
                    else mret None
                  else mret err);
               match err with
               | Some err => fail (ErrorfW "error describing network inferfaces: " err)
               | None => mret tt
               end) s) as Hrun.
    { unfold waitForNLBNetworkInterfacesToDetach. rewrite run_bind. rewrite Hname.
      cbn [check id mret M_ret].
      unfold describeUntilDetached, input, detachFilters, timeout.
      lazymatch goal with
      | |- context [match ?a with _ => _ end] => by destruct a as [[? ?] ?]
      end. }
    rewrite Hrun. clear Hrun. destruct s as [w d]. cbn [rd world].
    split; [|split].
    + intros found w' Hgone. rewrite run_bind.
      rewrite (retry_gone input timeout timeout w d found w') by done.
      cbn [TimedOut]. rewrite run_bind. cbn [mret M_ret]. by rewrite ?app_nil_r.
    + intros w' Hlinger. rewrite run_bind.
      rewrite (retry_linger input timeout w d w') by done.
      cbn [TimedOut]. rewrite run_bind. cbn [mret M_ret fail]. by rewrite ?app_nil_r.
    + destruct (retry_describes_only input timeout w d) as [Hrd Hreq].
      destruct (Retry timeout (describeUntilDetached meta input) (mkSt w d))
        as [[r [w1 d1]] ev1] eqn:Hretry. cbn [fst snd rd] in Hrd, Hreq. subst d1.
      match goal with
      | |- rd (?run).1.2 = _ /\ _ =>
          change ((fun x => rd x.1.2 = d /\
                    Forall (fun req => req = ec2_DescribeNetworkInterfaces input)
                           (requests x.2)) run);
          apply (wp_intro _ (mkSt w d))
      end.
      apply wp_bind. wp_known Hretry.
      destruct r as [e|err]; cbn [fst snd rd]; [done|].
      assert (forall ev, Forall (fun req => req = ec2_DescribeNetworkInterfaces input)
                                (requests ev) ->
                         Forall (fun req => req = ec2_DescribeNetworkInterfaces input)
                                (requests (ev1 ++ ev))) as Happ.
      { intros ev Hev. rewrite requests_app. by apply Forall_app. }
      apply wp_bind. destruct (TimedOut err).
      * apply wp_bind. wp_call; repeat wp_pure; cbn [fst snd rd].
        -- split; [done|]. apply Happ. by repeat constructor.
        -- case_bool_decide; repeat wp_pure; cbn [fst snd rd];
             (split; [done|]); apply Happ; by repeat constructor.
      * repeat wp_pure. destruct err; repeat wp_pure; cbn [fst snd rd];
          (split; [done|]); apply Happ; by repeat constructor.
Qed.

End Wait.

Lemma cleanup_network_interfaces_steps_witness :
  let eni := {| NetworkInterfaceId := "eni-1"; AttachmentId := "eni-attach-1" |} in
  cleanupLBNetworkInterfaces (scripted detach_fails) lbArn (existing lbArn [])
  = (inl (AWSErr "OperationNotPermitted" "not allowed"), mkSt 2 (rd (existing lbArn [])),
     [EvCall (ec2_DescribeNetworkInterfaces (cleanupFilters "app/lb/50dc6c495c0c9188")) None;
      EvLog "[DEBUG] Found ENIs to cleanup for LB";
      EvCall (ec2_detachNetworkInterfaces [eni])
             (Some (AWSErr "OperationNotPermitted" "not allowed"))]).
Proof.
  intros eni.
  destruct (cleanup_network_interfaces_steps (scripted detach_fails) lbArn (existing lbArn []))
    as [_ H].
  exact (H "app/lb/50dc6c495c0c9188" (inr [eni]) 1 eq_refl eq_refl
           (inl (AWSErr "OperationNotPermitted" "not allowed")) 2 eq_refl).
Defined.

Lemma wait_for_interfaces_to_detach_witness :
  (waitForNLBNetworkInterfacesToDetach (scripted interfaces_detach_late) lbArn
     (existing lbArn [])).1
  = (inr tt, mkSt 3 (rd (existing lbArn []))) /\
  (waitForNLBNetworkInterfacesToDetach (scripted interfaces_stay) lbArn
     (existing lbArn [])).1
  = (inl (ErrorfW "error describing network inferfaces: "
            (Errorf "waiting for ENIs to clean up")),
     mkSt 4 (rd (existing lbArn []))).
Proof.
  split.
  - destruct (wait_for_interfaces_to_detach (scripted interfaces_detach_late) lbArn
                (existing lbArn [])) as [_ H].
    destruct (H "app/lb/50dc6c495c0c9188" eq_refl) as (Hgone & _).
    by rewrite (Hgone 2 3 eq_refl).
  - destruct (wait_for_interfaces_to_detach (scripted interfaces_stay) lbArn
                (existing lbArn [])) as [_ H].
    destruct (H "app/lb/50dc6c495c0c9188" eq_refl) as (_ & Hlinger & _).
    by rewrite (Hlinger 4 eq_refl).
Defined.

(** ** Load balancer: Delete and Create *)

Section LbHandlers.
Context {W : Type} (meta : AWSClient W).
Implicit Types s : St W.




(** Create after its request has been answered with exactly one load
    balancer: the Id is the ARN of the response; a waiter that fails ends the
    handler with the Id set and without running Update; after a waiter that
    succeeds the outcome of Create is the outcome of Update, run on the state
    that holds the Id and the chosen name. *)
Theorem lb_create_waits_before_update (update : M W unit) s lb w1 r w2 :
  let name := (lbName meta (rd s) (world s)).1 in
  let w0 := (lbName meta (rd s) (world s)).2 in
  let input := createLoadBalancerInput meta (rd s) name in
  let arn := LoadBalancerArn lb in
  let d1 := SetId (Set_ (rd s) "name" (VString name)) arn in
  let created :=
    [EvLog "[DEBUG] ALB create configuration"; EvCall (elbv2_CreateLoadBalancer input) None;
     EvSetId arn; EvLog "[INFO] LB ID"] in
  CreateLoadBalancer (elbv2conn meta) input w0 = (inr [lb], w1) ->
  LoadBalancerActive (elbv2conn meta) arn (Timeout (rd s) TimeoutCreate) w1 = (r, w2) ->
  Id d1 = arn /\ Get d1 "name" = VString name /\
  match r with
  | inl e =>
      resourceAwsLbCreate meta update s
      = (inl (ErrorfW "error waiting for Load Balancer to be active: " e), mkSt w2 d1,
         created ++ [EvCall (elbv2_waiter_LoadBalancerActive arn) (Some e)])
  | inr _ =>
      resourceAwsLbCreate meta update s
      = ((update (mkSt w2 d1)).1.1, (update (mkSt w2 d1)).1.2,
         created ++ [EvCall (elbv2_waiter_LoadBalancerActive arn) None]
         ++ (update (mkSt w2 d1)).2)
  end.
Proof.
  intros name w0 input arn d1 created Hcreate Hactive.
  split; [done|]. split; [unfold d1; by get_simpl|].
  rewrite lb_create_run. cbv zeta. fold name w0 input. rewrite Hcreate. fold arn.
  change (Timeout (Set_ (rd s) "name" (VString name)) TimeoutCreate)
    with (Timeout (rd s) TimeoutCreate).
  rewrite Hactive. fold d1. destruct r as [e|[]]; [done|].
  by destruct (update (mkSt w2 d1)) as [[r' s'] evs].
Qed.

End LbHandlers.


Lemma lb_create_waits_before_update_witness :
  let s := configured [("name", VString "lb")] in
  (resourceAwsLbCreate (scripted never_active) (mret tt) s).1
  = (inl (ErrorfW "error waiting for Load Balancer to be active: " (Errorf "ResourceNotReady")),
     mkSt 2 (SetId (Set_ (rd s) "name" (VString "lb")) (LoadBalancerArn (loadBalancer "lb")))).
Proof.
  intros s.
  destruct (lb_create_waits_before_update (scripted never_active) (mret tt) s
              (loadBalancer "lb") 1 (inl (Errorf "ResourceNotReady")) 2 eq_refl eq_refl)
    as (_ & _ & H).
  by rewrite H.
Defined.

(** ** SSM document: Create *)

Section SsmCreate.
Context {W : Type} (meta : AWSClient W).
Implicit Types s : St W.



End SsmCreate.


(** ** Load balancer: availability zones *)





(** ** Load balancer: Read *)

Section LBReadProperties.
Context {W : Type}.
Variable LoadBalancerByARN : string -> W -> (error + option LoadBalancer) * W.
Variable flattenAwsLbResource : LoadBalancer -> M W unit.
Implicit Types s : St W.

(** Read never drops a load balancer that is being created: when the finder
    reports it as not found or returns nothing, Read of a new resource fails,
    while Read of an existing one clears the Id and returns success. Any other
    error of the finder is returned wrapped, and a load balancer that is found
    is handed to [flattenAwsLbResource], whose outcome is the outcome of
    Read. *)
Theorem lb_read_branches s r w1 :
  LoadBalancerByARN (Id (rd s)) (world s) = (r, w1) ->
  let run := resourceAwsLbRead LoadBalancerByARN flattenAwsLbResource s in
  let gone :=
    (inr tt, mkSt w1 (SetId (rd s) ""),
     [EvLog "[WARN] ALB not found in AWS, removing from state"; EvSetId ""]) in
  match r with
  | inl e =>
      if negb (IsNewResource (rd s)) && isAWSErr e ErrCodeAccessPointNotFoundException
      then run = gone
      else run = (inl (ErrorfW "error retrieving ALB: " e), mkSt w1 (rd s), [])
  | inr None =>
      if IsNewResource (rd s)
      then run = (inl (Errorf "error retrieving ALB: empty output after creation"),
                  mkSt w1 (rd s), [])
      else run = gone
  | inr (Some lb) => run = flattenAwsLbResource lb (mkSt w1 (rd s))
  end.
Proof.
  intros Hfind run gone. subst run gone.
  destruct r as [e|[lb|]].
  - destruct (negb (IsNewResource (rd s)) && isAWSErr e ErrCodeAccessPointNotFoundException)
      eqn:Hgone.
    + wp_start (resourceAwsLbRead LoadBalancerByARN flattenAwsLbResource s).
      unfold resourceAwsLbRead. repeat wp_pure. apply wp_ask. intros ? ? Hask.
      rewrite Hfind in Hask. injection Hask as <- <-. apply wp_bind.
      unfold wp at 1. cbn [dIsNewResource rd app]. rewrite Hgone. by repeat wp_pure.
    + wp_start (resourceAwsLbRead LoadBalancerByARN flattenAwsLbResource s).
      unfold resourceAwsLbRead. repeat wp_pure. apply wp_ask. intros ? ? Hask.
      rewrite Hfind in Hask. injection Hask as <- <-. apply wp_bind.
      unfold wp at 1. cbn [dIsNewResource rd app]. rewrite Hgone. by repeat wp_pure.
  - wp_start (resourceAwsLbRead LoadBalancerByARN flattenAwsLbResource s).
    unfold resourceAwsLbRead. repeat wp_pure. apply wp_ask. intros ? ? Hask.
    rewrite Hfind in Hask. injection Hask as <- <-. apply wp_bind.
    unfold wp at 1. cbn [dIsNewResource rd app]. rewrite andb_false_r. repeat wp_pure.
    unfold wp. by destruct (flattenAwsLbResource lb _) as [[? ?] ?].
  - destruct (IsNewResource (rd s)) eqn:Hnew.
    + wp_start (resourceAwsLbRead LoadBalancerByARN flattenAwsLbResource s).
      unfold resourceAwsLbRead. repeat wp_pure. apply wp_ask. intros ? ? Hask.
      rewrite Hfind in Hask. injection Hask as <- <-. apply wp_bind.
      unfold wp at 1. cbn [dIsNewResource rd app]. rewrite Hnew. cbn [negb andb].
      by repeat wp_pure.
    + wp_start (resourceAwsLbRead LoadBalancerByARN flattenAwsLbResource s).
      unfold resourceAwsLbRead. repeat wp_pure. apply wp_ask. intros ? ? Hask.
      rewrite Hfind in Hask. injection Hask as <- <-. apply wp_bind.
      unfold wp at 1. cbn [dIsNewResource rd app]. rewrite Hnew. cbn [negb andb].
      by repeat wp_pure.
Qed.

End LBReadProperties.

Lemma lb_read_branches_witness :
  let finder := fun (arn : string) (n : nat) =>
    (inl (AWSErr ErrCodeAccessPointNotFoundException "not found") : error + option LoadBalancer,
     S n) in
  resourceAwsLbRead finder (fun _ => mret tt) (configured [])
  = (inl (ErrorfW "error retrieving ALB: "
            (AWSErr ErrCodeAccessPointNotFoundException "not found")),
     mkSt 1 (rd (configured [])), []) /\
  resourceAwsLbRead finder (fun _ => mret tt) (existing lbArn [])
  = (inr tt, mkSt 1 (SetId (rd (existing lbArn [])) ""),
     [EvLog "[WARN] ALB not found in AWS, removing from state"; EvSetId ""]).
Proof.
  intros finder. split.
  - exact (lb_read_branches finder (fun _ => mret tt) (configured []) _ 1 eq_refl).
  - exact (lb_read_branches finder (fun _ => mret tt) (existing lbArn []) _ 1 eq_refl).
Defined.

(** ** Load balancer: the subnets of a network load balancer *)

Section CustomizeDiffProperties.
Context {D : Type}.
Variable diff_Get : D -> string -> GoValue.
Variable diff_Id : D -> string.
Variable diff_GetChange : D -> string -> GoValue * GoValue.
Variable diff_SetNew : string -> GoValue -> D -> error + D.
Variable diff_ForceNew : string -> D -> error + D.

(** The diff is touched exactly when the load balancer is of type
    "network", exists, and its old and new subnets differ as sets: the order
    of the subnets and repeated subnets make no difference. It is then given
    the new subnets and marked; otherwise it is returned as it is. *)
Theorem customize_diff_forces_new (diff : D) :
  let lbType := as_string (diff_Get diff "load_balancer_type") in
  let o := (diff_GetChange diff "subnets").1 in
  let n := (diff_GetChange diff "subnets").2 in
  let os : gset string := list_to_set (as_strings o) in
  let ns : gset string := list_to_set (as_strings n) in
  let run := customizeDiffNLBSubnets diff_Get diff_Id diff_GetChange diff_SetNew diff_ForceNew
               diff in
  (lbType ≠ "network" \/ diff_Id diff = "" \/ os = ns -> run = inr diff) /\
  (lbType = "network" -> diff_Id diff ≠ "" -> os ≠ ns ->
   run = match diff_SetNew "subnets" (if bool_decide (n = VNil) then VStrings [] else n) diff with
         | inl err => inl err
         | inr diff' => diff_ForceNew "subnets" diff'
         end).
Proof.
  intros lbType o n os ns run. subst run. unfold customizeDiffNLBSubnets.
  fold lbType. unfold LoadBalancerTypeEnumNetwork.
  subst os ns o n.
  destruct (diff_GetChange diff "subnets") as [o n] eqn:Hchange. cbn [fst snd].
  assert (as_strings (if bool_decide (o = VNil) then VStrings [] else o) = as_strings o) as ->.
  { case_bool_decide as Ho; [by rewrite Ho|done]. }
  assert (as_strings (if bool_decide (n = VNil) then VStrings [] else n) = as_strings n) as ->.
  { case_bool_decide as Hn; [by rewrite Hn|done]. }
  set (os := list_to_set (as_strings o) : gset string).
  set (ns := list_to_set (as_strings n) : gset string).
  assert ((0 < length (elements (os ∖ ns)) \/ 0 < length (elements (ns ∖ os))) <-> os ≠ ns)
    as Hdiffer.
  { assert (forall X : gset string, 0 < length (elements X) <-> X ≠ ∅) as Hne.
    { intros X. split.
      - intros Hlen ->. rewrite elements_empty in Hlen. cbn in Hlen. lia.
      - intros HX. destruct (elements X) eqn:He; [|cbn; lia].
        by apply elements_empty_inv, leibniz_equiv in He. }
    rewrite !Hne. split.
    - intros [H|H] Heq; apply H; rewrite Heq; apply leibniz_equiv, difference_diag.
    - intros Hneq. destruct (decide (os ∖ ns = ∅)) as [H1|H1]; [|by left]. right.
      intros H2. apply Hneq. apply set_eq. intros x.
      apply (f_equal (fun X => bool_decide (x ∈ X))) in H1, H2.
      rewrite (bool_decide_false (x ∈ (∅ : gset string))) in H1, H2 by apply not_elem_of_empty.
      apply bool_decide_eq_false in H1, H2. rewrite elem_of_difference in H1, H2.
      destruct (decide (x ∈ os)); destruct (decide (x ∈ ns)); tauto. }
  split.
  - intros Hskip. case_bool_decide as Htype; [done|].
    case_bool_decide as Hid; [done|].
    rewrite bool_decide_false; [done|]. rewrite Hdiffer.
    destruct Hskip as [H|[H|H]]; [by destruct H | done | intros Hx; by apply Hx].
  - intros Htype Hid Hne.
    rewrite bool_decide_false by (by intros ?).
    rewrite bool_decide_false by done.
    rewrite bool_decide_true by (by apply Hdiffer). done.
Qed.

End CustomizeDiffProperties.

Lemma customize_diff_forces_new_witness :
  let get := fun (d : ResourceData) key => Get d key in
  let change := fun (d : ResourceData) key => GetChange d key in
  let setNew := fun key v (d : ResourceData) => inr (Set_ d key v) : error + ResourceData in
  let forceNew := fun (key : string) (d : ResourceData) => inr d : error + ResourceData in
  let d := mkResourceData lbArn
             (list_to_map [("load_balancer_type", VString "network");
                           ("subnets", VStrings ["subnet-1"; "subnet-2"])])
             (list_to_map [("load_balancer_type", VString "network");
                           ("subnets", VStrings ["subnet-2"; "subnet-1"; "subnet-2"])])
             false (fun _ => 3) in
  customizeDiffNLBSubnets get Id change setNew forceNew d = inr d.
Proof.
  intros get change setNew forceNew d.
  destruct (customize_diff_forces_new get Id change setNew forceNew d) as [H _].
  apply H. right. right. vm_compute. reflexivity.
Defined.
